(** * Topology-aware hint generation and merging (kubelet topology manager)

    A shallow embedding of the hint model ([TopologyHint] and its comparison,
    equality, getters and constructors, topology_manager.go), of the
    distributed policy (policy_distributed.go), of the device manager's
    hint generator (package devicemanager) and of the API validators of
    topology information (resource/v1, validation.go), followed by the
    properties established about them.

    Conventions of the embedding.
    - Go's [int] is [Z]; the two running sums that can leave the 64-bit range
      are wrapped with [wrap64].  [float64] is Rocq's primitive binary64
      [float]; [float64_of_int] is Go's conversion [float64(n)].  Every
      float64 operation is rounded on its own (no fused multiply-add).
    - A pointer field ([*int], [*float64]) is an [option]; [None] is [nil].
      An interface value ([bitmask.BitMask]) is an [option] too.
    - A run-time panic is the result [None] of a function returning
      [option]; functions that cannot panic return their value directly.
    - The process-wide feature gate read by [EnhancedTopologyHintsEnabled()]
      is the section variable [EnhancedTopologyHintsEnabled]: one value for
      the whole call.
    - Go ranges over a map or a set in an unspecified order.  A map or set
      that the code ranges over is the list of its entries in the order this
      run visits them, so that every statement holds for every order.  The
      device table, which is only looked up and counted over, is a [gmap]. *)

From Stdlib Require Import ZArith NArith List Bool Floats String Lia Permutation.
From stdpp Require Import base strings gmap.
Import ListNotations.

#[local] Open Scope Z_scope.
#[local] Set Warnings "-inexact-float".

(** ** Machine numbers *)

(** Go's [int] on a 64-bit platform: two's complement wrap-around. *)
Definition wrap64 (z : Z) : Z := (z + 2 ^ 63) mod 2 ^ 64 - 2 ^ 63.

(** [float64(n)]: the binary64 value nearest to [n], ties to even. *)
Definition float64_of_int (n : Z) : float :=
  SF2Prim (binary_normalize prec emax n 0 false).

(** Number of elements of a slice satisfying a test, as an [int]. *)
Definition countIf {A : Type} (f : A -> bool) (l : list A) : Z :=
  fold_left (fun n x => if f x then n + 1 else n) l 0.

(** A loop whose body may panic: [None] is the panic. *)
Fixpoint foldPanic {A S : Type} (f : S -> A -> option S) (l : list A) (s : S)
  : option S :=
  match l with
  | [] => Some s
  | x :: rest => s' ← f s x; foldPanic f rest s'
  end.

(** ** Package bitmask *)

Module bitmask.

(** Modelled from the spec: package [bitmask] is not among the sources.  The
    spec (section 3, BitMask) gives a set over NUMA node indices with
    set/test of a bit, count of set bits, set equality, bitwise AND, the
    predicate any-of(indices) and the order "narrower than".  A mask is the
    number whose binary digits are the members. *)
Definition BitMask : Type := N.

Fixpoint bitsFrom (i : Z) (p : positive) : list Z :=
  match p with
  | xH => [i]
  | xO q => bitsFrom (i + 1) q
  | xI q => i :: bitsFrom (i + 1) q
  end.

(** Modelled from the spec: the members of the mask, ascending. *)
Definition GetBits (m : BitMask) : list Z :=
  match m with
  | N0 => []
  | Npos p => bitsFrom 0 p
  end.

(** Modelled from the spec: count of set bits. *)
Definition Count (m : BitMask) : Z := Z.of_nat (length (GetBits m)).

(** Modelled from the spec: test of one bit; an index below zero is in no
    mask. *)
Definition IsSet (m : BitMask) (b : Z) : bool :=
  (0 <=? b) && N.testbit m (Z.to_N b).

(** Modelled from the spec: the predicate any-of(indices). *)
Definition AnySet (m : BitMask) (bits : list Z) : bool := existsb (IsSet m) bits.

(** Modelled from the spec: setting bits; indices below zero are left out. *)
Definition Add (m : BitMask) (bits : list Z) : BitMask :=
  fold_left
    (fun acc b => if 0 <=? b then N.lor acc (N.shiftl 1 (Z.to_N b)) else acc)
    bits m.

Definition NewBitMask (bits : list Z) : BitMask := Add 0%N bits.

(** Modelled from the spec: bitwise AND, emptiness and set equality. *)
Definition And (a b : BitMask) : BitMask := N.land a b.

Definition IsEmpty (m : BitMask) : bool := N.eqb m 0.

Definition IsEqual (a b : BitMask) : bool := N.eqb a b.

Definition IsProperSubsetOf (a b : BitMask) : bool :=
  N.eqb (N.land a b) a && negb (N.eqb a b).

Fixpoint lexLess (x y : list Z) : bool :=
  match x, y with
  | _, [] => false
  | [], _ :: _ => true
  | a :: x', b :: y' =>
      if a <? b then true else if b <? a then false else lexLess x' y'
  end.

(** Modelled from the spec: "a total order narrower than defined as: a < b
    iff a is a proper subset of b, else (fallback) a's set of bit indices
    compares lexicographically less than b's".  Inclusion decides when the
    two masks are comparable by it, in either direction (the relation is an
    order); the lexicographic fallback decides the others. *)
Definition IsNarrowerThan (a b : BitMask) : bool :=
  if IsProperSubsetOf a b then true
  else if IsProperSubsetOf b a then false
  else lexLess (GetBits a) (GetBits b).

Fixpoint combinations {A : Type} (size : nat) (bits : list A) {struct bits}
  : list (list A) :=
  match size, bits with
  | O, _ => [[]]
  | S _, [] => []
  | S k, b :: rest => map (cons b) (combinations k rest) ++ combinations size rest
  end.

(** Modelled from the spec: the mask enumerator (section 4.1) visits every
    non-empty subset of the given node indices once, smaller cardinality
    first and, within one cardinality, in lexicographic order of the
    indices.  The list is the sequence of masks handed to the callback. *)
Definition IterateBitMasks (bits : list Z) : list BitMask :=
  flat_map (fun size => map NewBitMask (combinations size bits))
           (seq 1 (length bits)).

End bitmask.

(** ** Package topologymanager: the hint model (topology_manager.go) *)

Module topologymanager.

(** [TopologyHint]: the affinity is an interface value, the four enhanced
    fields are pointers. *)
Record TopologyHint : Type := mkTopologyHint {
  NUMANodeAffinity : option bitmask.BitMask;
  Preferred : bool;
  HopCount : option Z;
  Bandwidth : option float;
  Distance : option Z;
  Score : option float
}.

(** [equalIntPointer] compares two int pointers nil-safely. *)
Definition equalIntPointer (a b : option Z) : bool :=
  match a, b with
  | None, None => true
  | None, Some _ | Some _, None => false
  | Some x, Some y => x =? y
  end.

(** [equalFloat64Pointer] compares two float64 pointers nil-safely; [==] on
    float64 is the IEEE comparison [PrimFloat.eqb]. *)
Definition equalFloat64Pointer (a b : option float) : bool :=
  match a, b with
  | None, None => true
  | None, Some _ | Some _, None => false
  | Some x, Some y => PrimFloat.eqb x y
  end.

(** [IsEqual]. *)
Definition IsEqual (th topologyHint : TopologyHint) : bool :=
  if negb (Bool.eqb (Preferred th) (Preferred topologyHint)) then false
  else if
    match NUMANodeAffinity th, NUMANodeAffinity topologyHint with
    | None, None => false
    | None, Some _ | Some _, None => true
    | Some a, Some b => negb (bitmask.IsEqual a b)
    end
  then false
  else if negb (equalIntPointer (HopCount th) (HopCount topologyHint)) then false
  else if negb (equalFloat64Pointer (Bandwidth th) (Bandwidth topologyHint)) then false
  else if negb (equalIntPointer (Distance th) (Distance topologyHint)) then false
  else if negb (equalFloat64Pointer (Score th) (Score topologyHint)) then false
  else true.

(** [p != nil] for a pointer or an interface value. *)
Definition notNil {A : Type} (p : option A) : bool :=
  match p with
  | Some _ => true
  | None => false
  end.

(** [hasEnhancedFields] returns true if any enhanced topology field is set. *)
Definition hasEnhancedFields (th : TopologyHint) : bool :=
  notNil (HopCount th) || notNil (Bandwidth th)
  || notNil (Distance th) || notNil (Score th).

(** The call [a.IsNarrowerThan(b)] on two interface values.  A method call
    on a nil interface panics; the masks of package [bitmask] are defined on
    masks only, so a nil argument is read and panics as well. *)
Definition callIsNarrowerThan (a b : option bitmask.BitMask) : option bool :=
  match a, b with
  | Some s, Some mask => Some (bitmask.IsNarrowerThan s mask)
  | _, _ => None
  end.

(** The tie-breaks of [LessThan], each with the value [next] of the code
    that follows it when it does not decide.  By score: lower is better, and
    a scored hint is better than an unscored one. *)
Definition byScore (a b : option float) (next : bool) : bool :=
  match a, b with
  | Some x, Some y => if negb (PrimFloat.eqb x y) then PrimFloat.ltb x y else next
  | Some _, None => true
  | None, Some _ => false
  | None, None => next
  end.

(** By hop count and by distance: lower is better. *)
Definition byLowerInt (a b : option Z) (next : bool) : bool :=
  match a, b with
  | Some x, Some y => if negb (x =? y) then x <? y else next
  | _, _ => next
  end.

(** By bandwidth: higher is better. *)
Definition byHigherFloat (a b : option float) (next : bool) : bool :=
  match a, b with
  | Some x, Some y => if negb (PrimFloat.eqb x y) then PrimFloat.ltb y x else next
  | _, _ => next
  end.

Section FeatureGate.

(** The value [EnhancedTopologyHintsEnabled()] returns during the call. *)
Variable EnhancedTopologyHintsEnabled : bool.

(** [LessThan].  The affinity comparison is evaluated first, before the gate
    and the enhanced fields are looked at. *)
Definition LessThan (th other : TopologyHint) : option bool :=
  if negb (Bool.eqb (Preferred th) (Preferred other)) then Some (Preferred th)
  else
    numaComparison ← callIsNarrowerThan (NUMANodeAffinity th) (NUMANodeAffinity other);
    if EnhancedTopologyHintsEnabled
       && (hasEnhancedFields th || hasEnhancedFields other)
    then
      Some (byScore (Score th) (Score other)
              (byLowerInt (HopCount th) (HopCount other)
                 (byLowerInt (Distance th) (Distance other)
                    (byHigherFloat (Bandwidth th) (Bandwidth other)
                       numaComparison))))
    else Some numaComparison.

(** The getters: the default when the gate is off or the field is nil, the
    stored value otherwise. *)
Definition GetHopCount (th : TopologyHint) : Z :=
  if negb EnhancedTopologyHintsEnabled then 0
  else match HopCount th with
       | None => 0
       | Some v => v
       end.

Definition GetBandwidth (th : TopologyHint) : float :=
  if negb EnhancedTopologyHintsEnabled then 0%float
  else match Bandwidth th with
       | None => 0%float
       | Some v => v
       end.

Definition GetDistance (th : TopologyHint) : Z :=
  if negb EnhancedTopologyHintsEnabled then 10
  else match Distance th with
       | None => 10
       | Some v => v
       end.

Definition GetScore (th : TopologyHint) : float :=
  if negb EnhancedTopologyHintsEnabled then 0%float
  else match Score th with
       | None => 0%float
       | Some v => v
       end.

(** [SetEnhancedFields] stores the four pointers, or does nothing when the
    gate is off.  The receiver is updated in place; here the updated hint is
    returned. *)
Definition SetEnhancedFields (th : TopologyHint)
    (hopCount : option Z) (bandwidth : option float)
    (distance : option Z) (score : option float) : TopologyHint :=
  if negb EnhancedTopologyHintsEnabled then th
  else mkTopologyHint (NUMANodeAffinity th) (Preferred th)
                      hopCount bandwidth distance score.

(** [CalculateTopologyScore]. *)
Definition CalculateTopologyScore
    (hopCount : Z) (bandwidth : float) (distance : Z) (dataSize : Z) : float :=
  if negb EnhancedTopologyHintsEnabled then 0%float
  else
    let baseLatency := 10%float in
    let hopLatency := 10%float in
    let latency := (baseLatency + float64_of_int hopCount * hopLatency)%float in
    let latency :=
      if distance >? 10 then (latency + float64_of_int (distance - 10))%float
      else latency in
    let bandwidthPenalty :=
      if PrimFloat.ltb 0 bandwidth && (dataSize >? 0) then
        let bandwidthBytesPerSecond := (bandwidth * 1024 * 1024 * 1024)%float in
        (float64_of_int dataSize / bandwidthBytesPerSecond)%float
      else 0%float in
    (latency + bandwidthPenalty)%float.

(** [UpdateScore]. *)
Definition UpdateScore (th : TopologyHint) (dataSize : Z) : TopologyHint :=
  if negb EnhancedTopologyHintsEnabled then th
  else
    let score :=
      CalculateTopologyScore (GetHopCount th) (GetBandwidth th)
                             (GetDistance th) dataSize in
    mkTopologyHint (NUMANodeAffinity th) (Preferred th)
                   (HopCount th) (Bandwidth th) (Distance th) (Some score).

(** [CreateEnhancedHint]. *)
Definition CreateEnhancedHint (numaAffinity : option bitmask.BitMask)
    (preferred : bool) (hopCount : Z) (bandwidth : float) (distance : Z)
    (dataSize : Z) : TopologyHint :=
  let hint := mkTopologyHint numaAffinity preferred None None None None in
  if EnhancedTopologyHintsEnabled then
    let score := CalculateTopologyScore hopCount bandwidth distance dataSize in
    mkTopologyHint (NUMANodeAffinity hint) (Preferred hint)
                   (Some hopCount) (Some bandwidth) (Some distance) (Some score)
  else hint.

End FeatureGate.

(** ** Package topologymanager: NUMA information and mergers (not among the sources) *)

(** Modelled from the spec: [NUMAInfo] (section 3) is an ordered list of node
    ids and a distance matrix; the tests of the distributed policy build it as
    [NUMAInfo{Nodes: []int{0}, NUMADistances: ...}]. *)
Record NUMAInfo : Type := mkNUMAInfo {
  Nodes : list Z;
  NUMADistances : list (Z * list Z)
}.

(** Modelled from the spec: [DefaultAffinityMask] is the mask with all nodes
    set. *)
Definition DefaultAffinityMask (n : NUMAInfo) : bitmask.BitMask :=
  bitmask.NewBitMask (Nodes n).

(** Modelled from the spec: the options carry [max_allowable_numa_nodes]
    (section 6). *)
Record PolicyOptions : Type := mkPolicyOptions {
  MaxAllowableNUMANodes : Z
}.

(** One provider's [map[string][]TopologyHint], as the list of its entries in
    the order the run ranges over them. *)
Definition ProviderHints : Type := list (string * list TopologyHint).

(** The receiver built by [NewHintMerger(numaInfo, hints, policyName, opts)]. *)
Record HintMerger : Type := NewHintMerger {
  hmNUMAInfo : NUMAInfo;
  hmHints : list (list TopologyHint);
  hmPolicyName : string;
  hmOpts : PolicyOptions
}.

(** The receiver built by [NewEnhancedHintMerger(numaInfo, defaultMask,
    providersHints)]; [SetDistributedMerging] sets its flag. *)
Record EnhancedHintMerger : Type := mkEnhancedHintMerger {
  ehmNUMAInfo : NUMAInfo;
  ehmDefaultAffinity : option bitmask.BitMask;
  ehmProvidersHints : list ProviderHints;
  ehmDistributedMerging : bool
}.

Definition NewEnhancedHintMerger (numaInfo : NUMAInfo)
    (defaultAffinity : option bitmask.BitMask)
    (providersHints : list ProviderHints) : EnhancedHintMerger :=
  mkEnhancedHintMerger numaInfo defaultAffinity providersHints false.

Definition SetDistributedMerging (m : EnhancedHintMerger) (enabled : bool)
  : EnhancedHintMerger :=
  mkEnhancedHintMerger (ehmNUMAInfo m) (ehmDefaultAffinity m)
                       (ehmProvidersHints m) enabled.

(** ** Package topologymanager: the distributed policy (policy_distributed.go) *)

Record distributedPolicy : Type := NewDistributedPolicy {
  numaInfo : NUMAInfo;
  opts : PolicyOptions
}.

Definition PolicyDistributed : string := "distributed".

Definition Name (p : distributedPolicy) : string := PolicyDistributed.

(** [canAdmitPodResult]: the distributed policy accepts any hint with an
    affinity. *)
Definition canAdmitPodResult (p : distributedPolicy) (hint : TopologyHint) : bool :=
  notNil (NUMANodeAffinity hint).

(** [hasMultipleResourceTypes]: the resource names are collected in a set. *)
Definition hasMultipleResourceTypes (p : distributedPolicy)
    (providersHints : list ProviderHints) : bool :=
  let resourceTypes : gset string :=
    fold_left
      (fun acc (providerHints : ProviderHints) =>
         fold_left (fun acc entry => {[ fst entry ]} ∪ acc) providerHints acc)
      providersHints ∅ in
  Z.of_nat (size resourceTypes) >? 1.

Section Policy.

Variable EnhancedTopologyHintsEnabled : bool.

(** The three functions of policy.go the distributed policy calls; they are
    not among the sources and are parameters here.  A merger may panic. *)
Variable filterProvidersHints : list ProviderHints -> list (list TopologyHint).
Variable HintMerger_Merge : HintMerger -> option TopologyHint.
Variable EnhancedHintMerger_Merge : EnhancedHintMerger -> option TopologyHint.

(** The running totals of [createDistributedHint]. *)
Record distributedTotals : Type := mkTotals {
  totalHopCount : Z;
  totalDistance : Z;
  totalBandwidth : float;
  totalScore : float;
  hintCount : Z;
  allPreferred : bool
}.

(** The body of the innermost loop of [createDistributedHint]. *)
Definition collectHint (t : distributedTotals) (hint : TopologyHint)
  : distributedTotals :=
  if notNil (NUMANodeAffinity hint) then
    let hintCount' := hintCount t + 1 in
    let allPreferred' := if negb (Preferred hint) then false else allPreferred t in
    if EnhancedTopologyHintsEnabled && hasEnhancedFields hint then
      mkTotals
        (wrap64 (totalHopCount t + GetHopCount EnhancedTopologyHintsEnabled hint))
        (wrap64 (totalDistance t + GetDistance EnhancedTopologyHintsEnabled hint))
        (totalBandwidth t + GetBandwidth EnhancedTopologyHintsEnabled hint)%float
        (totalScore t + GetScore EnhancedTopologyHintsEnabled hint)%float
        hintCount' allPreferred'
    else
      mkTotals (totalHopCount t) (totalDistance t) (totalBandwidth t)
               (totalScore t) hintCount' allPreferred'
  else t.

(** The three nested loops: providers, resources, hints. *)
Definition collectHints (providersHints : list ProviderHints) : distributedTotals :=
  fold_left
    (fun t (providerHints : ProviderHints) =>
       fold_left (fun t entry => fold_left collectHint (snd entry) t)
                 providerHints t)
    providersHints
    (mkTotals 0 0 0%float 0%float 0 true).

(** [createDistributedHint]. *)
Definition createDistributedHint (p : distributedPolicy)
    (providersHints : list ProviderHints) : TopologyHint :=
  let distributedAffinity := DefaultAffinityMask (numaInfo p) in
  let t := collectHints providersHints in
  let distributedHint :=
    mkTopologyHint (Some distributedAffinity) (allPreferred t)
                   None None None None in
  if EnhancedTopologyHintsEnabled && (hintCount t >? 0) then
    let avgHopCount := Z.quot (totalHopCount t) (hintCount t) in
    let avgDistance := Z.quot (totalDistance t) (hintCount t) in
    let avgBandwidth := (totalBandwidth t / float64_of_int (hintCount t))%float in
    let avgScore := (totalScore t / float64_of_int (hintCount t))%float in
    let distributionPenalty :=
      (float64_of_int (bitmask.Count distributedAffinity - 1) * 5)%float in
    let adjustedScore := (avgScore + distributionPenalty)%float in
    mkTopologyHint (NUMANodeAffinity distributedHint) (Preferred distributedHint)
                   (Some avgHopCount) (Some avgBandwidth) (Some avgDistance)
                   (Some adjustedScore)
  else distributedHint.

(** [applyDistributionLogic]. *)
Definition applyDistributionLogic (p : distributedPolicy)
    (merger : EnhancedHintMerger) (providersHints : list ProviderHints)
  : option TopologyHint :=
  baseHint ← EnhancedHintMerger_Merge merger;
  if Z.of_nat (length (Nodes (numaInfo p))) <=? 1 then Some baseHint
  else
    let distributedHint := createDistributedHint p providersHints in
    match NUMANodeAffinity distributedHint with
    | Some affinity =>
        if bitmask.Count affinity >? 1 then Some distributedHint
        else Some baseHint
    | None => Some baseHint
    end.

(** [Merge]: the hint and the admission flag, or a panic. *)
Definition Merge (p : distributedPolicy) (providersHints : list ProviderHints)
  : option (TopologyHint * bool) :=
  if negb EnhancedTopologyHintsEnabled then
    let filteredHints := filterProvidersHints providersHints in
    let merger := NewHintMerger (numaInfo p) filteredHints "best-effort" (opts p) in
    bestHint ← HintMerger_Merge merger;
    Some (bestHint, notNil (NUMANodeAffinity bestHint))
  else if negb (hasMultipleResourceTypes p providersHints) then
    let enhancedMerger :=
      NewEnhancedHintMerger (numaInfo p)
        (Some (DefaultAffinityMask (numaInfo p))) providersHints in
    bestHint ← EnhancedHintMerger_Merge enhancedMerger;
    let admits := canAdmitPodResult p bestHint in
    Some (bestHint, admits)
  else
    let enhancedMerger :=
      NewEnhancedHintMerger (numaInfo p)
        (Some (DefaultAffinityMask (numaInfo p))) providersHints in
    let enhancedMerger := SetDistributedMerging enhancedMerger true in
    distributedHint ← applyDistributionLogic p enhancedMerger providersHints;
    let admits := canAdmitPodResult p distributedHint in
    Some (distributedHint, admits).

End Policy.

(** ** Package topologymanager: the filter and the two mergers, from the spec *)

Section Mergers.

Variable EnhancedTopologyHintsEnabled : bool.

(** Modelled from the spec: the filter of one resource's hint list.
    [filter_providers_hints] (section 4.5) "drops any hint whose affinity is
    neither None nor intersects the default mask, and drops any non-preferred
    hint when the provider list contains at least one preferred hint for the
    same resource". *)
Definition filterHints (defaultMask : bitmask.BitMask) (hints : list TopologyHint)
  : list TopologyHint :=
  let valid :=
    List.filter
      (fun h => match NUMANodeAffinity h with
                | None => true
                | Some a => negb (bitmask.IsEmpty (bitmask.And a defaultMask))
                end)
      hints in
  if existsb Preferred hints then List.filter Preferred valid else valid.

(** Modelled from the spec: [filter_providers_hints], which is
    [filterProvidersHints] of policy.go (not among the sources); the result
    is one list per requested resource (section 4.2, input). *)
Definition filter_providers_hints (n : NUMAInfo)
    (providersHints : list ProviderHints) : list (list TopologyHint) :=
  flat_map
    (fun providerHints : ProviderHints =>
       map (fun entry => filterHints (DefaultAffinityMask n) (snd entry))
           providerHints)
    providersHints.

(** Modelled from the spec: step A of the merger (section 4.2), "walk every
    tuple (one hint per resource)". *)
Fixpoint tuples {A : Type} (lists : list (list A)) : list (list A) :=
  match lists with
  | [] => [[]]
  | l :: rest => flat_map (fun x => map (cons x) (tuples rest)) l
  end.

(** Modelled from the spec: a don't-care hint contributes the default mask
    (step A); the merged affinity is the AND over the tuple's affinities
    (step B). *)
Definition affinityOrDefault (defaultMask : bitmask.BitMask) (h : TopologyHint)
  : bitmask.BitMask :=
  match NUMANodeAffinity h with
  | None => defaultMask
  | Some a => a
  end.

Definition mergedAffinity (defaultMask : bitmask.BitMask)
    (tuple : list TopologyHint) : bitmask.BitMask :=
  match tuple with
  | [] => defaultMask
  | h :: rest =>
      fold_left (fun acc h' => bitmask.And acc (affinityOrDefault defaultMask h'))
                rest (affinityOrDefault defaultMask h)
  end.

(** Modelled from the spec: step D, the smallest bit count among the
    preferred hints of the input or, if there is none, among all hints. *)
Definition minAffinitySize (defaultMask : bitmask.BitMask)
    (hints : list (list TopologyHint)) : Z :=
  let all := concat hints in
  let pool :=
    if existsb Preferred all then List.filter Preferred all else all in
  fold_left
    (fun acc h => Z.min acc (bitmask.Count (affinityOrDefault defaultMask h)))
    pool (bitmask.Count defaultMask).

(** Modelled from the spec: absent fields on one side propagate the other
    side; all-absent stays absent (section 4.3). *)
Definition combineField {A : Type} (f : A -> A -> A) (a b : option A) : option A :=
  match a, b with
  | Some x, Some y => Some (f x y)
  | Some x, None => Some x
  | None, _ => b
  end.

Definition minFloat (x y : float) : float := if PrimFloat.ltb y x then y else x.

(** Modelled from the spec: the candidate of one tuple (steps B and D): the
    conjunction of the affinities and of the preferred flags, preferred only
    if its bit count is at most [minAffinitySize]; with [enhanced] the fields
    are combined as hop_count = max, distance = max, bandwidth = min,
    score = sum, the fields of don't-care hints being ignored. *)
Definition mergeTuple (enhanced : bool) (defaultMask : bitmask.BitMask)
    (minSize : Z) (tuple : list TopologyHint) : TopologyHint :=
  let affinity := mergedAffinity defaultMask tuple in
  let preferred :=
    forallb Preferred tuple && (bitmask.Count affinity <=? minSize) in
  let carriers :=
    List.filter (fun h => enhanced && notNil (NUMANodeAffinity h)) tuple in
  mkTopologyHint (Some affinity) preferred
    (fold_left (fun acc h => combineField Z.max acc (HopCount h)) carriers None)
    (fold_left (fun acc h => combineField minFloat acc (Bandwidth h)) carriers None)
    (fold_left (fun acc h => combineField Z.max acc (Distance h)) carriers None)
    (fold_left (fun acc h => combineField PrimFloat.add acc (Score h)) carriers None).

(** Modelled from the spec: the surviving candidates; tuples whose merged
    affinity is empty are dropped (step B). *)
Definition candidates (enhanced : bool) (defaultMask : bitmask.BitMask)
    (hints : list (list TopologyHint)) : list TopologyHint :=
  List.filter
    (fun c => negb (bitmask.IsEmpty (affinityOrDefault defaultMask c)))
    (map (mergeTuple enhanced defaultMask (minAffinitySize defaultMask hints))
         (tuples hints)).

(** Modelled from the spec: step C, the best candidate per the ordering,
    seeded with the sentinel of default affinity and [preferred = false]. *)
Definition pickBest (less : TopologyHint -> TopologyHint -> option bool)
    (cands : list TopologyHint) (seed : TopologyHint) : option TopologyHint :=
  foldPanic
    (fun best c => isLess ← less c best; Some (if isLess : bool then c else best))
    cands seed.

Definition seedHint (defaultMask : bitmask.BitMask) : TopologyHint :=
  mkTopologyHint (Some defaultMask) false None None None None.

(** Modelled from the spec: the classic merger (section 4.2), [Merge] of the
    [HintMerger] of policy.go (not among the sources).  Empty input returns
    the seed. *)
Definition classic_merge (m : HintMerger) : option TopologyHint :=
  let defaultMask := DefaultAffinityMask (hmNUMAInfo m) in
  match hmHints m with
  | [] => Some (seedHint defaultMask)
  | _ :: _ =>
      pickBest (LessThan EnhancedTopologyHintsEnabled)
               (candidates false defaultMask (hmHints m))
               (seedHint defaultMask)
  end.

Definition multiNode (h : TopologyHint) : bool :=
  match NUMANodeAffinity h with
  | Some a => bitmask.Count a >? 1
  | None => false
  end.

(** Modelled from the spec: the comparator of the enhanced merger (section
    4.3): the extended ordering; with [distributed_merging], "multi-node
    candidates are ranked by score alone within a given preferred band". *)
Definition enhancedLess (distributed : bool) (c best : TopologyHint) : option bool :=
  if distributed && Bool.eqb (Preferred c) (Preferred best)
     && multiNode c && multiNode best
  then Some (PrimFloat.ltb (GetScore EnhancedTopologyHintsEnabled c)
                           (GetScore EnhancedTopologyHintsEnabled best))
  else LessThan EnhancedTopologyHintsEnabled c best.

(** Modelled from the spec: the enhanced merger (section 4.3), [Merge] of the
    [EnhancedHintMerger] of policy.go (not among the sources), run on the
    filtered hints (section 4.5, distributed row). *)
Definition enhanced_merge (m : EnhancedHintMerger) : option TopologyHint :=
  let defaultMask :=
    default (DefaultAffinityMask (ehmNUMAInfo m)) (ehmDefaultAffinity m) in
  let hints := filter_providers_hints (ehmNUMAInfo m) (ehmProvidersHints m) in
  match hints with
  | [] => Some (seedHint defaultMask)
  | _ :: _ =>
      pickBest (enhancedLess (ehmDistributedMerging m))
               (candidates true defaultMask hints)
               (seedHint defaultMask)
  end.

(** The distributed policy's [Merge] run with the filter and the mergers of
    the spec. *)
Definition specMerge (p : distributedPolicy) (providersHints : list ProviderHints)
  : option (TopologyHint * bool) :=
  Merge EnhancedTopologyHintsEnabled
        (filter_providers_hints (numaInfo p)) classic_merge enhanced_merge
        p providersHints.

End Mergers.

End topologymanager.

(** ** The device plugin API types read by the device manager *)

Module pluginapi.

(** The declarations of [k8s.io/kubelet/pkg/apis/deviceplugin/v1beta1] are
    not among the sources; these are the fields the generator reads:
    [Device.Topology], [TopologyInfo.Nodes] and [NUMANode.ID]. *)
Record NUMANode : Type := mkNUMANode {
  ID : Z
}.

Record TopologyInfo : Type := mkTopologyInfo {
  Nodes : list NUMANode
}.

Record Device : Type := mkDevice {
  Topology : option TopologyInfo
}.

End pluginapi.

(** ** Package devicemanager: the hint generator *)

Module devicemanager.

Import topologymanager.

(** [DeviceInstances] is [map[string]*pluginapi.Device]: device id to device
    data.  [ResourceDeviceInstances] maps a resource name to it. *)
Abbreviation DeviceInstances := (gmap string pluginapi.Device).

(** The fields of [ManagerImpl] the generator reads. *)
Record ManagerImpl : Type := mkManagerImpl {
  allDevices : gmap string DeviceInstances;
  numaNodes : list Z
}.

(** [m.allDevices[resource]]: a missing resource gives the nil map, which
    ranges as the empty one. *)
Definition devicesOf (m : ManagerImpl) (resource : string) : DeviceInstances :=
  default ∅ (allDevices m !! resource).

(** [getNUMANodeIds]. *)
Definition getNUMANodeIds (topology : option pluginapi.TopologyInfo) : list Z :=
  match topology with
  | None => []
  | Some t => map pluginapi.ID (pluginapi.Nodes t)
  end.

Section FeatureGate.

Variable EnhancedTopologyHintsEnabled : bool.

(** [calculateEnhancedTopologyFields]; the hint is updated in place, here the
    updated hint is returned. *)
Definition calculateEnhancedTopologyFields (m : ManagerImpl)
    (hint : TopologyHint) (resource : string) (requestedDevices : Z)
  : TopologyHint :=
  if negb EnhancedTopologyHintsEnabled then hint
  else
    match NUMANodeAffinity hint with
    | None => hint
    | Some affinity =>
        let numaNodes := bitmask.GetBits affinity in
        if Z.of_nat (length numaNodes) =? 0 then hint
        else
          let hopCount := Z.of_nat (length numaNodes) - 1 in
          let hopCount := if hopCount <? 0 then 0 else hopCount in
          let nodeCount := Z.of_nat (length numaNodes) in
          let totalDistance :=
            if nodeCount =? 1 then 10 else 10 + hopCount * 20 in
          let baseBandwidth := 80%float in
          let bandwidthPenalty := (float64_of_int hopCount * 0.4)%float in
          let bandwidth := (baseBandwidth * (1 - bandwidthPenalty))%float in
          let bandwidth :=
            if PrimFloat.ltb bandwidth 10 then 10%float else bandwidth in
          let availableDevices :=
            fold_left
              (fun n (device : pluginapi.Device) =>
                 if notNil (pluginapi.Topology device) then
                   let deviceNodes := getNUMANodeIds (pluginapi.Topology device) in
                   fold_left
                     (fun n nodeID =>
                        if existsb (fun selectedNode => nodeID =? selectedNode)
                                   numaNodes
                        then n + 1 else n)
                     deviceNodes n
                 else n)
              (map snd (map_to_list (devicesOf m resource))) 0 in
          let utilizationRatio :=
            (float64_of_int requestedDevices / float64_of_int availableDevices)%float in
          let utilizationRatio :=
            if PrimFloat.ltb 1 utilizationRatio then 1%float else utilizationRatio in
          let distancePenalty := (float64_of_int (totalDistance - 10) * 2)%float in
          let hopPenalty := (float64_of_int hopCount * 12)%float in
          let utilizationBonus := ((1 - utilizationRatio) * 10)%float in
          let score := (distancePenalty + hopPenalty - utilizationBonus)%float in
          let score := if PrimFloat.ltb score 0 then 0%float else score in
          SetEnhancedFields EnhancedTopologyHintsEnabled hint
            (Some hopCount) (Some bandwidth) (Some totalDistance) (Some score)
    end.

(** [devicesInMask]: the devices of the resource whose topology has a node in
    the mask. *)
Definition devicesInMask (m : ManagerImpl) (resource : string)
    (mask : bitmask.BitMask) : Z :=
  countIf
    (fun device : pluginapi.Device =>
       bitmask.AnySet mask (getNUMANodeIds (pluginapi.Topology device)))
    (map snd (map_to_list (devicesOf m resource))).

(** The loop over the reusable devices.  [Some (Some n)]: the loop ended with
    [numMatching = n]; [Some None]: the callback returned, the mask is
    disregarded; [None]: [m.allDevices[resource][d]] was nil and was
    dereferenced. *)
Fixpoint reusableLoop (devs : DeviceInstances) (mask : bitmask.BitMask)
    (reusable : list string) (numMatching : Z) : option (option Z) :=
  match reusable with
  | [] => Some (Some numMatching)
  | d :: rest =>
      device ← devs !! d;
      if negb (notNil (pluginapi.Topology device)) then
        reusableLoop devs mask rest numMatching
      else if negb (bitmask.AnySet mask (getNUMANodeIds (pluginapi.Topology device)))
      then Some None
      else reusableLoop devs mask rest (numMatching + 1)
  end.

(** The loop over the available devices. *)
Fixpoint availableLoop (devs : DeviceInstances) (mask : bitmask.BitMask)
    (available : list string) (numMatching : Z) : option Z :=
  match available with
  | [] => Some numMatching
  | d :: rest =>
      device ← devs !! d;
      if bitmask.AnySet mask (getNUMANodeIds (pluginapi.Topology device))
      then availableLoop devs mask rest (numMatching + 1)
      else availableLoop devs mask rest numMatching
  end.

(** The callback handed to [IterateBitMasks]; its state is the captured
    [minAffinitySize] and [hints]. *)
Definition visitMask (m : ManagerImpl) (resource : string)
    (available reusable : list string) (request : Z)
    (st : Z * list TopologyHint) (mask : bitmask.BitMask)
  : option (Z * list TopologyHint) :=
  let minAffinitySize := fst st in
  let hints := snd st in
  let minAffinitySize :=
    if (devicesInMask m resource mask >=? request)
       && (bitmask.Count mask <? minAffinitySize)
    then bitmask.Count mask else minAffinitySize in
  r ← reusableLoop (devicesOf m resource) mask reusable 0;
  match r with
  | None => Some (minAffinitySize, hints)
  | Some numMatching =>
      numMatching ← availableLoop (devicesOf m resource) mask available numMatching;
      if numMatching <? request then Some (minAffinitySize, hints)
      else
        let hint := mkTopologyHint (Some mask) false None None None None in
        let hint :=
          if EnhancedTopologyHintsEnabled
          then calculateEnhancedTopologyFields m hint resource request
          else hint in
        Some (minAffinitySize, hints ++ [hint])
  end.

(** The final loop: a hint whose mask has [minAffinitySize] bits becomes
    preferred. *)
Definition markPreferred (minAffinitySize : Z) (hints : list TopologyHint)
    (hint : TopologyHint) : option (list TopologyHint) :=
  affinity ← NUMANodeAffinity hint;
  if bitmask.Count affinity =? minAffinitySize then
    Some (hints ++ [mkTopologyHint (NUMANodeAffinity hint) true (HopCount hint)
                      (Bandwidth hint) (Distance hint) (Score hint)])
  else Some (hints ++ [hint]).

(** [generateDeviceTopologyHints]; [available] and [reusable] are the two
    sets in the order the run ranges over them. *)
Definition generateDeviceTopologyHints (m : ManagerImpl) (resource : string)
    (available reusable : list string) (request : Z)
  : option (list TopologyHint) :=
  let minAffinitySize := Z.of_nat (length (numaNodes m)) in
  st ← foldPanic (visitMask m resource available reusable request)
                 (bitmask.IterateBitMasks (numaNodes m)) (minAffinitySize, []);
  foldPanic (markPreferred (fst st)) (snd st) [].

End FeatureGate.

(** [deviceHasTopologyAlignment]: some device of the resource declares a
    topology with at least one NUMA node. *)
Definition deviceHasTopologyAlignment (m : ManagerImpl) (resource : string) : bool :=
  existsb
    (fun device : pluginapi.Device =>
       match pluginapi.Topology device with
       | Some topology => Z.of_nat (length (pluginapi.Nodes topology)) >? 0
       | None => false
       end)
    (map snd (map_to_list (devicesOf m resource))).

End devicemanager.

(** ** The field errors of the API validators *)

Module field.

(** The package [k8s.io/apimachinery/pkg/util/validation/field] is a library
    outside the repository.  These are the parts of it the validators use: a
    path grows by [Child], [Key] and [Index]; an error has a type, the path
    of the field, the rejected value and a detail. *)
Inductive ErrorType : Type :=
| ErrorTypeInvalid
| ErrorTypeRequired
| ErrorTypeForbidden.

Inductive PathElement : Type :=
| Name (name : string)
| Key (key : string)
| Index (index : Z).

(** A path from the root to the field; the nil path is the root. *)
Definition Path : Type := list PathElement.

Definition NewPath (names : list string) : Path := map Name names.

Definition Child (p : Path) (name : string) : Path := p ++ [Name name].

Definition KeyOf (p : Path) (key : string) : Path := p ++ [Key key].

Definition IndexOf (p : Path) (index : Z) : Path := p ++ [Index index].

(** The rejected value ([interface{}]): the validators pass an integer, a
    float64 or a string. *)
Inductive Value : Type :=
| IntValue (v : Z)
| FloatValue (v : float)
| StringValue (v : string).

Record Error : Type := mkError {
  Type_ : ErrorType;
  Field : Path;
  BadValue : Value;
  Detail : string
}.

Definition ErrorList : Type := list Error.

Definition Invalid (p : Path) (value : Value) (detail : string) : Error :=
  mkError ErrorTypeInvalid p value detail.

Definition Required (p : Path) (detail : string) : Error :=
  mkError ErrorTypeRequired p (StringValue "") detail.

Definition Forbidden (p : Path) (detail : string) : Error :=
  mkError ErrorTypeForbidden p (StringValue "") detail.

End field.

(** ** Package resource/v1: validation of topology information (validation.go) *)

Module resourcev1.

(** The API types are declared outside validation.go; these are the fields
    the validators read, with the types the tests give them ([*int32],
    [*float64], [map[string]NodeConnectivity], [map[string]int64]).  A map is
    the list of its entries in the order the run ranges over it; the nil map
    is the empty list. *)
Record NodeConnectivity : Type := mkNodeConnectivity {
  ncBandwidth : option float;
  ncLatency : option Z
}.

Record InterconnectInfo : Type := mkInterconnectInfo {
  HopCount : option Z;
  Bandwidth : option float;
  Distance : option Z;
  Latency : option Z;
  ConnectivityMatrix : list (string * NodeConnectivity)
}.

Record NodeTopologyInfo : Type := mkNodeTopologyInfo {
  NodeID : Z;
  Resources : list (string * Z);
  InterconnectInfo_ : option InterconnectInfo
}.

Record Device : Type := mkDevice {
  deviceName : string
}.

Record ResourcePool : Type := mkResourcePool {
  poolName : string
}.

Record ResourceSliceSpec : Type := mkResourceSliceSpec {
  Driver : string;
  Pool : ResourcePool;
  NodeTopology : option NodeTopologyInfo;
  Devices : list Device
}.

(** [Name] is the name of the embedded [ObjectMeta]. *)
Record ResourceSlice : Type := mkResourceSlice {
  Name : string;
  Spec : ResourceSliceSpec
}.

(** [s == ""]. *)
Definition isEmpty (s : string) : bool := String.eqb s "".

(** The body of the loop of [validateConnectivityMatrix]. *)
Definition validateConnectivity (fldPath : field.Path) (allErrs : field.ErrorList)
    (entry : string * NodeConnectivity) : field.ErrorList :=
  let nodeID := fst entry in
  let connectivity := snd entry in
  let nodePath := field.KeyOf fldPath nodeID in
  if isEmpty nodeID then
    allErrs ++ [field.Invalid fldPath (field.StringValue nodeID)
                  "node ID cannot be empty"]
  else
    let allErrs :=
      match ncBandwidth connectivity with
      | Some bandwidth =>
          let allErrs :=
            if PrimFloat.ltb bandwidth 0 then
              allErrs ++ [field.Invalid (field.Child nodePath "bandwidth")
                            (field.FloatValue bandwidth)
                            "bandwidth must be non-negative"]
            else allErrs in
          if PrimFloat.ltb 1000000 bandwidth then
            allErrs ++ [field.Invalid (field.Child nodePath "bandwidth")
                          (field.FloatValue bandwidth)
                          "bandwidth must be less than or equal to 1000000 GB/s"]
          else allErrs
      | None => allErrs
      end in
    match ncLatency connectivity with
    | Some latency =>
        let allErrs :=
          if latency <? 0 then
            allErrs ++ [field.Invalid (field.Child nodePath "latency")
                          (field.IntValue latency)
                          "latency must be non-negative"]
          else allErrs in
        if latency >? 1000000 then
          allErrs ++ [field.Invalid (field.Child nodePath "latency")
                        (field.IntValue latency)
                        "latency must be less than or equal to 1000000 nanoseconds"]
        else allErrs
    | None => allErrs
    end.

(** [validateConnectivityMatrix]. *)
Definition validateConnectivityMatrix (matrix : list (string * NodeConnectivity))
    (fldPath : field.Path) : field.ErrorList :=
  fold_left (validateConnectivity fldPath) matrix [].

(** [ValidateInterconnectInfo]. *)
Definition ValidateInterconnectInfo (interconnectInfo : option InterconnectInfo)
    (fldPath : field.Path) : field.ErrorList :=
  let allErrs : field.ErrorList := [] in
  match interconnectInfo with
  | None => allErrs
  | Some info =>
      let allErrs :=
        match HopCount info with
        | Some hopCount =>
            let allErrs :=
              if hopCount <? 0 then
                allErrs ++ [field.Invalid (field.Child fldPath "hopCount")
                              (field.IntValue hopCount)
                              "hop count must be non-negative"]
              else allErrs in
            if hopCount >? 255 then
              allErrs ++ [field.Invalid (field.Child fldPath "hopCount")
                            (field.IntValue hopCount)
                            "hop count must be less than or equal to 255"]
            else allErrs
        | None => allErrs
        end in
      let allErrs :=
        match Bandwidth info with
        | Some bandwidth =>
            let allErrs :=
              if PrimFloat.ltb bandwidth 0 then
                allErrs ++ [field.Invalid (field.Child fldPath "bandwidth")
                              (field.FloatValue bandwidth)
                              "bandwidth must be non-negative"]
              else allErrs in
            if PrimFloat.ltb 1000000 bandwidth then
              allErrs ++ [field.Invalid (field.Child fldPath "bandwidth")
                            (field.FloatValue bandwidth)
                            "bandwidth must be less than or equal to 1000000 GB/s"]
            else allErrs
        | None => allErrs
        end in
      let allErrs :=
        match Distance info with
        | Some distance =>
            let allErrs :=
              if distance <? 0 then
                allErrs ++ [field.Invalid (field.Child fldPath "distance")
                              (field.IntValue distance)
                              "distance must be non-negative"]
              else allErrs in
            let allErrs :=
              if distance >? 255 then
                allErrs ++ [field.Invalid (field.Child fldPath "distance")
                              (field.IntValue distance)
                              "distance must be less than or equal to 255"]
              else allErrs in
            if (distance >? 0) && (distance <? 10) then
              allErrs ++ [field.Invalid (field.Child fldPath "distance")
                            (field.IntValue distance)
                            "distance should typically be at least 10 (Linux NUMA convention)"]
            else allErrs
        | None => allErrs
        end in
      let allErrs :=
        match Latency info with
        | Some latency =>
            let allErrs :=
              if latency <? 0 then
                allErrs ++ [field.Invalid (field.Child fldPath "latency")
                              (field.IntValue latency)
                              "latency must be non-negative"]
              else allErrs in
            if latency >? 1000000 then
              allErrs ++ [field.Invalid (field.Child fldPath "latency")
                            (field.IntValue latency)
                            "latency must be less than or equal to 1000000 microseconds"]
            else allErrs
        | None => allErrs
        end in
      allErrs ++ validateConnectivityMatrix (ConnectivityMatrix info)
                   (field.Child fldPath "connectivityMatrix")
  end.

(** The body of the loop over [Resources] in [ValidateNodeTopologyInfo]. *)
Definition validateResource (fldPath : field.Path) (allErrs : field.ErrorList)
    (entry : string * Z) : field.ErrorList :=
  let resourceName := fst entry in
  let quantity := snd entry in
  let allErrs :=
    if isEmpty resourceName then
      allErrs ++ [field.Invalid (field.Child fldPath "resources")
                    (field.StringValue resourceName)
                    "resource name cannot be empty"]
    else allErrs in
  if quantity <? 0 then
    allErrs ++ [field.Invalid
                  (field.KeyOf (field.Child fldPath "resources") resourceName)
                  (field.IntValue quantity)
                  "resource quantity must be non-negative"]
  else allErrs.

(** [ValidateNodeTopologyInfo]. *)
Definition ValidateNodeTopologyInfo (nodeTopology : option NodeTopologyInfo)
    (fldPath : field.Path) : field.ErrorList :=
  let allErrs : field.ErrorList := [] in
  match nodeTopology with
  | None => allErrs
  | Some topology =>
      let allErrs :=
        if NodeID topology <? 0 then
          allErrs ++ [field.Invalid (field.Child fldPath "nodeID")
                        (field.IntValue (NodeID topology))
                        "node ID must be non-negative"]
        else allErrs in
      let allErrs := fold_left (validateResource fldPath) (Resources topology) allErrs in
      match InterconnectInfo_ topology with
      | Some _ =>
          allErrs ++ ValidateInterconnectInfo (InterconnectInfo_ topology)
                       (field.Child fldPath "interconnectInfo")
      | None => allErrs
      end
  end.

(** The loop over the devices of [ValidateResourceSlice]; [i] is the index of
    the first device of the list. *)
Fixpoint validateDevices (specPath : field.Path) (i : Z) (devices : list Device)
    (allErrs : field.ErrorList) : field.ErrorList :=
  match devices with
  | [] => allErrs
  | device :: rest =>
      let devicePath := field.IndexOf (field.Child specPath "devices") i in
      let allErrs :=
        if isEmpty (deviceName device) then
          allErrs ++ [field.Required (field.Child devicePath "name")
                        "device name is required"]
        else allErrs in
      validateDevices specPath (i + 1) rest allErrs
  end.

(** [ValidateResourceSlice]. *)
Definition ValidateResourceSlice (resourceSlice : option ResourceSlice)
  : field.ErrorList :=
  let allErrs : field.ErrorList := [] in
  match resourceSlice with
  | None => allErrs
  | Some slice =>
      let allErrs :=
        if isEmpty (Name slice) then
          allErrs ++ [field.Required (field.NewPath ["metadata"; "name"]%string)
                        "name is required"]
        else allErrs in
      let specPath := field.NewPath ["spec"%string] in
      let allErrs :=
        if isEmpty (Driver (Spec slice)) then
          allErrs ++ [field.Required (field.Child specPath "driver")
                        "driver name is required"]
        else allErrs in
      let allErrs :=
        match NodeTopology (Spec slice) with
        | Some _ =>
            allErrs ++ ValidateNodeTopologyInfo (NodeTopology (Spec slice))
                         (field.Child specPath "nodeTopology")
        | None => allErrs
        end in
      let allErrs :=
        if isEmpty (poolName (Pool (Spec slice))) then
          allErrs ++ [field.Required
                        (field.Child (field.Child specPath "pool") "name")
                        "pool name is required"]
        else allErrs in
      validateDevices specPath 0 (Devices (Spec slice)) allErrs
  end.

(** [ValidateResourceSliceUpdate]; reading [Spec] of a nil slice panics. *)
Definition ValidateResourceSliceUpdate
    (newResourceSlice oldResourceSlice : option ResourceSlice)
  : option field.ErrorList :=
  let allErrs := ValidateResourceSlice newResourceSlice in
  newSlice ← newResourceSlice;
  oldSlice ← oldResourceSlice;
  if negb (String.eqb (Driver (Spec newSlice)) (Driver (Spec oldSlice))) then
    Some (allErrs ++ [field.Forbidden (field.NewPath ["spec"; "driver"]%string)
                        "driver field is immutable"])
  else Some allErrs.

End resourcev1.

(** ** Concrete inputs used by the examples below *)

Module scenarios.

Import topologymanager.

(** A hint without affinity and without enhanced fields. *)
Definition nilAffinityHint : TopologyHint :=
  mkTopologyHint None true None None None None.

(** A hint on node 0 whose score is not a number. *)
Definition nanScoreHint : TopologyHint :=
  mkTopologyHint (Some 1%N) true None None None (Some nan).

(** Two enhanced hints on nodes 0 and 1 (the test of [createDistributedHint]). *)
Definition enhancedHint0 : TopologyHint :=
  mkTopologyHint (Some 1%N) true (Some 1) (Some 100%float) (Some 20) (Some 50%float).

Definition enhancedHint1 : TopologyHint :=
  mkTopologyHint (Some 2%N) true (Some 2) (Some 80%float) (Some 30) (Some 70%float).

(** Two plain hints on nodes 0 and 1. *)
Definition plainHint0 : TopologyHint :=
  mkTopologyHint (Some 1%N) true None None None None.

Definition plainHint1 : TopologyHint :=
  mkTopologyHint (Some 2%N) true None None None None.

(** [commonNUMAInfoTwoNodes()] of the tests, and the policy on it. *)
Definition twoNodes : NUMAInfo := mkNUMAInfo [0; 1] [(0, [10; 11]); (1, [11; 10])].

Definition twoNodePolicy : distributedPolicy :=
  NewDistributedPolicy twoNodes (mkPolicyOptions 8).

(** Two resources, each preferring a different node, with enhanced hints. *)
Definition twoEnhancedResources : list ProviderHints :=
  [[("resource1"%string, [enhancedHint0])]; [("resource2"%string, [enhancedHint1])]].

(** Two resources, each preferring a different node, without enhanced fields. *)
Definition twoPlainResources : list ProviderHints :=
  [[("resource1"%string, [plainHint0])]; [("resource2"%string, [plainHint1])]].

(** Two resources that are named but come with no hint. *)
Definition twoEmptyResources : list ProviderHints :=
  [[("resource1"%string, []); ("resource2"%string, [])]].

(** A device with its topology on the given nodes. *)
Definition deviceOn (nodes : list Z) : pluginapi.Device :=
  pluginapi.mkDevice (Some (pluginapi.mkTopologyInfo (map pluginapi.mkNUMANode nodes))).

(** Four NUMA nodes, two devices on nodes 0 and 1 (the device manager's test). *)
Definition fourNodeManager : devicemanager.ManagerImpl :=
  devicemanager.mkManagerImpl
    {[ "testdevice"%string :=
         ({[ "Dev0"%string := deviceOn [0]; "Dev1"%string := deviceOn [1] ]}
          : gmap string pluginapi.Device) ]}
    [0; 1; 2; 3].

(** Two NUMA nodes and one device attached to both of them. *)
Definition sharedDeviceManager : devicemanager.ManagerImpl :=
  devicemanager.mkManagerImpl
    {[ "gpu"%string :=
         ({[ "Dev0"%string := deviceOn [0; 1] ]} : gmap string pluginapi.Device) ]}
    [0; 1].

(** Two NUMA nodes, one device on node 0 and one device without topology. *)
Definition mixedDeviceManager : devicemanager.ManagerImpl :=
  devicemanager.mkManagerImpl
    {[ "gpu"%string :=
         ({[ "Dev0"%string := deviceOn [0];
             "Dev1"%string := pluginapi.mkDevice None ]}
          : gmap string pluginapi.Device) ]}
    [0; 1].

End scenarios.

(** ** Vocabulary of the properties *)

Import topologymanager.

(** A float64 pointer that is nil or points to a number. *)
Definition notNaN (p : option float) : bool :=
  match p with
  | Some x => negb (PrimFloat.is_nan x)
  | None => true
  end.

(** Two hints whose pointers differ in presence on some enhanced field. *)
Definition presenceDiffers (a b : TopologyHint) : bool :=
  xorb (notNil (HopCount a)) (notNil (HopCount b))
  || xorb (notNil (Bandwidth a)) (notNil (Bandwidth b))
  || xorb (notNil (Distance a)) (notNil (Distance b))
  || xorb (notNil (Score a)) (notNil (Score b)).

(** All four enhanced fields are set. *)
Definition allEnhancedFields (h : TopologyHint) : bool :=
  notNil (HopCount h) && notNil (Bandwidth h)
  && notNil (Distance h) && notNil (Score h).

(** *** The device generator, mask by mask *)

Section GeneratorVocabulary.

Import devicemanager.

Variable EnhancedTopologyHintsEnabled : bool.
Variable m : ManagerImpl.
Variable resource : string.
Variables available reusable : list string.
Variable request : Z.

(** The update of [minAffinitySize] made by the callback on one mask. *)
Definition stepMinAffinitySize (minAffinitySize : Z) (mask : bitmask.BitMask) : Z :=
  if (devicesInMask m resource mask >=? request)
     && (bitmask.Count mask <? minAffinitySize)
  then bitmask.Count mask else minAffinitySize.

(** The [min_affinity_size] of the generator: the minimum of [|M|] over the
    enumerated masks [M] with [devices_in_mask >= request], starting from the
    number of NUMA nodes. *)
Definition minAffinitySizeOf : Z :=
  fold_left Z.min
    (map bitmask.Count
       (List.filter (fun mask => devicesInMask m resource mask >=? request)
                    (bitmask.IterateBitMasks (numaNodes m))))
    (Z.of_nat (length (numaNodes m))).

(** Whether the callback appends a hint for the mask; [None] is a panic. *)
Definition emits (mask : bitmask.BitMask) : option bool :=
  r ← reusableLoop (devicesOf m resource) mask reusable 0;
  match r with
  | None => Some false
  | Some numMatching =>
      numMatching ← availableLoop (devicesOf m resource) mask available numMatching;
      Some (negb (numMatching <? request))
  end.

Definition emitted (mask : bitmask.BitMask) : bool :=
  match emits mask with
  | Some true => true
  | _ => false
  end.

(** The hint the callback appends for a mask. *)
Definition newHint (mask : bitmask.BitMask) : TopologyHint :=
  let hint := mkTopologyHint (Some mask) false None None None None in
  if EnhancedTopologyHintsEnabled
  then calculateEnhancedTopologyFields EnhancedTopologyHintsEnabled m hint
                                       resource request
  else hint.

(** The effect of the final loop on one hint. *)
Definition marked (minAffinitySize : Z) (hint : TopologyHint) : TopologyHint :=
  match NUMANodeAffinity hint with
  | Some affinity =>
      if bitmask.Count affinity =? minAffinitySize then
        mkTopologyHint (NUMANodeAffinity hint) true (HopCount hint)
                       (Bandwidth hint) (Distance hint) (Score hint)
      else hint
  | None => hint
  end.

(** Every id of the list is a key of the resource's device table. *)
Definition devicesKnown (ids : list string) : Prop :=
  List.Forall (fun d => devicesOf m resource !! d <> None) ids.

(** No reusable device that declares topology misses the mask. *)
Definition reusableFits (mask : bitmask.BitMask) : bool :=
  forallb
    (fun d => match devicesOf m resource !! d with
              | Some device =>
                  negb (notNil (pluginapi.Topology device))
                  || bitmask.AnySet mask (getNUMANodeIds (pluginapi.Topology device))
              | None => true
              end)
    reusable.

(** The number of reusable devices that declare topology. *)
Definition topologyBearingReusable : Z :=
  countIf
    (fun d => match devicesOf m resource !! d with
              | Some device => notNil (pluginapi.Topology device)
              | None => false
              end)
    reusable.

(** The number of available devices whose topology has a node in the mask. *)
Definition availableInMask (mask : bitmask.BitMask) : Z :=
  countIf
    (fun d => match devicesOf m resource !! d with
              | Some device =>
                  bitmask.AnySet mask (getNUMANodeIds (pluginapi.Topology device))
              | None => false
              end)
    available.

End GeneratorVocabulary.

(** The score of the device generator as the spec states it (section 4.4):
    [max(0, 2(distance - 10) + 12 hop_count - 10 (1 - utilization))] with
    [utilization = min(1, k / devices_in_mask)]. *)
Definition claimedScore (hopCount distance k devicesInMask : Z) : float :=
  let ratio := (float64_of_int k / float64_of_int devicesInMask)%float in
  let utilization := if PrimFloat.ltb 1 ratio then 1%float else ratio in
  let score :=
    (float64_of_int (distance - 10) * 2 + float64_of_int hopCount * 12
     - (1 - utilization) * 10)%float in
  if PrimFloat.ltb score 0 then 0%float else score.

(** The distance [calculateEnhancedTopologyFields] writes for a mask. *)
Definition maskDistance (mask : bitmask.BitMask) : Z :=
  if bitmask.Count mask =? 1 then 10 else 10 + (bitmask.Count mask - 1) * 20.

(** The count [availableDevices] of [calculateEnhancedTopologyFields]: over
    the devices that declare topology, the number of their nodes that are in
    the mask. *)
Definition deviceNodesInMask (m : devicemanager.ManagerImpl) (resource : string)
    (mask : bitmask.BitMask) : Z :=
  fold_left
    (fun n (device : pluginapi.Device) =>
       if notNil (pluginapi.Topology device) then
         fold_left
           (fun n nodeID =>
              if existsb (fun selectedNode => nodeID =? selectedNode)
                         (bitmask.GetBits mask)
              then n + 1 else n)
           (devicemanager.getNUMANodeIds (pluginapi.Topology device)) n
       else n)
    (map snd (map_to_list (devicemanager.devicesOf m resource))) 0.

(** *** The distributed policy *)

(** The hints of the input in the order the three loops of
    [createDistributedHint] visit them. *)
Definition allHints (providersHints : list ProviderHints) : list TopologyHint :=
  flat_map (fun providerHints : ProviderHints => flat_map snd providerHints)
           providersHints.

(** The input hints that have an affinity. *)
Definition affinityHints (providersHints : list ProviderHints) : list TopologyHint :=
  List.filter (fun h => notNil (NUMANodeAffinity h)) (allHints providersHints).

(** The sum of the scores of the hints with an affinity, in the order of the
    loops; a hint without any enhanced field is passed over and a hint
    without Score counts 0.0 ([GetScore]). *)
Definition scoreSum (providersHints : list ProviderHints) : float :=
  fold_left (fun acc h => (acc + GetScore true h)%float)
            (List.filter hasEnhancedFields (affinityHints providersHints))
            0%float.

(** No hint of the input carries an enhanced field. *)
Definition noEnhancedFields (providersHints : list ProviderHints) : bool :=
  forallb (fun h => negb (hasEnhancedFields h)) (allHints providersHints).

(** The resource names of the input, provider by provider. *)
Definition resourceNames (providersHints : list ProviderHints) : list string :=
  flat_map (map fst) providersHints.

(** The merger the distributed policy's [Merge] runs first: the best-effort
    merger over the filtered hints with the gate off, the enhanced merger
    with the gate on, in distributed mode when the input names several
    resource types. *)
Definition mergerRun (gate : bool)
    (filterProvidersHints : list ProviderHints -> list (list TopologyHint))
    (HintMerger_Merge : HintMerger -> option TopologyHint)
    (EnhancedHintMerger_Merge : EnhancedHintMerger -> option TopologyHint)
    (p : distributedPolicy) (providersHints : list ProviderHints)
  : option TopologyHint :=
  if gate then
    EnhancedHintMerger_Merge
      (SetDistributedMerging
         (NewEnhancedHintMerger (numaInfo p)
            (Some (DefaultAffinityMask (numaInfo p))) providersHints)
         (hasMultipleResourceTypes p providersHints))
  else
    HintMerger_Merge
      (NewHintMerger (numaInfo p) (filterProvidersHints providersHints)
                     "best-effort" (opts p)).

(** *** The device generator on a resource without topology *)

(** A resource none of whose devices declares a NUMA node: one device
    without topology, one with an empty list of nodes. *)
Definition unalignedManager : devicemanager.ManagerImpl :=
  devicemanager.mkManagerImpl
    {[ "testdevice"%string :=
         {[ "Dev0"%string := pluginapi.mkDevice None;
            "Dev1"%string := pluginapi.mkDevice (Some (pluginapi.mkTopologyInfo [])) ]} ]}
    [0; 1].

(** *** Validation of topology information *)

Section ValidationVocabulary.

Import resourcev1.

(** The ranges the validators accept.  A distance of 0 is accepted, 1 to 9
    are not. *)
Definition validHopCount (hopCount : Z) : bool := (0 <=? hopCount) && (hopCount <=? 255).

Definition validBandwidth (bandwidth : float) : bool :=
  negb (PrimFloat.ltb bandwidth 0) && negb (PrimFloat.ltb 1000000 bandwidth).

Definition validDistance (distance : Z) : bool :=
  (distance =? 0) || ((10 <=? distance) && (distance <=? 255)).

Definition validLatency (latency : Z) : bool := (0 <=? latency) && (latency <=? 1000000).

(** A pointer that is nil or points to an accepted value. *)
Definition nilOr {A : Type} (accepted : A -> bool) (p : option A) : bool :=
  match p with
  | Some v => accepted v
  | None => true
  end.

Definition validConnectivity (entry : string * NodeConnectivity) : bool :=
  negb (isEmpty (fst entry))
  && nilOr validBandwidth (ncBandwidth (snd entry))
  && nilOr validLatency (ncLatency (snd entry)).

Definition validInterconnectInfo (info : InterconnectInfo) : bool :=
  nilOr validHopCount (HopCount info)
  && nilOr validBandwidth (Bandwidth info)
  && nilOr validDistance (Distance info)
  && nilOr validLatency (Latency info)
  && forallb validConnectivity (ConnectivityMatrix info).

Definition validResource (entry : string * Z) : bool :=
  negb (isEmpty (fst entry)) && (0 <=? snd entry).

Definition validNodeTopologyInfo (topology : NodeTopologyInfo) : bool :=
  (0 <=? NodeID topology)
  && forallb validResource (Resources topology)
  && nilOr validInterconnectInfo (InterconnectInfo_ topology).

Definition validResourceSlice (slice : ResourceSlice) : bool :=
  negb (isEmpty (Name slice))
  && negb (isEmpty (Driver (Spec slice)))
  && nilOr validNodeTopologyInfo (NodeTopology (Spec slice))
  && negb (isEmpty (poolName (Pool (Spec slice))))
  && forallb (fun device => negb (isEmpty (deviceName device)))
             (Devices (Spec slice)).

(** The error list is empty. *)
Definition noErrors (errs : field.ErrorList) : bool :=
  match errs with
  | [] => true
  | _ :: _ => false
  end.

(** The error is of type Invalid and its field lies under the path. *)
Definition invalidUnder (fldPath : field.Path) (e : field.Error) : Prop :=
  field.Type_ e = field.ErrorTypeInvalid /\
  exists rest, field.Field e = fldPath ++ rest /\ rest <> [].

End ValidationVocabulary.

(** * Properties *)

(** ** Binary64 comparisons *)

Lemma SFcompare_swap (x y : spec_float) :
  SFcompare y x = option_map CompOpp (SFcompare x y).
Proof.
  destruct x as [sx|sx| |sx mx ex], y as [sy|sy| |sy my ey]; simpl;
    try reflexivity; try (destruct sx; reflexivity); try (destruct sy; reflexivity);
    try (destruct sx, sy; reflexivity).
  destruct sx, sy; try reflexivity; rewrite (Z.compare_antisym ex ey);
    destruct (ex ?= ey) eqn:E; simpl; try reflexivity; f_equal;
    change PosDef.Pos.compare_cont with Pos.compare_cont;
    rewrite (Pos.compare_cont_antisym mx my Eq); reflexivity.
Qed.

Lemma float_eqb_sym (x y : float) : PrimFloat.eqb x y = PrimFloat.eqb y x.
Proof.
  rewrite !FloatAxioms.eqb_spec. unfold SFeqb.
  rewrite (SFcompare_swap (Prim2SF x) (Prim2SF y)).
  destruct (SFcompare (Prim2SF x) (Prim2SF y)) as [[]|]; reflexivity.
Qed.

Lemma float_ltb_asym (x y : float) :
  PrimFloat.ltb x y = true -> PrimFloat.ltb y x = false.
Proof.
  rewrite !FloatAxioms.ltb_spec. unfold SFltb.
  rewrite (SFcompare_swap (Prim2SF x) (Prim2SF y)).
  destruct (SFcompare (Prim2SF x) (Prim2SF y)) as [[]|]; simpl; congruence.
Qed.

Lemma float_ltb_both (x y : float) : PrimFloat.ltb x y && PrimFloat.ltb y x = false.
Proof.
  destruct (PrimFloat.ltb x y) eqn:E; [|reflexivity].
  simpl. now apply float_ltb_asym.
Qed.

Lemma equalFloat64Pointer_refl (p : option float) :
  notNaN p = true -> equalFloat64Pointer p p = true.
Proof.
  destruct p as [x|]; simpl; [|reflexivity].
  unfold PrimFloat.is_nan. now rewrite negb_involutive.
Qed.

Lemma equalFloat64Pointer_sym (a b : option float) :
  equalFloat64Pointer a b = equalFloat64Pointer b a.
Proof. destruct a, b; simpl; try reflexivity. apply float_eqb_sym. Qed.

Lemma equalIntPointer_refl (p : option Z) : equalIntPointer p p = true.
Proof. destruct p; simpl; [apply Z.eqb_refl | reflexivity]. Qed.

Lemma equalIntPointer_sym (a b : option Z) :
  equalIntPointer a b = equalIntPointer b a.
Proof. destruct a, b; simpl; try reflexivity. apply Z.eqb_sym. Qed.

(** ** Masks *)

Lemma bitmask_IsEqual_refl (a : bitmask.BitMask) : bitmask.IsEqual a a = true.
Proof. apply N.eqb_refl. Qed.

Lemma bitmask_IsEqual_sym (a b : bitmask.BitMask) :
  bitmask.IsEqual a b = bitmask.IsEqual b a.
Proof. apply N.eqb_sym. Qed.

Lemma lexLess_asym (x y : list Z) :
  bitmask.lexLess x y = true -> bitmask.lexLess y x = false.
Proof.
  revert y. induction x as [|a x IH]; intros [|b y]; simpl; try congruence.
  destruct (Z.ltb_spec a b), (Z.ltb_spec b a); try congruence; try lia.
  apply IH.
Qed.

Lemma IsProperSubsetOf_asym (a b : bitmask.BitMask) :
  bitmask.IsProperSubsetOf a b = true -> bitmask.IsProperSubsetOf b a = false.
Proof.
  unfold bitmask.IsProperSubsetOf. intros H.
  apply andb_true_iff in H as [Hab Hne].
  apply N.eqb_eq in Hab. apply negb_true_iff, N.eqb_neq in Hne.
  apply andb_false_iff. left. apply N.eqb_neq.
  rewrite N.land_comm, Hab. congruence.
Qed.

(** The order on masks never holds in both directions. *)
Lemma IsNarrowerThan_asym (a b : bitmask.BitMask) :
  bitmask.IsNarrowerThan a b && bitmask.IsNarrowerThan b a = false.
Proof.
  unfold bitmask.IsNarrowerThan.
  destruct (bitmask.IsProperSubsetOf a b) eqn:Hab.
  - now rewrite (IsProperSubsetOf_asym _ _ Hab).
  - destruct (bitmask.IsProperSubsetOf b a) eqn:Hba; [reflexivity|].
    destruct (bitmask.lexLess (bitmask.GetBits a) (bitmask.GetBits b)) eqn:E;
      [|reflexivity].
    simpl. now apply lexLess_asym.
Qed.

Lemma In_bitsFrom (p : positive) (i b : Z) :
  In b (bitmask.bitsFrom i p) <->
  i <= b /\ N.testbit (Npos p) (Z.to_N (b - i)) = true.
Proof.
  revert i. induction p as [q IH|q IH|]; intros i; simpl bitmask.bitsFrom.
  - simpl In. rewrite IH. split.
    + intros [<-|[Hle Hb]].
      * split; [lia|]. now rewrite Z.sub_diag.
      * split; [lia|].
        replace (Z.to_N (b - i)) with (N.succ (Z.to_N (b - (i + 1)))) by lia.
        change (N.pos q~1) with (2 * N.pos q + 1)%N.
        now rewrite N.testbit_odd_succ by lia.
    + intros [Hle Hb].
      destruct (Z.eq_dec i b) as [->|Hne]; [now left|right].
      split; [lia|].
      replace (Z.to_N (b - i)) with (N.succ (Z.to_N (b - (i + 1)))) in Hb by lia.
      change (N.pos q~1) with (2 * N.pos q + 1)%N in Hb.
      now rewrite N.testbit_odd_succ in Hb by lia.
  - rewrite IH. split.
    + intros [Hle Hb]. split; [lia|].
      replace (Z.to_N (b - i)) with (N.succ (Z.to_N (b - (i + 1)))) by lia.
      change (N.pos q~0) with (2 * N.pos q)%N.
      now rewrite N.testbit_even_succ by lia.
    + intros [Hle Hb].
      destruct (Z.eq_dec i b) as [->|Hne].
      * rewrite Z.sub_diag in Hb. discriminate Hb.
      * split; [lia|].
        replace (Z.to_N (b - i)) with (N.succ (Z.to_N (b - (i + 1)))) in Hb by lia.
        change (N.pos q~0) with (2 * N.pos q)%N in Hb.
        now rewrite N.testbit_even_succ in Hb by lia.
  - simpl In. split.
    + intros [<-|[]]. split; [lia|]. now rewrite Z.sub_diag.
    + intros [Hle Hb]. left.
      destruct (Z.to_N (b - i)) eqn:E; [lia|discriminate Hb].
Qed.

Lemma NoDup_bitsFrom (p : positive) (i : Z) : List.NoDup (bitmask.bitsFrom i p).
Proof.
  revert i. induction p as [q IH|q IH|]; intros i; simpl.
  - constructor; [|apply IH].
    intros Hin. apply In_bitsFrom in Hin. lia.
  - apply IH.
  - constructor; [intros []|constructor].
Qed.

(** The members listed by [GetBits] are the bits that are set. *)
Lemma In_GetBits (m : bitmask.BitMask) (b : Z) :
  In b (bitmask.GetBits m) <-> bitmask.IsSet m b = true.
Proof.
  unfold bitmask.IsSet, bitmask.GetBits. destruct m as [|p].
  - simpl. rewrite andb_false_r. split; [intros []|discriminate].
  - rewrite In_bitsFrom, Z.sub_0_r, andb_true_iff, Z.leb_le. reflexivity.
Qed.

Lemma NoDup_GetBits (m : bitmask.BitMask) : List.NoDup (bitmask.GetBits m).
Proof. destruct m; simpl; [constructor|apply NoDup_bitsFrom]. Qed.

Lemma IsSet_Add (bits : list Z) (m : bitmask.BitMask) (b : Z) :
  bitmask.IsSet (bitmask.Add m bits) b = true <->
  bitmask.IsSet m b = true \/ (0 <= b /\ In b bits).
Proof.
  unfold bitmask.Add. revert m.
  induction bits as [|x bits IH]; intros m; simpl.
  - intuition.
  - rewrite IH. destruct (Z.leb_spec 0 x) as [Hx|Hx].
    + unfold bitmask.IsSet at 1.
      rewrite N.lor_spec, N.shiftl_1_l, N.pow2_bits_eqb, andb_true_iff,
        orb_true_iff, Z.leb_le, N.eqb_eq.
      unfold bitmask.IsSet. rewrite andb_true_iff, Z.leb_le.
      split.
      * intros [[H0 [H|H]]|[H0 H]]; [tauto| |tauto].
        right. split; [lia|]. left. lia.
      * intros [[H0 H]|[H0 [H|H]]]; [tauto| |tauto].
        left. split; [lia|]. right. subst. reflexivity.
    + split.
      * intros [H|[H0 H]]; [tauto|]. right. tauto.
      * intros [H|[H0 [H|H]]]; [tauto|lia|tauto].
Qed.

Lemma IsSet_NewBitMask (bits : list Z) (b : Z) :
  bitmask.IsSet (bitmask.NewBitMask bits) b = true <-> 0 <= b /\ In b bits.
Proof.
  unfold bitmask.NewBitMask. rewrite IsSet_Add.
  unfold bitmask.IsSet. rewrite N.bits_0, andb_false_r. intuition discriminate.
Qed.

(** A mask built from distinct indices at or above zero has as many bits as
    indices were given. *)
Lemma Count_NewBitMask (bits : list Z) :
  List.NoDup bits -> Forall (fun b => 0 <= b) bits ->
  bitmask.Count (bitmask.NewBitMask bits) = Z.of_nat (length bits).
Proof.
  intros Hnd Hpos. unfold bitmask.Count. f_equal.
  apply Permutation_length, Permutation.NoDup_Permutation; [apply NoDup_GetBits|exact Hnd|].
  intros b. rewrite In_GetBits, IsSet_NewBitMask.
  rewrite List.Forall_forall in Hpos. split; [tauto|]. intros H. split; [|exact H].
  now apply Hpos.
Qed.

Lemma NewBitMask_nonempty (bits : list Z) (b : Z) :
  In b bits -> 0 <= b -> bitmask.GetBits (bitmask.NewBitMask bits) <> [].
Proof.
  intros Hin Hb Hnil.
  assert (H : In b (bitmask.GetBits (bitmask.NewBitMask bits))).
  { apply In_GetBits, IsSet_NewBitMask. tauto. }
  rewrite Hnil in H. destruct H.
Qed.

(** ** The hint model *)

(** C8.  Getter defaults under absence: with the gate off, or with the field
    nil, [GetDistance] returns 10, [GetHopCount] 0, [GetBandwidth] 0.0 and
    [GetScore] 0.0; with the gate on and the field set, each getter returns
    the stored value. *)
Theorem getters_default_or_stored (gate : bool) (th : TopologyHint) :
  (gate = false \/ Distance th = None -> GetDistance gate th = 10) /\
  (gate = false \/ HopCount th = None -> GetHopCount gate th = 0) /\
  (gate = false \/ Bandwidth th = None -> GetBandwidth gate th = 0%float) /\
  (gate = false \/ Score th = None -> GetScore gate th = 0%float) /\
  (forall v, gate = true -> Distance th = Some v -> GetDistance gate th = v) /\
  (forall v, gate = true -> HopCount th = Some v -> GetHopCount gate th = v) /\
  (forall v, gate = true -> Bandwidth th = Some v -> GetBandwidth gate th = v) /\
  (forall v, gate = true -> Score th = Some v -> GetScore gate th = v).
Proof.
  unfold GetDistance, GetHopCount, GetBandwidth, GetScore.
  repeat split.
  1-4: intros [-> | ->]; [reflexivity|now destruct gate].
  all: intros v -> ->; reflexivity.
Qed.

Lemma getters_default_or_stored_witness :
  GetDistance false scenarios.enhancedHint1 = 10 /\
  GetDistance true scenarios.enhancedHint1 = 30 /\
  GetScore true scenarios.plainHint0 = 0%float.
Proof.
  destruct (getters_default_or_stored false scenarios.enhancedHint1)
    as (Hoff & _).
  destruct (getters_default_or_stored true scenarios.enhancedHint1)
    as (_ & _ & _ & _ & Hon & _).
  destruct (getters_default_or_stored true scenarios.plainHint0)
    as (_ & _ & _ & Hnil & _).
  split; [apply Hoff; left; reflexivity|].
  split; [apply Hon; reflexivity|].
  apply Hnil. right. reflexivity.
Defined.

Lemma IsEqual_sym (a b : TopologyHint) : IsEqual a b = IsEqual b a.
Proof.
  unfold IsEqual.
  replace (Bool.eqb (Preferred b) (Preferred a))
    with (Bool.eqb (Preferred a) (Preferred b))
    by (destruct (Preferred a), (Preferred b); reflexivity).
  rewrite (equalIntPointer_sym (HopCount a)), (equalIntPointer_sym (Distance a)),
    (equalFloat64Pointer_sym (Bandwidth a)), (equalFloat64Pointer_sym (Score a)).
  destruct (NUMANodeAffinity a), (NUMANodeAffinity b); try reflexivity.
  now rewrite bitmask_IsEqual_sym.
Qed.

Lemma IsEqual_refl (h : TopologyHint) :
  notNaN (Bandwidth h) = true -> notNaN (Score h) = true -> IsEqual h h = true.
Proof.
  intros Hb Hs. unfold IsEqual.
  rewrite Bool.eqb_reflx, !equalIntPointer_refl, !equalFloat64Pointer_refl by assumption.
  destruct (NUMANodeAffinity h); simpl; [|reflexivity].
  now rewrite bitmask_IsEqual_refl.
Qed.

Lemma IsEqual_presence (a b : TopologyHint) :
  presenceDiffers a b = true -> IsEqual a b = false.
Proof.
  unfold presenceDiffers, IsEqual. intros H.
  destruct (negb (Bool.eqb (Preferred a) (Preferred b))); [reflexivity|].
  destruct (match NUMANodeAffinity a, NUMANodeAffinity b with
            | None, None => false
            | None, Some _ | Some _, None => true
            | Some x, Some y => negb (bitmask.IsEqual x y)
            end); [reflexivity|].
  destruct (HopCount a), (HopCount b), (Bandwidth a), (Bandwidth b),
    (Distance a), (Distance b), (Score a), (Score b); simpl in *;
    try discriminate H; try reflexivity;
    repeat match goal with |- (if ?c then false else _) = false =>
                             destruct c; [reflexivity|] end;
    try reflexivity.
Qed.

(** C9, as the code has it.  [IsEqual] is symmetric on every pair of hints;
    it is reflexive on every hint whose Bandwidth and Score are nil or a
    number (also with a nil affinity and with all fields nil); a field that is
    nil on one side and set on the other makes two hints unequal, and two
    hints with all fields nil and the same affinity and flag are equal. *)
Theorem IsEqual_reflexive_symmetric :
  (forall a b, IsEqual a b = IsEqual b a) /\
  (forall h, notNaN (Bandwidth h) = true -> notNaN (Score h) = true ->
             IsEqual h h = true) /\
  (forall a b, presenceDiffers a b = true -> IsEqual a b = false) /\
  (forall affinity preferred,
      IsEqual (mkTopologyHint affinity preferred None None None None)
              (mkTopologyHint affinity preferred None None None None) = true).
Proof.
  split; [exact IsEqual_sym|]. split; [exact IsEqual_refl|].
  split; [exact IsEqual_presence|].
  intros affinity preferred. now apply IsEqual_refl.
Qed.

Lemma IsEqual_reflexive_symmetric_witness :
  IsEqual scenarios.enhancedHint0 scenarios.enhancedHint0 = true /\
  IsEqual scenarios.nilAffinityHint scenarios.nilAffinityHint = true /\
  IsEqual scenarios.plainHint0 scenarios.enhancedHint0 = false.
Proof.
  destruct IsEqual_reflexive_symmetric as (_ & Hrefl & Hpresence & Hnil).
  split; [apply Hrefl; reflexivity|].
  split; [apply Hnil|].
  apply Hpresence. reflexivity.
Defined.

(** C9, as stated, fails: a hint whose score is not a number is not equal to
    itself. *)
Lemma IsEqual_not_reflexive :
  ~ (forall h : TopologyHint, IsEqual h h = true).
Proof.
  intros H. specialize (H scenarios.nanScoreHint).
  vm_compute in H. discriminate H.
Qed.

(** Such a hint comes out of the device generator itself: with a request of
    0 and no device on node 1, the utilization of mask [{1}] is 0/0. *)
Lemma device_generator_can_score_nan :
  exists hints h,
    devicemanager.generateDeviceTopologyHints true scenarios.mixedDeviceManager
      "gpu" [] [] 0 = Some hints /\
    In h hints /\ Score h = Some nan /\ IsEqual h h = false.
Proof.
  eexists. exists (mkTopologyHint (Some 2%N) true (Some 0) (Some 80%float)
                                  (Some 10) (Some nan)).
  split; [vm_compute; reflexivity|].
  split; [right; left; reflexivity|]. split; reflexivity.
Qed.

(** Each tie-break of [LessThan], taken in both directions, holds at most
    once when what follows it does. *)
Lemma byLowerInt_both (a b : option Z) (r1 r2 : bool) :
  r1 && r2 = false -> byLowerInt a b r1 && byLowerInt b a r2 = false.
Proof.
  intros Hr. destruct a as [x|], b as [y|]; try exact Hr. simpl.
  rewrite (Z.eqb_sym y x).
  destruct (Z.eqb_spec x y) as [_|Hne]; simpl; [exact Hr|].
  destruct (Z.ltb_spec x y), (Z.ltb_spec y x); try reflexivity. lia.
Qed.

Lemma byHigherFloat_both (a b : option float) (r1 r2 : bool) :
  r1 && r2 = false -> byHigherFloat a b r1 && byHigherFloat b a r2 = false.
Proof.
  intros Hr. destruct a as [x|], b as [y|]; try exact Hr. simpl.
  rewrite (float_eqb_sym y x).
  destruct (PrimFloat.eqb x y); simpl; [exact Hr|].
  apply float_ltb_both.
Qed.

Lemma byScore_both (a b : option float) (r1 r2 : bool) :
  r1 && r2 = false -> byScore a b r1 && byScore b a r2 = false.
Proof.
  intros Hr. destruct a as [x|], b as [y|]; try exact Hr; try reflexivity.
  simpl. rewrite (float_eqb_sym y x).
  destruct (PrimFloat.eqb x y); simpl; [exact Hr|].
  apply float_ltb_both.
Qed.

(** [LessThan] returns whenever both affinities are set. *)
Lemma LessThan_returns (gate : bool) (a b : TopologyHint) :
  notNil (NUMANodeAffinity a) = true -> notNil (NUMANodeAffinity b) = true ->
  exists r, LessThan gate a b = Some r.
Proof.
  unfold LessThan. intros Ha Hb.
  destruct (NUMANodeAffinity a) as [ma|]; [|discriminate Ha].
  destruct (NUMANodeAffinity b) as [mb|]; [|discriminate Hb].
  destruct (negb (Bool.eqb (Preferred a) (Preferred b))); [eauto|].
  simpl.
  destruct (gate && (hasEnhancedFields a || hasEnhancedFields b)); eauto.
Qed.

(** [LessThan] panics when the receiver has no affinity and the two flags
    agree. *)
Lemma LessThan_nil_receiver (gate : bool) (th other : TopologyHint) :
  NUMANodeAffinity th = None -> Preferred th = Preferred other ->
  LessThan gate th other = None.
Proof.
  unfold LessThan. intros -> ->. now rewrite Bool.eqb_reflx.
Qed.

(** C6.  Antisymmetry of the hint ordering: for two hints with affinities,
    under either state of the gate, [a.LessThan(b)] and [b.LessThan(a)] both
    return and are not both true. *)
Theorem LessThan_antisymmetric (gate : bool) (a b : TopologyHint) :
  notNil (NUMANodeAffinity a) = true -> notNil (NUMANodeAffinity b) = true ->
  exists x y, LessThan gate a b = Some x /\ LessThan gate b a = Some y
              /\ x && y = false.
Proof.
  intros Ha Hb. unfold LessThan.
  destruct (NUMANodeAffinity a) as [ma|]; [|discriminate Ha].
  destruct (NUMANodeAffinity b) as [mb|]; [|discriminate Hb].
  destruct (Preferred a), (Preferred b); simpl;
    try (eexists; eexists; split; [reflexivity|split; reflexivity]).
  all: rewrite (orb_comm (hasEnhancedFields b) (hasEnhancedFields a)).
  all: pose proof (IsNarrowerThan_asym ma mb) as Hn.
  all: destruct (gate && (hasEnhancedFields a || hasEnhancedFields b));
    (eexists; eexists; split; [reflexivity|split; [reflexivity|]]);
    [|exact Hn].
  all: now apply byScore_both, byLowerInt_both, byLowerInt_both,
         byHigherFloat_both.
Qed.

Lemma LessThan_antisymmetric_witness :
  exists x y,
    LessThan true scenarios.enhancedHint0 scenarios.enhancedHint1 = Some x /\
    LessThan true scenarios.enhancedHint1 scenarios.enhancedHint0 = Some y /\
    x && y = false.
Proof.
  apply (LessThan_antisymmetric true scenarios.enhancedHint0 scenarios.enhancedHint1);
    reflexivity.
Defined.

(** C1, the failing call.  On two hints without affinity and with the same
    flag, [IsEqual] answers and [LessThan] panics, under either state of the
    gate: the affinity comparison calls a method on the nil interface. *)
Theorem LessThan_panics_without_affinity (gate : bool) :
  IsEqual scenarios.nilAffinityHint scenarios.nilAffinityHint = true /\
  LessThan gate scenarios.nilAffinityHint scenarios.nilAffinityHint = None.
Proof. split; [reflexivity|]. now apply LessThan_nil_receiver. Qed.

(** ** The device generator *)

Lemma countIf_acc {A : Type} (f : A -> bool) (l : list A) (n : Z) :
  fold_left (fun n x => if f x then n + 1 else n) l n = n + countIf f l.
Proof.
  unfold countIf. revert n. induction l as [|x l IH]; intros n; simpl; [lia|].
  rewrite IH, (IH (if f x then 0 + 1 else 0)). destruct (f x); lia.
Qed.

Lemma countIf_cons {A : Type} (f : A -> bool) (x : A) (l : list A) :
  countIf f (x :: l) = (if f x then 1 else 0) + countIf f l.
Proof.
  unfold countIf at 1. simpl. rewrite countIf_acc. destruct (f x); lia.
Qed.

Lemma foldPanic_ext {A S : Type} (f g : S -> A -> option S) (l : list A) (s : S) :
  (forall s x, In x l -> f s x = g s x) -> foldPanic f l s = foldPanic g l s.
Proof.
  revert s. induction l as [|x l IH]; intros s H; simpl; [reflexivity|].
  rewrite (H s x) by now left.
  destruct (g s x) as [s'|]; simpl; [|reflexivity].
  apply IH. intros s0 y Hy. apply H. now right.
Qed.

Section Generator.

Import devicemanager.

Variable gate : bool.
Variable m : ManagerImpl.
Variable resource : string.

(** The enhanced decoration keeps the affinity and the flag of the hint. *)
Lemma calculateEnhancedTopologyFields_frame (hint : TopologyHint) (request : Z) :
  NUMANodeAffinity (calculateEnhancedTopologyFields gate m hint resource request)
  = NUMANodeAffinity hint /\
  Preferred (calculateEnhancedTopologyFields gate m hint resource request)
  = Preferred hint.
Proof.
  unfold calculateEnhancedTopologyFields, SetEnhancedFields.
  destruct gate; simpl; [|tauto].
  destruct (NUMANodeAffinity hint) as [a|] eqn:E; [|now rewrite E].
  destruct (Z.of_nat (length (bitmask.GetBits a)) =? 0); simpl; rewrite ?E; tauto.
Qed.

Lemma newHint_affinity (request : Z) (mask : bitmask.BitMask) :
  NUMANodeAffinity (newHint gate m resource request mask) = Some mask.
Proof.
  unfold newHint.
  pose proof (calculateEnhancedTopologyFields_frame
                (mkTopologyHint (Some mask) false None None None None) request)
    as [H _].
  destruct gate; [exact H|reflexivity].
Qed.

Lemma newHint_preferred (request : Z) (mask : bitmask.BitMask) :
  Preferred (newHint gate m resource request mask) = false.
Proof.
  unfold newHint.
  pose proof (calculateEnhancedTopologyFields_frame
                (mkTopologyHint (Some mask) false None None None None) request)
    as [_ H].
  destruct gate; [exact H|reflexivity].
Qed.

Variables available reusable : list string.
Variable request : Z.

Lemma visitMask_emits (st : Z * list TopologyHint) (mask : bitmask.BitMask) :
  visitMask gate m resource available reusable request st mask =
  e ← emits m resource available reusable request mask;
  Some (stepMinAffinitySize m resource request (fst st) mask,
        if e : bool then snd st ++ [newHint gate m resource request mask]
        else snd st).
Proof.
  unfold visitMask, emits, stepMinAffinitySize, newHint.
  destruct (reusableLoop _ mask reusable 0) as [[n|]|]; simpl; try reflexivity.
  destruct (availableLoop _ mask available n) as [n'|]; simpl; [|reflexivity].
  destruct (n' <? request); reflexivity.
Qed.

(** The enumeration returns exactly when no callback panics, with the running
    minimum and the hints of the emitted masks, in order. *)
Lemma foldPanic_visitMask (masks : list bitmask.BitMask)
    (st st' : Z * list TopologyHint) :
  foldPanic (visitMask gate m resource available reusable request) masks st = Some st' ->
  st' = (fold_left (stepMinAffinitySize m resource request) masks (fst st),
         snd st ++ map (newHint gate m resource request)
                       (List.filter (emitted m resource available reusable request) masks))
  /\ List.Forall (fun mask => emits m resource available reusable request mask <> None) masks.
Proof.
  revert st. induction masks as [|mask masks IH]; intros st; simpl.
  - intros [= <-]. rewrite app_nil_r. split; [now destruct st|constructor].
  - rewrite visitMask_emits. unfold emitted at 1.
    destruct (emits m resource available reusable request mask) as [e|] eqn:E;
      simpl; [|discriminate].
    intros H. apply IH in H as [-> Hall]. simpl. split.
    + f_equal. destruct e; simpl; [|reflexivity]. now rewrite <- app_assoc.
    + constructor; [congruence|exact Hall].
Qed.

Lemma foldPanic_visitMask_returns (masks : list bitmask.BitMask)
    (st : Z * list TopologyHint) :
  List.Forall (fun mask => emits m resource available reusable request mask <> None) masks ->
  exists st', foldPanic (visitMask gate m resource available reusable request) masks st
              = Some st'.
Proof.
  intros Hall. revert st. induction Hall as [|mask masks Hmask _ IH]; intros st; simpl.
  - eauto.
  - rewrite visitMask_emits.
    destruct (emits m resource available reusable request mask) as [e|];
      [|congruence].
    simpl. apply IH.
Qed.

Lemma markPreferred_marked (minAffinitySize : Z) (acc : list TopologyHint)
    (h : TopologyHint) :
  notNil (NUMANodeAffinity h) = true ->
  markPreferred minAffinitySize acc h = Some (acc ++ [marked minAffinitySize h]).
Proof.
  unfold markPreferred, marked.
  destruct (NUMANodeAffinity h) as [a|]; [|discriminate]. simpl.
  now destruct (bitmask.Count a =? minAffinitySize).
Qed.

Lemma foldPanic_markPreferred (minAffinitySize : Z) (hints acc : list TopologyHint) :
  List.Forall (fun h => notNil (NUMANodeAffinity h) = true) hints ->
  foldPanic (markPreferred minAffinitySize) hints acc
  = Some (acc ++ map (marked minAffinitySize) hints).
Proof.
  intros Hall. revert acc. induction Hall as [|h hints Hh _ IH]; intros acc; simpl.
  - now rewrite app_nil_r.
  - rewrite markPreferred_marked by exact Hh. simpl.
    now rewrite IH, <- app_assoc.
Qed.

Lemma stepMinAffinitySize_min (masks : list bitmask.BitMask) (n : Z) :
  fold_left (stepMinAffinitySize m resource request) masks n =
  fold_left Z.min
    (map bitmask.Count
       (List.filter (fun mask => devicesInMask m resource mask >=? request) masks))
    n.
Proof.
  revert n. induction masks as [|mask masks IH]; intros n; simpl; [reflexivity|].
  rewrite IH. unfold stepMinAffinitySize.
  destruct (devicesInMask m resource mask >=? request); simpl; [|reflexivity].
  f_equal. destruct (Z.ltb_spec (bitmask.Count mask) n); lia.
Qed.

(** The hints returned by the generator: one per emitted mask, in the order
    of the enumeration, marked against [minAffinitySizeOf]. *)
Lemma generateDeviceTopologyHints_Some (hints : list TopologyHint) :
  generateDeviceTopologyHints gate m resource available reusable request = Some hints ->
  hints = map (fun mask => marked (minAffinitySizeOf m resource request)
                                  (newHint gate m resource request mask))
              (List.filter (emitted m resource available reusable request)
                           (bitmask.IterateBitMasks (numaNodes m)))
  /\ List.Forall (fun mask => emits m resource available reusable request mask <> None)
                 (bitmask.IterateBitMasks (numaNodes m)).
Proof.
  unfold generateDeviceTopologyHints.
  destruct (foldPanic _ (bitmask.IterateBitMasks (numaNodes m)) _) as [st|] eqn:E;
    simpl; [|discriminate].
  apply foldPanic_visitMask in E as [-> Hall]. simpl.
  rewrite foldPanic_markPreferred.
  - intros [= <-]. split; [|exact Hall].
    rewrite stepMinAffinitySize_min, map_map. reflexivity.
  - apply List.Forall_forall. intros h Hin. apply in_map_iff in Hin as (mask & <- & _).
    now rewrite newHint_affinity.
Qed.

Lemma reusableLoop_known (devs : DeviceInstances) (mask : bitmask.BitMask)
    (ids : list string) (n : Z) :
  List.Forall (fun d => devs !! d <> None) ids ->
  reusableLoop devs mask ids n <> None.
Proof.
  intros Hall. revert n. induction Hall as [|d ids Hd _ IH]; intros n; simpl;
    [discriminate|].
  destruct (devs !! d) as [device|]; [|congruence]. simpl.
  destruct (negb (notNil (pluginapi.Topology device))); [apply IH|].
  destruct (negb (bitmask.AnySet mask _)); [discriminate|apply IH].
Qed.

Lemma availableLoop_known (devs : DeviceInstances) (mask : bitmask.BitMask)
    (ids : list string) (n : Z) :
  List.Forall (fun d => devs !! d <> None) ids ->
  availableLoop devs mask ids n <> None.
Proof.
  intros Hall. revert n. induction Hall as [|d ids Hd _ IH]; intros n; simpl;
    [discriminate|].
  destruct (devs !! d) as [device|]; [|congruence]. simpl.
  destruct (bitmask.AnySet mask _); apply IH.
Qed.

(** The generator returns when every id it is given is in the device table. *)
Lemma generateDeviceTopologyHints_returns :
  devicesKnown m resource (available ++ reusable) ->
  exists hints,
    generateDeviceTopologyHints gate m resource available reusable request
    = Some hints.
Proof.
  unfold devicesKnown. intros Hknown. apply List.Forall_app in Hknown as [Ha Hr].
  unfold generateDeviceTopologyHints.
  destruct (foldPanic_visitMask_returns (bitmask.IterateBitMasks (numaNodes m))
              (Z.of_nat (length (numaNodes m)), [])) as [st Hst].
  - apply List.Forall_forall. intros mask _. unfold emits.
    pose proof (reusableLoop_known (devicesOf m resource) mask reusable 0 Hr) as H1.
    destruct (reusableLoop _ mask reusable 0) as [[n|]|]; simpl;
      [|discriminate|congruence].
    pose proof (availableLoop_known (devicesOf m resource) mask available n Ha) as H2.
    destruct (availableLoop _ mask available n); simpl; [discriminate|congruence].
  - rewrite Hst. simpl.
    apply foldPanic_visitMask in Hst as [-> _]. simpl.
    rewrite foldPanic_markPreferred; [eauto|].
    apply List.Forall_forall. intros h Hin. apply in_map_iff in Hin as (mask & <- & _).
    now rewrite newHint_affinity.
Qed.

(** What the two loops of the callback compute when they do not panic. *)
Lemma reusableLoop_Some (mask : bitmask.BitMask) (ids : list string) (n : Z)
    (r : option Z) :
  reusableLoop (devicesOf m resource) mask ids n = Some r ->
  r = if reusableFits m resource ids mask
      then Some (n + topologyBearingReusable m resource ids) else None.
Proof.
  unfold reusableFits, topologyBearingReusable.
  revert n. induction ids as [|d ids IH]; intros n; simpl.
  - intros [= <-]. f_equal. unfold countIf. simpl. lia.
  - rewrite countIf_cons.
    destruct (devicesOf m resource !! d) as [device|]; simpl; [|discriminate].
    destruct (notNil (pluginapi.Topology device)); simpl.
    + destruct (bitmask.AnySet mask _); simpl.
      * intros H. apply IH in H. rewrite H.
        destruct (forallb _ ids); [f_equal; lia|reflexivity].
      * now intros [= <-].
    + intros H. apply IH in H. rewrite H.
      destruct (forallb _ ids); [f_equal; lia|reflexivity].
Qed.

Lemma availableLoop_Some (mask : bitmask.BitMask) (ids : list string) (n n' : Z) :
  availableLoop (devicesOf m resource) mask ids n = Some n' ->
  n' = n + availableInMask m resource ids mask.
Proof.
  unfold availableInMask.
  revert n. induction ids as [|d ids IH]; intros n; simpl.
  - intros [= <-]. unfold countIf. simpl. lia.
  - rewrite countIf_cons.
    destruct (devicesOf m resource !! d) as [device|]; simpl; [|discriminate].
    destruct (bitmask.AnySet mask _); intros H; apply IH in H; lia.
Qed.

(** A mask is emitted exactly when the reusable devices that declare
    topology all meet it and, counted with the available devices that meet
    it, reach the request. *)
Lemma emits_Some (mask : bitmask.BitMask) (e : bool) :
  emits m resource available reusable request mask = Some e ->
  e = reusableFits m resource reusable mask
      && (topologyBearingReusable m resource reusable
          + availableInMask m resource available mask >=? request).
Proof.
  unfold emits.
  destruct (reusableLoop _ mask reusable 0) as [r|] eqn:Er; simpl; [|discriminate].
  apply reusableLoop_Some in Er. subst r.
  destruct (reusableFits m resource reusable mask); simpl; [|now intros [= <-]].
  destruct (availableLoop _ mask available _) as [n'|] eqn:Ea; simpl; [|discriminate].
  apply availableLoop_Some in Ea. subst n'. intros [= <-].
  rewrite Z.geb_leb.
  destruct (Z.ltb_spec (0 + topologyBearingReusable m resource reusable
                        + availableInMask m resource available mask) request),
    (Z.leb_spec request (topologyBearingReusable m resource reusable
                         + availableInMask m resource available mask));
    simpl; try reflexivity; lia.
Qed.

Lemma marked_affinity (minAffinitySize : Z) (h : TopologyHint) :
  NUMANodeAffinity (marked minAffinitySize h) = NUMANodeAffinity h.
Proof.
  unfold marked. destruct (NUMANodeAffinity h) as [a|] eqn:E; [|exact E].
  destruct (bitmask.Count a =? minAffinitySize); [reflexivity|exact E].
Qed.

(** What the decoration writes when the gate is on and the mask is not
    empty. *)
Lemma newHint_enhanced_fields (mask : bitmask.BitMask) :
  gate = true -> bitmask.GetBits mask <> [] ->
  let h := newHint gate m resource request mask in
  let hopCount := bitmask.Count mask - 1 in
  0 <= hopCount /\
  HopCount h = Some hopCount /\
  Distance h = Some (if bitmask.Count mask =? 1 then 10 else 10 + 20 * hopCount) /\
  Bandwidth h
  = Some (let b := (80 * (1 - float64_of_int hopCount * 0.4))%float in
          if PrimFloat.ltb b 10 then 10%float else b) /\
  notNil (Score h) = true.
Proof.
  intros Hgate Hbits. unfold newHint, calculateEnhancedTopologyFields,
    SetEnhancedFields, bitmask.Count. rewrite Hgate. simpl NUMANodeAffinity.
  cbv iota beta. simpl negb. cbv iota.
  destruct (bitmask.GetBits mask) as [|b bits] eqn:E; [congruence|].
  assert (Hlen : (Z.of_nat (length (b :: bits)) =? 0) = false)
    by (apply Z.eqb_neq; simpl length; lia).
  assert (Hhop : (Z.of_nat (length (b :: bits)) - 1 <? 0) = false)
    by (apply Z.ltb_ge; simpl length; lia).
  rewrite Hlen, !Hhop. cbn [HopCount Distance Bandwidth Score notNil].
  split; [simpl length; lia|]. split; [reflexivity|].
  split; [f_equal; destruct (_ =? 1); lia|]. split; reflexivity.
Qed.

End Generator.

Lemma combinations_spec {A : Type} (size : nat) (bits c : list A) :
  In c (bitmask.combinations size bits) -> length c = size /\ incl c bits.
Proof.
  revert size c. induction bits as [|b bits IH]; intros [|k] c; simpl.
  - intros [<-|[]]. split; [reflexivity|intros x []].
  - intros [].
  - intros [<-|[]]. split; [reflexivity|intros x []].
  - intros H. apply in_app_or in H as [H|H].
    + apply in_map_iff in H as (c' & <- & H). apply IH in H as [Hlen Hincl].
      split; [simpl; congruence|].
      intros x [<-|Hx]; [now left|right; now apply Hincl].
    + apply IH in H as [Hlen Hincl]. split; [exact Hlen|].
      intros x Hx. right. now apply Hincl.
Qed.

(** The enumerated masks of non-negative node ids are not empty. *)
Lemma IterateBitMasks_nonempty (bits : list Z) (mask : bitmask.BitMask) :
  List.Forall (fun b => 0 <= b) bits ->
  In mask (bitmask.IterateBitMasks bits) -> bitmask.GetBits mask <> [].
Proof.
  intros Hpos Hin. unfold bitmask.IterateBitMasks in Hin.
  apply in_flat_map in Hin as (size & Hsize & Hin).
  apply in_map_iff in Hin as (c & <- & Hc).
  apply combinations_spec in Hc as [Hlen Hincl].
  apply in_seq in Hsize.
  destruct c as [|b c]; [simpl in Hlen; lia|].
  apply (NewBitMask_nonempty _ b); [now left|].
  rewrite List.Forall_forall in Hpos. apply Hpos, Hincl. now left.
Qed.

(** C4.  Every hint returned by the device generator has an affinity, and it
    is preferred if and only if the bit count of its mask equals
    [min_affinity_size], the minimum of [|M|] over the enumerated masks with
    [devices_in_mask >= request] (starting from the number of NUMA nodes).
    The generator returns whenever the ids it is given are in the device
    table. *)
Theorem preferred_iff_min_affinity_size (gate : bool)
    (m : devicemanager.ManagerImpl) (resource : string)
    (available reusable : list string) (request : Z) :
  (forall hints,
      devicemanager.generateDeviceTopologyHints gate m resource available
        reusable request = Some hints ->
      forall h, In h hints ->
        exists mask, NUMANodeAffinity h = Some mask /\
          (Preferred h = true <->
           bitmask.Count mask = minAffinitySizeOf m resource request)) /\
  (devicesKnown m resource (available ++ reusable) ->
   exists hints,
     devicemanager.generateDeviceTopologyHints gate m resource available
       reusable request = Some hints).
Proof.
  split; [|apply generateDeviceTopologyHints_returns].
  intros hints Hgen h Hin.
  apply generateDeviceTopologyHints_Some in Hgen as [-> _].
  apply in_map_iff in Hin as (mask & <- & _).
  exists mask. split; [now rewrite marked_affinity, newHint_affinity|].
  unfold marked. rewrite newHint_affinity.
  destruct (Z.eqb_spec (bitmask.Count mask) (minAffinitySizeOf m resource request))
    as [Heq|Hne]; simpl.
  - tauto.
  - rewrite newHint_preferred. split; [discriminate|tauto].
Qed.

Lemma preferred_iff_min_affinity_size_witness :
  exists hints,
    devicemanager.generateDeviceTopologyHints true scenarios.fourNodeManager
      "testdevice" ["Dev0"; "Dev1"]%string [] 2 = Some hints /\
    minAffinitySizeOf scenarios.fourNodeManager "testdevice" 2 = 2 /\
    forall h, In h hints ->
      exists mask, NUMANodeAffinity h = Some mask /\
        (Preferred h = true <->
         bitmask.Count mask = minAffinitySizeOf scenarios.fourNodeManager "testdevice" 2).
Proof.
  destruct (preferred_iff_min_affinity_size true scenarios.fourNodeManager
              "testdevice" ["Dev0"; "Dev1"]%string [] 2) as [Hpref Hret].
  destruct Hret as [hints Hhints].
  - repeat constructor; vm_compute; discriminate.
  - exists hints. split; [exact Hhints|]. split; [vm_compute; reflexivity|].
    exact (Hpref hints Hhints).
Defined.

(** C7.  With the gate off, hint construction never populates enhanced
    fields: [SetEnhancedFields] leaves the hint as it is, [CreateEnhancedHint]
    returns a hint without enhanced fields, and no hint of the device
    generator has one.  With the gate on, every hint the device generator
    returns for a machine whose NUMA node ids are not negative carries all
    four fields. *)
Theorem enhanced_fields_follow_gate :
  (forall th hopCount bandwidth distance score,
      SetEnhancedFields false th hopCount bandwidth distance score = th) /\
  (forall numaAffinity preferred hopCount bandwidth distance dataSize,
      let hint := CreateEnhancedHint false numaAffinity preferred hopCount
                                     bandwidth distance dataSize in
      HopCount hint = None /\ Bandwidth hint = None /\
      Distance hint = None /\ Score hint = None) /\
  (forall m resource available reusable request hints,
      devicemanager.generateDeviceTopologyHints false m resource available
        reusable request = Some hints ->
      forall h, In h hints ->
        HopCount h = None /\ Bandwidth h = None /\
        Distance h = None /\ Score h = None) /\
  (forall m resource available reusable request hints,
      List.Forall (fun n => 0 <= n) (devicemanager.numaNodes m) ->
      devicemanager.generateDeviceTopologyHints true m resource available
        reusable request = Some hints ->
      forall h, In h hints ->
        notNil (NUMANodeAffinity h) = true /\ allEnhancedFields h = true).
Proof.
  split; [reflexivity|]. split; [intros; cbv; tauto|]. split.
  - intros m resource available reusable request hints Hgen h Hin.
    apply generateDeviceTopologyHints_Some in Hgen as [-> _].
    apply in_map_iff in Hin as (mask & <- & _).
    unfold marked, newHint. simpl.
    destruct (bitmask.Count mask =? _); simpl; tauto.
  - intros m resource available reusable request hints Hpos Hgen h Hin.
    apply generateDeviceTopologyHints_Some in Hgen as [-> _].
    apply in_map_iff in Hin as (mask & <- & Hmask).
    apply filter_In in Hmask as [Hmask _].
    apply (IterateBitMasks_nonempty _ _ Hpos) in Hmask.
    destruct (newHint_enhanced_fields true m resource request mask eq_refl Hmask)
      as (_ & Hh & Hd & Hb & Hs).
    split; [now rewrite marked_affinity, newHint_affinity|].
    unfold allEnhancedFields, marked. rewrite newHint_affinity.
    destruct (bitmask.Count mask =? minAffinitySizeOf m resource request);
      cbn [HopCount Bandwidth Distance Score];
      rewrite Hh, Hd, Hb, Hs; reflexivity.
Qed.

Lemma enhanced_fields_follow_gate_witness :
  exists hints,
    devicemanager.generateDeviceTopologyHints true scenarios.fourNodeManager
      "testdevice" ["Dev0"; "Dev1"]%string [] 2 = Some hints /\
    forall h, In h hints ->
      notNil (NUMANodeAffinity h) = true /\ allEnhancedFields h = true.
Proof.
  destruct enhanced_fields_follow_gate as (_ & _ & _ & Hon).
  eexists. split; [vm_compute; reflexivity|].
  apply (Hon scenarios.fourNodeManager "testdevice"%string
             ["Dev0"; "Dev1"]%string [] 2).
  - repeat constructor; lia.
  - vm_compute. reflexivity.
Defined.

Lemma reusableLoop_skips_nil_topology (devs : devicemanager.DeviceInstances)
    (mask : bitmask.BitMask) (before after : list string) (d : string)
    (device : pluginapi.Device) (n : Z) :
  devs !! d = Some device -> pluginapi.Topology device = None ->
  devicemanager.reusableLoop devs mask (before ++ d :: after) n
  = devicemanager.reusableLoop devs mask (before ++ after) n.
Proof.
  intros Hd Htop. revert n.
  induction before as [|x before IH]; intros n; simpl.
  - rewrite Hd. simpl. now rewrite Htop.
  - destruct (devs !! x) as [dx|]; simpl; [|reflexivity].
    destruct (negb (notNil (pluginapi.Topology dx))); [apply IH|].
    destruct (negb (bitmask.AnySet mask _)); [reflexivity|apply IH].
Qed.

(** C10.  A mask is emitted as a hint exactly when it is enumerated, every
    reusable device that declares topology has a node in it, and the number
    of reusable devices declaring topology plus the number of available
    devices with a node in it reaches the request.  A reusable device whose
    topology is nil changes nothing: with or without it the generator does
    the same.  The generator returns whenever the ids it is given are in the
    device table. *)
Theorem reusable_without_topology_is_ignored (gate : bool)
    (m : devicemanager.ManagerImpl) (resource : string)
    (available reusable : list string) (request : Z) :
  (forall hints,
      devicemanager.generateDeviceTopologyHints gate m resource available
        reusable request = Some hints ->
      forall mask,
        (exists h, In h hints /\ NUMANodeAffinity h = Some mask) <->
        In mask (bitmask.IterateBitMasks (devicemanager.numaNodes m)) /\
        reusableFits m resource reusable mask = true /\
        topologyBearingReusable m resource reusable
        + availableInMask m resource available mask >= request) /\
  (forall before after d device,
      reusable = before ++ d :: after ->
      devicemanager.devicesOf m resource !! d = Some device ->
      pluginapi.Topology device = None ->
      devicemanager.generateDeviceTopologyHints gate m resource available
        reusable request
      = devicemanager.generateDeviceTopologyHints gate m resource available
          (before ++ after) request) /\
  (devicesKnown m resource (available ++ reusable) ->
   exists hints,
     devicemanager.generateDeviceTopologyHints gate m resource available
       reusable request = Some hints).
Proof.
  split; [|split; [|apply generateDeviceTopologyHints_returns]].
  - intros hints Hgen mask.
    apply generateDeviceTopologyHints_Some in Hgen as [-> Hall].
    rewrite List.Forall_forall in Hall.
    assert (Hemitted : forall mask0,
               In mask0 (bitmask.IterateBitMasks (devicemanager.numaNodes m)) ->
               emitted m resource available reusable request mask0
               = reusableFits m resource reusable mask0
                 && (topologyBearingReusable m resource reusable
                     + availableInMask m resource available mask0 >=? request)).
    { intros mask0 Hin. unfold emitted. specialize (Hall mask0 Hin).
      destruct (emits m resource available reusable request mask0) as [e|] eqn:E;
        [|congruence].
      apply emits_Some in E. rewrite <- E. now destruct e. }
    split.
    + intros (h & Hin & Haff). apply in_map_iff in Hin as (mask0 & <- & Hin).
      rewrite marked_affinity, newHint_affinity in Haff. injection Haff as ->.
      apply filter_In in Hin as [Hin He]. rewrite (Hemitted mask Hin) in He.
      apply andb_true_iff in He as [Hfit Hcount].
      split; [exact Hin|]. split; [exact Hfit|].
      rewrite Z.geb_leb in Hcount. apply Z.leb_le in Hcount. lia.
    + intros (Hin & Hfit & Hcount).
      exists (marked (minAffinitySizeOf m resource request)
                     (newHint gate m resource request mask)).
      split; [|now rewrite marked_affinity, newHint_affinity].
      apply in_map_iff. exists mask. split; [reflexivity|].
      apply filter_In. split; [exact Hin|]. rewrite (Hemitted mask Hin), Hfit.
      rewrite Z.geb_leb. apply Z.leb_le. lia.
  - intros before after d device -> Hd Htop.
    unfold devicemanager.generateDeviceTopologyHints.
    rewrite (foldPanic_ext
               (devicemanager.visitMask gate m resource available
                  (before ++ d :: after) request)
               (devicemanager.visitMask gate m resource available
                  (before ++ after) request)); [reflexivity|].
    intros st mask _. unfold devicemanager.visitMask.
    now rewrite (reusableLoop_skips_nil_topology _ mask before after d device 0 Hd Htop).
Qed.

Lemma reusable_without_topology_is_ignored_witness :
  devicemanager.generateDeviceTopologyHints true scenarios.mixedDeviceManager
    "gpu" ["Dev0"]%string ["Dev1"]%string 1
  = devicemanager.generateDeviceTopologyHints true scenarios.mixedDeviceManager
      "gpu" ["Dev0"]%string [] 1 /\
  exists hints,
    devicemanager.generateDeviceTopologyHints true scenarios.mixedDeviceManager
      "gpu" ["Dev0"]%string ["Dev1"]%string 1 = Some hints.
Proof.
  destruct (reusable_without_topology_is_ignored true scenarios.mixedDeviceManager
              "gpu" ["Dev0"]%string ["Dev1"]%string 1) as (_ & Hskip & Hret).
  split.
  - apply (Hskip [] [] "Dev1"%string (pluginapi.mkDevice None)); reflexivity.
  - apply Hret. repeat constructor; vm_compute; discriminate.
Defined.

(** *** The score written by the decoration *)

Lemma existsb_GetBits (mask : bitmask.BitMask) (nodeID : Z) :
  existsb (fun selectedNode => nodeID =? selectedNode) (bitmask.GetBits mask)
  = bitmask.IsSet mask nodeID.
Proof.
  apply Bool.eq_iff_eq_true. rewrite existsb_exists, <- In_GetBits. split.
  - intros (s & Hin & Heq). apply Z.eqb_eq in Heq. now subst.
  - intros Hin. exists nodeID. split; [exact Hin|apply Z.eqb_refl].
Qed.

(** With the gate on, the score of an emitted hint is the stated formula
    evaluated on [deviceNodesInMask], the count the code makes. *)
Lemma newHint_score (m : devicemanager.ManagerImpl) (resource : string)
    (request : Z) (mask : bitmask.BitMask) :
  bitmask.GetBits mask <> [] ->
  Score (newHint true m resource request mask)
  = Some (claimedScore (bitmask.Count mask - 1) (maskDistance mask) request
                       (deviceNodesInMask m resource mask)).
Proof.
  intros Hbits.
  unfold newHint, devicemanager.calculateEnhancedTopologyFields,
    SetEnhancedFields, claimedScore, maskDistance, deviceNodesInMask,
    bitmask.Count.
  simpl NUMANodeAffinity. cbv iota beta. simpl negb. cbv iota.
  destruct (bitmask.GetBits mask) as [|b bits] eqn:E; [congruence|].
  assert (Hlen : (Z.of_nat (length (b :: bits)) =? 0) = false)
    by (apply Z.eqb_neq; simpl length; lia).
  assert (Hhop : (Z.of_nat (length (b :: bits)) - 1 <? 0) = false)
    by (apply Z.ltb_ge; simpl length; lia).
  rewrite Hlen, !Hhop. reflexivity.
Qed.

(** When no device of the resource is attached to more than one node, the
    count the code makes is the number of devices with a node in the mask. *)
Lemma deviceNodesInMask_single_node (m : devicemanager.ManagerImpl)
    (resource : string) (mask : bitmask.BitMask) :
  (forall id device,
      devicemanager.devicesOf m resource !! id = Some device ->
      (length (devicemanager.getNUMANodeIds (pluginapi.Topology device)) <= 1)%nat) ->
  deviceNodesInMask m resource mask = devicemanager.devicesInMask m resource mask.
Proof.
  intros Hsingle. unfold deviceNodesInMask, devicemanager.devicesInMask.
  assert (Hall : forall device,
             In device (map snd (map_to_list (devicemanager.devicesOf m resource))) ->
             (length (devicemanager.getNUMANodeIds (pluginapi.Topology device)) <= 1)%nat).
  { intros device Hin. apply in_map_iff in Hin as ([id device'] & <- & Hin).
    apply list_elem_of_In, elem_of_map_to_list in Hin. exact (Hsingle id device' Hin). }
  revert Hall.
  generalize (map snd (map_to_list (devicemanager.devicesOf m resource))).
  intros devices Hall.
  rewrite <- (Z.add_0_l (countIf _ devices)). generalize 0.
  induction devices as [|device devices IH]; intros n; simpl.
  - unfold countIf. simpl. lia.
  - rewrite countIf_cons, IH by (intros d Hd; apply Hall; now right).
    specialize (Hall device (or_introl eq_refl)).
    destruct (pluginapi.Topology device) as [t|]; simpl in *; [|lia].
    destruct (map pluginapi.ID (pluginapi.Nodes t)) as [|x [|y rest]];
      simpl in *; [lia| |lia].
    rewrite existsb_GetBits, orb_false_r.
    destruct (bitmask.IsSet mask x); lia.
Qed.

(** C3, the failing input.  One device attached to nodes 0 and 1, request 1:
    the hint of mask [{0,1}] gets hop count 1, distance 30 and bandwidth 48.0
    as stated, but the score 47, where one device in the mask gives the
    stated formula the value 52: the device is counted once per node. *)
Theorem score_counts_shared_device_per_node :
  devicemanager.generateDeviceTopologyHints true scenarios.sharedDeviceManager
    "gpu" ["Dev0"]%string [] 1
  = Some [ mkTopologyHint (Some 1%N) true (Some 0) (Some 80%float) (Some 10)
                          (Some 0%float);
           mkTopologyHint (Some 2%N) true (Some 0) (Some 80%float) (Some 10)
                          (Some 0%float);
           mkTopologyHint (Some 3%N) false (Some 1) (Some 48%float) (Some 30)
                          (Some 47%float) ] /\
  devicemanager.devicesInMask scenarios.sharedDeviceManager "gpu" 3%N = 1 /\
  claimedScore 1 30 1 1 = 52%float.
Proof. vm_compute. repeat split; reflexivity. Qed.

(** Scenario 5 of the spec: four nodes, two devices on nodes 0 and 1,
    request 2, gate on. *)
Lemma device_generator_scenario :
  devicemanager.generateDeviceTopologyHints true scenarios.fourNodeManager
    "testdevice" ["Dev0"; "Dev1"]%string [] 2
  = Some [ mkTopologyHint (Some 3%N) true (Some 1) (Some 48%float) (Some 30)
                          (Some 52%float);
           mkTopologyHint (Some 7%N) false (Some 2)
                          (Some 15.999999999999996%float) (Some 50)
                          (Some 104%float);
           mkTopologyHint (Some 11%N) false (Some 2)
                          (Some 15.999999999999996%float) (Some 50)
                          (Some 104%float);
           mkTopologyHint (Some 15%N) false (Some 3) (Some 10%float) (Some 70)
                          (Some 156%float) ] /\
  claimedScore 1 30 2 (devicemanager.devicesInMask scenarios.fourNodeManager
                         "testdevice" 3%N) = 52%float.
Proof. vm_compute. split; reflexivity. Qed.

(** ** The distributed policy *)

Section DistributedHint.

Variable gate : bool.

Lemma collectHints_allHints (providersHints : list ProviderHints) :
  collectHints gate providersHints
  = fold_left (collectHint gate) (allHints providersHints)
              (mkTotals 0 0 0%float 0%float 0 true).
Proof.
  unfold collectHints, allHints.
  generalize (mkTotals 0 0 0%float 0%float 0 true).
  induction providersHints as [|ph rest IH]; intros t; simpl; [reflexivity|].
  rewrite fold_left_app, IH. f_equal.
  clear IH. revert t. induction ph as [|entry ph IH]; intros t; simpl;
    [reflexivity|].
  now rewrite fold_left_app, IH.
Qed.

(** The count, the conjunction and the score total after the three loops. *)
Lemma fold_collectHint (l : list TopologyHint) (t : distributedTotals) :
  let t' := fold_left (collectHint gate) l t in
  let withAffinity := List.filter (fun h => notNil (NUMANodeAffinity h)) l in
  hintCount t' = hintCount t + Z.of_nat (length withAffinity) /\
  allPreferred t' = allPreferred t && forallb Preferred withAffinity /\
  totalScore t'
  = fold_left (fun acc h => (acc + GetScore gate h)%float)
              (List.filter (fun h => gate && hasEnhancedFields h) withAffinity)
              (totalScore t).
Proof.
  revert t. induction l as [|h l IH]; intros t; simpl.
  - split; [lia|]. split; [now rewrite andb_true_r|reflexivity].
  - destruct (IH (collectHint gate t h)) as (Hc & Hp & Hs).
    rewrite Hc, Hp, Hs. unfold collectHint.
    destruct (notNil (NUMANodeAffinity h)); simpl; [|tauto].
    destruct (gate && hasEnhancedFields h); simpl;
      (split; [lia|]; split; [|reflexivity]);
      destruct (Preferred h); simpl; try reflexivity;
      now rewrite andb_false_r.
Qed.

End DistributedHint.

(** What [createDistributedHint] returns with the gate on. *)
Lemma createDistributedHint_spec (p : distributedPolicy)
    (providersHints : list ProviderHints) :
  let hint := createDistributedHint true p providersHints in
  NUMANodeAffinity hint = Some (DefaultAffinityMask (numaInfo p)) /\
  Preferred hint = forallb Preferred (affinityHints providersHints) /\
  Score hint
  = match affinityHints providersHints with
    | [] => None
    | _ :: _ =>
        Some (scoreSum providersHints
              / float64_of_int (Z.of_nat (length (affinityHints providersHints)))
              + float64_of_int
                  (bitmask.Count (DefaultAffinityMask (numaInfo p)) - 1) * 5)%float
    end.
Proof.
  unfold createDistributedHint. rewrite collectHints_allHints.
  destruct (fold_collectHint true (allHints providersHints)
              (mkTotals 0 0 0%float 0%float 0 true)) as (Hc & Hp & Hs).
  simpl in Hc, Hp, Hs. fold (affinityHints providersHints) in Hc, Hp, Hs.
  rewrite Z.add_0_l in Hc.
  rewrite Hc, Hp, Hs. unfold scoreSum. simpl andb.
  destruct (affinityHints providersHints) as [|h l] eqn:E.
  - simpl. tauto.
  - assert (Hpos : (Z.of_nat (length (h :: l)) >? 0) = true)
      by (apply Z.gtb_lt; simpl length; lia).
    rewrite Hpos. cbn [NUMANodeAffinity Preferred Score]. tauto.
Qed.

(** C2, as the code has it.  With the gate on, an input naming at least two
    resource types and a NUMAInfo of more than one node (distinct ids, none
    negative), [Merge] returns, whenever the enhanced merger it first runs
    returns, the distributed hint and admits it: the affinity is the default
    mask, Preferred is the conjunction of Preferred over the input hints that
    have an affinity, and Score, when at least one input hint has an
    affinity, is the score total of those hints divided by their number plus
    5.0 per NUMA node beyond the first; when no input hint has an affinity
    the hint has no Score. *)
Theorem distributed_merge_of_several_resources
    (filterProvidersHints : list ProviderHints -> list (list TopologyHint))
    (HintMerger_Merge : HintMerger -> option TopologyHint)
    (EnhancedHintMerger_Merge : EnhancedHintMerger -> option TopologyHint)
    (p : distributedPolicy) (providersHints : list ProviderHints)
    (baseHint : TopologyHint) :
  List.NoDup (Nodes (numaInfo p)) ->
  List.Forall (fun n => 0 <= n) (Nodes (numaInfo p)) ->
  (length (Nodes (numaInfo p)) > 1)%nat ->
  hasMultipleResourceTypes p providersHints = true ->
  EnhancedHintMerger_Merge
    (SetDistributedMerging
       (NewEnhancedHintMerger (numaInfo p)
          (Some (DefaultAffinityMask (numaInfo p))) providersHints) true)
  = Some baseHint ->
  exists hint,
    Merge true filterProvidersHints HintMerger_Merge EnhancedHintMerger_Merge
          p providersHints = Some (hint, true) /\
    NUMANodeAffinity hint = Some (DefaultAffinityMask (numaInfo p)) /\
    Preferred hint = forallb Preferred (affinityHints providersHints) /\
    Score hint
    = match affinityHints providersHints with
      | [] => None
      | _ :: _ =>
          Some (scoreSum providersHints
                / float64_of_int (Z.of_nat (length (affinityHints providersHints)))
                + float64_of_int (Z.of_nat (length (Nodes (numaInfo p))) - 1) * 5)%float
      end.
Proof.
  intros Hnd Hpos Hlen Hmulti Hbase.
  pose proof (Count_NewBitMask _ Hnd Hpos) as Hcount.
  fold (DefaultAffinityMask (numaInfo p)) in Hcount.
  destruct (createDistributedHint_spec p providersHints) as (Haff & Hpref & Hscore).
  exists (createDistributedHint true p providersHints).
  split; [|split; [exact Haff|split; [exact Hpref|now rewrite Hscore, Hcount]]].
  assert (Hle : (Z.of_nat (length (Nodes (numaInfo p))) <=? 1) = false)
    by (apply Z.leb_gt; lia).
  assert (Hgt : (Z.of_nat (length (Nodes (numaInfo p))) >? 1) = true)
    by (apply Z.gtb_lt; lia).
  unfold Merge, applyDistributionLogic, canAdmitPodResult.
  generalize dependent (createDistributedHint true p providersHints).
  intros hint Haff _ _.
  rewrite Hmulti, Hbase. simpl. rewrite Hle, Haff, Hcount, Hgt. simpl.
  now rewrite Haff.
Qed.

Lemma distributed_merge_of_several_resources_witness :
  exists hint,
    specMerge true scenarios.twoNodePolicy scenarios.twoEnhancedResources
    = Some (hint, true) /\
    NUMANodeAffinity hint = Some 3%N /\
    Preferred hint = true /\
    Score hint = Some 65%float.
Proof.
  destruct (distributed_merge_of_several_resources
              (filter_providers_hints (numaInfo scenarios.twoNodePolicy))
              (classic_merge true) (enhanced_merge true)
              scenarios.twoNodePolicy scenarios.twoEnhancedResources
              (mkTopologyHint (Some 3%N) false None None None None))
    as (hint & Hmerge & Haff & Hpref & Hscore).
  - repeat constructor; simpl; intuition discriminate.
  - repeat constructor; lia.
  - simpl. lia.
  - vm_compute. reflexivity.
  - vm_compute. reflexivity.
  - exists hint. split; [exact Hmerge|]. split; [exact Haff|].
    split; [exact Hpref|]. rewrite Hscore. vm_compute. reflexivity.
Defined.

(** C2, as stated, fails: two resource types that come without a hint give
    a distributed hint that has no Score. *)
Lemma distributed_merge_without_hints_has_no_score :
  exists hint,
    specMerge true scenarios.twoNodePolicy scenarios.twoEmptyResources
    = Some (hint, true) /\
    hasMultipleResourceTypes scenarios.twoNodePolicy scenarios.twoEmptyResources
    = true /\
    NUMANodeAffinity hint = Some 3%N /\
    Score hint = None.
Proof. eexists. vm_compute. repeat split; reflexivity. Qed.

(** ** The mergers of the spec and the admission decision *)

Section MergersReturn.

Variable gate : bool.

Lemma pickBest_affinity (less : TopologyHint -> TopologyHint -> option bool)
    (cands : list TopologyHint) (seed : TopologyHint) :
  (forall c best, notNil (NUMANodeAffinity c) = true ->
                  notNil (NUMANodeAffinity best) = true ->
                  exists r, less c best = Some r) ->
  List.Forall (fun c => notNil (NUMANodeAffinity c) = true) cands ->
  notNil (NUMANodeAffinity seed) = true ->
  exists best, pickBest less cands seed = Some best
               /\ notNil (NUMANodeAffinity best) = true.
Proof.
  intros Hless Hall. unfold pickBest. revert seed.
  induction Hall as [|c cands Hc _ IH]; intros seed Hseed; simpl.
  - eauto.
  - destruct (Hless c seed Hc Hseed) as [r ->]. simpl.
    apply IH. now destruct r.
Qed.

Lemma candidates_affinity (enhanced : bool) (defaultMask : bitmask.BitMask)
    (hints : list (list TopologyHint)) :
  List.Forall (fun c => notNil (NUMANodeAffinity c) = true)
              (candidates enhanced defaultMask hints).
Proof.
  apply List.Forall_forall. intros c Hin. unfold candidates in Hin.
  apply filter_In in Hin as [Hin _].
  apply in_map_iff in Hin as (tuple & <- & _). reflexivity.
Qed.

Lemma enhancedLess_returns (distributed : bool) (c best : TopologyHint) :
  notNil (NUMANodeAffinity c) = true -> notNil (NUMANodeAffinity best) = true ->
  exists r, enhancedLess gate distributed c best = Some r.
Proof.
  intros Hc Hb. unfold enhancedLess.
  destruct (distributed && Bool.eqb (Preferred c) (Preferred best)
            && multiNode c && multiNode best); [eauto|].
  now apply LessThan_returns.
Qed.

(** The classic merger of the spec returns a hint with an affinity. *)
Lemma classic_merge_affinity (merger : HintMerger) :
  exists best, classic_merge gate merger = Some best
               /\ notNil (NUMANodeAffinity best) = true.
Proof.
  unfold classic_merge. destruct (hmHints merger) as [|l rest]; [eauto|].
  apply pickBest_affinity;
    [apply LessThan_returns|apply candidates_affinity|reflexivity].
Qed.

(** The enhanced merger of the spec returns a hint with an affinity. *)
Lemma enhanced_merge_affinity (merger : EnhancedHintMerger) :
  exists best, enhanced_merge gate merger = Some best
               /\ notNil (NUMANodeAffinity best) = true.
Proof.
  unfold enhanced_merge.
  destruct (filter_providers_hints _ _) as [|l rest]; [eauto|].
  apply pickBest_affinity;
    [apply enhancedLess_returns|apply candidates_affinity|reflexivity].
Qed.

End MergersReturn.

(** With the mergers of the spec, [Merge] never panics and always admits. *)
Lemma specMerge_admits (gate : bool) (p : distributedPolicy)
    (providersHints : list ProviderHints) :
  exists hint, specMerge gate p providersHints = Some (hint, true).
Proof.
  unfold specMerge, Merge, applyDistributionLogic, canAdmitPodResult.
  destruct gate; simpl negb; cbv iota.
  - destruct (hasMultipleResourceTypes p providersHints); simpl negb; cbv iota.
    + destruct (enhanced_merge_affinity true
                  (SetDistributedMerging
                     (NewEnhancedHintMerger (numaInfo p)
                        (Some (DefaultAffinityMask (numaInfo p))) providersHints)
                     true)) as (base & -> & Hbase).
      simpl.
      destruct (Z.of_nat (length (Nodes (numaInfo p))) <=? 1); simpl;
        [rewrite Hbase; eauto|].
      destruct (NUMANodeAffinity (createDistributedHint true p providersHints))
        as [a|] eqn:E; simpl; [|rewrite Hbase; eauto].
      destruct (bitmask.Count a >? 1); simpl; [rewrite E|rewrite Hbase]; eauto.
    + destruct (enhanced_merge_affinity true
                  (NewEnhancedHintMerger (numaInfo p)
                     (Some (DefaultAffinityMask (numaInfo p))) providersHints))
        as (best & -> & Hbest).
      simpl. rewrite Hbest. eauto.
  - destruct (classic_merge_affinity false
                (NewHintMerger (numaInfo p)
                   (filter_providers_hints (numaInfo p) providersHints)
                   "best-effort" (opts p))) as (best & -> & Hbest).
    simpl. rewrite Hbest. eauto.
Qed.

(** C5.  Two-run backward compatibility: on an input in which no hint
    carries an enhanced field, the distributed policy's [Merge] returns with
    the gate off and with the gate on, and both runs give the same admission
    flag. *)
Theorem merge_admission_independent_of_gate (p : distributedPolicy)
    (providersHints : list ProviderHints) :
  noEnhancedFields providersHints = true ->
  exists hintOff hintOn admits,
    specMerge false p providersHints = Some (hintOff, admits) /\
    specMerge true p providersHints = Some (hintOn, admits).
Proof.
  intros _.
  destruct (specMerge_admits false p providersHints) as [hintOff Hoff].
  destruct (specMerge_admits true p providersHints) as [hintOn Hon].
  exists hintOff, hintOn, true. split; assumption.
Qed.

Lemma merge_admission_independent_of_gate_witness :
  exists hintOff hintOn admits,
    specMerge false scenarios.twoNodePolicy scenarios.twoPlainResources
    = Some (hintOff, admits) /\
    specMerge true scenarios.twoNodePolicy scenarios.twoPlainResources
    = Some (hintOn, admits).
Proof.
  apply (merge_admission_independent_of_gate scenarios.twoNodePolicy
           scenarios.twoPlainResources).
  reflexivity.
Defined.

(** ** Validation of topology information *)

Section Validation.

Import resourcev1.

(** The texts of the errors play no role in most proofs; hiding them keeps
    the terms small. *)
Ltac hide_details :=
  repeat match goal with
         | |- context [field.Invalid _ _ (String ?a ?s)] =>
             let detail := fresh "detail" in
             generalize (String a s); intro detail
         end.

Lemma append_if {A : Type} (c : bool) (l : list A) (e : A) :
  (if c then l ++ [e] else l) = l ++ (if c then [e] else []).
Proof. destruct c; [reflexivity|now rewrite app_nil_r]. Qed.

Lemma noErrors_app (l1 l2 : field.ErrorList) :
  noErrors (l1 ++ l2) = noErrors l1 && noErrors l2.
Proof. now destruct l1. Qed.

Lemma noErrors_if (c : bool) (e : field.Error) :
  noErrors (if c then [e] else []) = negb c.
Proof. now destruct c. Qed.

Lemma noErrors_true (errs : field.ErrorList) : noErrors errs = true <-> errs = [].
Proof. destruct errs; simpl; split; congruence. Qed.

Lemma noErrors_flat_map {A : Type} (f : A -> field.ErrorList) (accepted : A -> bool)
    (l : list A) :
  (forall x, noErrors (f x) = accepted x) ->
  noErrors (flat_map f l) = forallb accepted l.
Proof.
  intros H. induction l as [|x l IH]; simpl; [reflexivity|].
  now rewrite noErrors_app, IH, H.
Qed.

(** The errors of one matrix entry are appended to those found before. *)
Lemma validateConnectivity_app (fldPath : field.Path) (allErrs : field.ErrorList)
    (entry : string * NodeConnectivity) :
  validateConnectivity fldPath allErrs entry
  = allErrs ++ validateConnectivity fldPath [] entry.
Proof.
  unfold validateConnectivity.
  destruct (isEmpty (fst entry)); [reflexivity|].
  destruct (ncBandwidth (snd entry)), (ncLatency (snd entry));
    rewrite ?append_if, ?app_nil_l, <- ?app_assoc; try reflexivity.
  now rewrite app_nil_r.
Qed.

Lemma fold_validateConnectivity (fldPath : field.Path)
    (matrix : list (string * NodeConnectivity)) (allErrs : field.ErrorList) :
  fold_left (validateConnectivity fldPath) matrix allErrs
  = allErrs ++ flat_map (validateConnectivity fldPath []) matrix.
Proof.
  revert allErrs. induction matrix as [|entry matrix IH]; intros allErrs; simpl.
  - now rewrite app_nil_r.
  - now rewrite IH, validateConnectivity_app, <- app_assoc.
Qed.

Lemma validateConnectivityMatrix_flat_map (matrix : list (string * NodeConnectivity))
    (fldPath : field.Path) :
  validateConnectivityMatrix matrix fldPath
  = flat_map (validateConnectivity fldPath []) matrix.
Proof. apply fold_validateConnectivity. Qed.

Lemma noErrors_validateConnectivity (fldPath : field.Path)
    (entry : string * NodeConnectivity) :
  noErrors (validateConnectivity fldPath [] entry) = validConnectivity entry.
Proof.
  unfold validateConnectivity, validConnectivity, validBandwidth, validLatency.
  destruct (isEmpty (fst entry)); [reflexivity|].
  destruct (ncBandwidth (snd entry)) as [b|], (ncLatency (snd entry)) as [l|];
    rewrite ?append_if, ?app_nil_l, ?noErrors_app, ?noErrors_if; simpl;
    rewrite ?andb_true_r, ?Z.gtb_ltb, ?Z.leb_antisym, ?andb_assoc; reflexivity.
Qed.

Lemma noErrors_distance (distance : Z) :
  negb (distance <? 0) && negb (distance >? 255)
  && negb ((distance >? 0) && (distance <? 10))
  = validDistance distance.
Proof.
  unfold validDistance. rewrite !Z.gtb_ltb.
  destruct (Z.ltb_spec distance 0), (Z.ltb_spec 255 distance),
    (Z.ltb_spec 0 distance), (Z.ltb_spec distance 10),
    (Z.eqb_spec distance 0), (Z.leb_spec 10 distance),
    (Z.leb_spec distance 255); simpl; try reflexivity; lia.
Qed.

(** [ValidateInterconnectInfo] reports nothing exactly on the accepted
    values. *)
Lemma noErrors_ValidateInterconnectInfo (info : InterconnectInfo)
    (fldPath : field.Path) :
  noErrors (ValidateInterconnectInfo (Some info) fldPath)
  = validInterconnectInfo info.
Proof.
  unfold ValidateInterconnectInfo, validInterconnectInfo.
  hide_details.
  rewrite validateConnectivityMatrix_flat_map, noErrors_app.
  rewrite (noErrors_flat_map _ validConnectivity)
    by (intros; apply noErrors_validateConnectivity).
  f_equal.
  destruct (HopCount info) as [h|], (Bandwidth info) as [b|],
    (Distance info) as [d|], (Latency info) as [l|];
    rewrite ?append_if, ?app_nil_l, ?noErrors_app, ?noErrors_if;
    cbn [nilOr]; unfold validHopCount, validBandwidth, validLatency;
    rewrite <- ?(noErrors_distance d), ?andb_true_r, ?Z.gtb_ltb,
      ?Z.leb_antisym, ?andb_assoc; reflexivity.
Qed.

(** X1.  An interconnect description is accepted without an error exactly when
    every field that is set lies in its range: hop count in 0..255,
    bandwidth neither below 0 nor above 1000000, distance 0 or in 10..255,
    latency in 0..1000000, and every matrix entry has a name and accepted
    values.  A nil description is accepted. *)
Theorem ValidateInterconnectInfo_accepts (info : InterconnectInfo)
    (fldPath : field.Path) :
  (ValidateInterconnectInfo (Some info) fldPath = []
   <-> validInterconnectInfo info = true) /\
  ValidateInterconnectInfo None fldPath = [].
Proof.
  split; [|reflexivity].
  now rewrite <- noErrors_true, noErrors_ValidateInterconnectInfo.
Qed.

Lemma SFcompare_nan (x : spec_float) :
  SFcompare x x = None -> x = S754_nan.
Proof.
  destruct x as [sx|sx| |sx mx ex]; simpl; try discriminate; reflexivity.
Qed.

Lemma SFcompare_refl (x : spec_float) :
  SFcompare x x = None \/ SFcompare x x = Some Eq.
Proof.
  destruct x as [sx|sx| |sx mx ex]; simpl; auto; try (destruct sx; now auto).
  rewrite Z.compare_refl.
  change PosDef.Pos.compare_cont with Pos.compare_cont.
  rewrite (Pos.compare_cont_refl mx Eq). destruct sx; auto.
Qed.

Lemma is_nan_Prim2SF (x : float) :
  PrimFloat.is_nan x = true -> Prim2SF x = S754_nan.
Proof.
  unfold PrimFloat.is_nan. rewrite FloatAxioms.eqb_spec. unfold SFeqb.
  intros H. apply SFcompare_nan.
  destruct (SFcompare_refl (Prim2SF x)) as [E | E]; [exact E|].
  rewrite E in H. discriminate.
Qed.

Lemma ltb_nan_l (x y : float) :
  PrimFloat.is_nan x = true -> PrimFloat.ltb x y = false.
Proof.
  intros H. rewrite FloatAxioms.ltb_spec, (is_nan_Prim2SF x H). reflexivity.
Qed.

Lemma ltb_nan_r (x y : float) :
  PrimFloat.is_nan y = true -> PrimFloat.ltb x y = false.
Proof.
  intros H. rewrite FloatAxioms.ltb_spec, (is_nan_Prim2SF y H).
  unfold SFltb. destruct (Prim2SF x) as [sx|sx| |sx mx ex]; reflexivity.
Qed.

(** X2.  A bandwidth that is not a number passes both range checks: the errors
    are those of the description without bandwidth. *)
Theorem ValidateInterconnectInfo_nan_bandwidth
    (hopCount distance latency : option Z) (bandwidth : float)
    (matrix : list (string * NodeConnectivity)) (fldPath : field.Path) :
  PrimFloat.is_nan bandwidth = true ->
  ValidateInterconnectInfo
    (Some (mkInterconnectInfo hopCount (Some bandwidth) distance latency matrix))
    fldPath
  = ValidateInterconnectInfo
      (Some (mkInterconnectInfo hopCount None distance latency matrix)) fldPath.
Proof.
  intros Hnan. unfold ValidateInterconnectInfo. hide_details.
  cbn [HopCount Bandwidth Distance Latency ConnectivityMatrix].
  now rewrite (ltb_nan_l bandwidth 0 Hnan), (ltb_nan_r 1000000 bandwidth Hnan).
Qed.

Lemma ValidateInterconnectInfo_nan_bandwidth_witness :
  PrimFloat.is_nan nan = true /\
  ValidateInterconnectInfo
    (Some (mkInterconnectInfo (Some 1) (Some nan) (Some 10) None [])) []
  = ValidateInterconnectInfo
      (Some (mkInterconnectInfo (Some 1) None (Some 10) None [])) [].
Proof.
  split; [reflexivity|].
  apply (ValidateInterconnectInfo_nan_bandwidth (Some 1) (Some 10) None nan [] []).
  reflexivity.
Defined.

Lemma length_if {A : Type} (c : bool) (e : A) :
  length (if c then [e] else []) = if c then 1%nat else 0%nat.
Proof. now destruct c. Qed.

(** The two range checks of a bandwidth never fire together. *)
Lemma bandwidth_checks_exclusive (b : float) :
  PrimFloat.ltb b 0 && PrimFloat.ltb 1000000 b = false.
Proof.
  rewrite !FloatAxioms.ltb_spec. unfold SFltb.
  set (zero := Prim2SF 0). vm_compute in zero.
  set (top := Prim2SF 1000000). vm_compute in top. subst zero top.
  destruct (Prim2SF b) as [s|s| |s mb eb]; try reflexivity;
    destruct s; reflexivity.
Qed.

Lemma length_validateConnectivity (fldPath : field.Path)
    (entry : string * NodeConnectivity) :
  (length (validateConnectivity fldPath [] entry) <= 2)%nat.
Proof.
  unfold validateConnectivity.
  destruct (isEmpty (fst entry)); [simpl; lia|].
  destruct (ncBandwidth (snd entry)) as [b|], (ncLatency (snd entry)) as [l|];
    rewrite ?append_if, ?app_nil_l, ?length_app, ?length_if; simpl; try lia.
  - pose proof (bandwidth_checks_exclusive b) as Hb.
    destruct (PrimFloat.ltb b 0), (PrimFloat.ltb 1000000 b),
      (Z.ltb_spec l 0), (Z.gtb_spec l 1000000); simpl in *; try lia;
      discriminate.
  - destruct (PrimFloat.ltb b 0), (PrimFloat.ltb 1000000 b); simpl; lia.
  - destruct (Z.ltb_spec l 0), (Z.gtb_spec l 1000000); simpl; lia.
Qed.

Lemma length_flat_map_le {A B : Type} (f : A -> list B) (k : nat) (l : list A) :
  (forall x, (length (f x) <= k)%nat) ->
  (length (flat_map f l) <= k * length l)%nat.
Proof.
  intros H. induction l as [|x l IH]; simpl; [lia|].
  rewrite length_app. specialize (H x). lia.
Qed.

Lemma hop_count_checks (h : Z) :
  ((if (h <? 0)%Z then 1 else 0) + (if (h >? 255)%Z then 1 else 0) <= 1)%nat.
Proof. destruct (Z.ltb_spec h 0), (Z.gtb_spec h 255); lia. Qed.

Lemma distance_checks (d : Z) :
  ((if (d <? 0)%Z then 1 else 0) + (if (d >? 255)%Z then 1 else 0)
   + (if ((d >? 0) && (d <? 10))%Z then 1 else 0) <= 1)%nat.
Proof.
  destruct (Z.ltb_spec d 0), (Z.gtb_spec d 255), (Z.gtb_spec d 0),
    (Z.ltb_spec d 10); simpl; lia.
Qed.

Lemma latency_checks (l : Z) :
  ((if (l <? 0)%Z then 1 else 0) + (if (l >? 1000000)%Z then 1 else 0) <= 1)%nat.
Proof. destruct (Z.ltb_spec l 0), (Z.gtb_spec l 1000000); lia. Qed.

Lemma bandwidth_checks (b : float) :
  ((if PrimFloat.ltb b 0 then 1 else 0)
   + (if PrimFloat.ltb 1000000 b then 1 else 0) <= 1)%nat.
Proof.
  pose proof (bandwidth_checks_exclusive b) as Hb.
  destruct (PrimFloat.ltb b 0), (PrimFloat.ltb 1000000 b); simpl in *;
    try lia; discriminate.
Qed.

(** X3.  No field is reported twice: a description yields at most one error for
    each of its four scalar fields and at most two for each matrix entry. *)
Theorem ValidateInterconnectInfo_error_count (info : InterconnectInfo)
    (fldPath : field.Path) :
  (length (ValidateInterconnectInfo (Some info) fldPath)
   <= 4 + 2 * length (ConnectivityMatrix info))%nat.
Proof.
  unfold ValidateInterconnectInfo. hide_details.
  rewrite validateConnectivityMatrix_flat_map, length_app.
  pose proof (length_flat_map_le
                (validateConnectivity (field.Child fldPath "connectivityMatrix") [])
                2 (ConnectivityMatrix info)
                (length_validateConnectivity _)) as Hm.
  destruct (HopCount info) as [h|], (Bandwidth info) as [b|],
    (Distance info) as [d|], (Latency info) as [l|];
    rewrite ?append_if, ?app_nil_l, ?length_app, ?length_if; simpl length;
    try pose proof (hop_count_checks h);
    try pose proof (bandwidth_checks b);
    try pose proof (distance_checks d);
    try pose proof (latency_checks l);
    lia.
Qed.

(** X4.  The errors reported for the connectivity matrix do not depend on the
    order in which the map is ranged over: two orders of the same entries
    give the same errors, up to their order. *)
Theorem ValidateInterconnectInfo_matrix_order
    (hopCount : option Z) (bandwidth : option float) (distance latency : option Z)
    (matrix matrix' : list (string * NodeConnectivity)) (fldPath : field.Path) :
  Permutation matrix matrix' ->
  Permutation
    (ValidateInterconnectInfo
       (Some (mkInterconnectInfo hopCount bandwidth distance latency matrix))
       fldPath)
    (ValidateInterconnectInfo
       (Some (mkInterconnectInfo hopCount bandwidth distance latency matrix'))
       fldPath).
Proof.
  intros Hperm. unfold ValidateInterconnectInfo. hide_details.
  cbn [HopCount Bandwidth Distance Latency ConnectivityMatrix].
  rewrite !validateConnectivityMatrix_flat_map.
  apply Permutation_app_head, Permutation_flat_map, Hperm.
Qed.

Lemma ValidateInterconnectInfo_matrix_order_witness :
  Permutation
    (ValidateInterconnectInfo
       (Some (mkInterconnectInfo None None None None
                [(""%string, mkNodeConnectivity None None);
                 ("node-1"%string, mkNodeConnectivity None (Some (-1)))]))
       [])
    (ValidateInterconnectInfo
       (Some (mkInterconnectInfo None None None None
                [("node-1"%string, mkNodeConnectivity None (Some (-1)));
                 (""%string, mkNodeConnectivity None None)]))
       []).
Proof.
  apply (ValidateInterconnectInfo_matrix_order None None None None
           [(""%string, mkNodeConnectivity None None);
            ("node-1"%string, mkNodeConnectivity None (Some (-1)))]
           [("node-1"%string, mkNodeConnectivity None (Some (-1)));
            (""%string, mkNodeConnectivity None None)] []).
  apply perm_swap.
Defined.

Lemma invalidUnder_Child (fldPath : field.Path) (name : string) (e : field.Error) :
  invalidUnder (field.Child fldPath name) e -> invalidUnder fldPath e.
Proof.
  intros [Ht (rest & Hf & _)]. split; [exact Ht|].
  exists (field.Name name :: rest). split; [|discriminate].
  rewrite Hf. unfold field.Child. now rewrite <- app_assoc.
Qed.

Lemma Forall_invalidUnder_Child (fldPath : field.Path) (name : string)
    (errs : field.ErrorList) :
  List.Forall (invalidUnder (field.Child fldPath name)) errs ->
  List.Forall (invalidUnder fldPath) errs.
Proof.
  intros H. eapply List.Forall_impl; [|exact H].
  intros e. apply invalidUnder_Child.
Qed.

Lemma invalidUnder_Invalid_Child (fldPath : field.Path) (name : string)
    (value : field.Value) (detail : string) :
  invalidUnder fldPath (field.Invalid (field.Child fldPath name) value detail).
Proof. split; [reflexivity|]. exists [field.Name name]. split; [reflexivity|discriminate]. Qed.

Lemma Forall_if {A : Type} (P : A -> Prop) (c : bool) (e : A) :
  P e -> List.Forall P (if c then [e] else []).
Proof. intros H. destruct c; repeat constructor. exact H. Qed.

Lemma Forall_app_intro {A : Type} (P : A -> Prop) (l1 l2 : list A) :
  List.Forall P l1 -> List.Forall P l2 -> List.Forall P (l1 ++ l2).
Proof. intros H1 H2. apply List.Forall_app. now split. Qed.

Lemma validateConnectivity_under (fldPath : field.Path)
    (entry : string * NodeConnectivity) :
  List.Forall
    (fun e => field.Type_ e = field.ErrorTypeInvalid /\
              exists rest, field.Field e = fldPath ++ rest)
    (validateConnectivity fldPath [] entry).
Proof.
  unfold validateConnectivity.
  destruct (isEmpty (fst entry)).
  - repeat constructor. exists []. simpl. now rewrite app_nil_r.
  - assert (forall name value detail,
               field.Type_ (field.Invalid
                              (field.Child (field.KeyOf fldPath (fst entry)) name)
                              value detail) = field.ErrorTypeInvalid /\
               exists rest,
                 field.Field (field.Invalid
                                (field.Child (field.KeyOf fldPath (fst entry)) name)
                                value detail) = fldPath ++ rest) as Hin.
    { intros name value detail. split; [reflexivity|].
      exists [field.Key (fst entry); field.Name name]. simpl.
      unfold field.Child, field.KeyOf. now rewrite <- app_assoc. }
    destruct (ncBandwidth (snd entry)) as [b|], (ncLatency (snd entry)) as [l|];
      rewrite ?append_if, ?app_nil_l; repeat apply Forall_app_intro;
      try (apply Forall_if; apply Hin); constructor.
Qed.

(** Every error of [ValidateInterconnectInfo] is of type Invalid and names a
    field below the path the validator was given. *)
Lemma ValidateInterconnectInfo_under (interconnectInfo : option InterconnectInfo)
    (fldPath : field.Path) :
  List.Forall (invalidUnder fldPath)
              (ValidateInterconnectInfo interconnectInfo fldPath).
Proof.
  destruct interconnectInfo as [info|]; [|constructor].
  unfold ValidateInterconnectInfo. hide_details.
  rewrite validateConnectivityMatrix_flat_map.
  apply Forall_app_intro.
  - destruct (HopCount info) as [h|], (Bandwidth info) as [b|],
      (Distance info) as [d|], (Latency info) as [l|];
      rewrite ?append_if, ?app_nil_l; repeat apply Forall_app_intro;
      try (apply Forall_if; apply invalidUnder_Invalid_Child); constructor.
  - apply List.Forall_forall. intros e Hin.
    apply in_flat_map in Hin as (entry & _ & Hin).
    pose proof (validateConnectivity_under
                  (field.Child fldPath "connectivityMatrix") entry) as Hall.
    rewrite List.Forall_forall in Hall. destruct (Hall e Hin) as [Ht [rest Hf]].
    split; [exact Ht|]. exists (field.Name "connectivityMatrix" :: rest).
    split; [|discriminate]. rewrite Hf. unfold field.Child.
    now rewrite <- app_assoc.
Qed.

Lemma validateResource_app (fldPath : field.Path) (allErrs : field.ErrorList)
    (entry : string * Z) :
  validateResource fldPath allErrs entry
  = allErrs ++ validateResource fldPath [] entry.
Proof.
  unfold validateResource.
  now rewrite ?append_if, ?app_nil_l, <- ?app_assoc.
Qed.

Lemma fold_validateResource (fldPath : field.Path) (resources : list (string * Z))
    (allErrs : field.ErrorList) :
  fold_left (validateResource fldPath) resources allErrs
  = allErrs ++ flat_map (validateResource fldPath []) resources.
Proof.
  revert allErrs. induction resources as [|entry resources IH]; intros allErrs; simpl.
  - now rewrite app_nil_r.
  - now rewrite IH, validateResource_app, <- app_assoc.
Qed.

Lemma noErrors_validateResource (fldPath : field.Path) (entry : string * Z) :
  noErrors (validateResource fldPath [] entry) = validResource entry.
Proof.
  unfold validateResource, validResource.
  rewrite ?append_if, ?app_nil_l, ?noErrors_app, ?noErrors_if.
  now rewrite Z.leb_antisym.
Qed.

Lemma ValidateNodeTopologyInfo_parts (topology : NodeTopologyInfo)
    (fldPath : field.Path) :
  ValidateNodeTopologyInfo (Some topology) fldPath
  = (if NodeID topology <? 0
     then [field.Invalid (field.Child fldPath "nodeID")
             (field.IntValue (NodeID topology)) "node ID must be non-negative"]
     else [])
    ++ flat_map (validateResource fldPath []) (Resources topology)
    ++ ValidateInterconnectInfo (InterconnectInfo_ topology)
         (field.Child fldPath "interconnectInfo").
Proof.
  unfold ValidateNodeTopologyInfo.
  rewrite fold_validateResource, append_if, app_nil_l, <- app_assoc.
  destruct (InterconnectInfo_ topology); [reflexivity|].
  cbn [ValidateInterconnectInfo]. now rewrite app_nil_r.
Qed.

Lemma noErrors_ValidateNodeTopologyInfo (topology : NodeTopologyInfo)
    (fldPath : field.Path) :
  noErrors (ValidateNodeTopologyInfo (Some topology) fldPath)
  = validNodeTopologyInfo topology.
Proof.
  rewrite ValidateNodeTopologyInfo_parts. unfold validNodeTopologyInfo.
  rewrite !noErrors_app, noErrors_if, Z.leb_antisym, <- andb_assoc.
  rewrite (noErrors_flat_map _ validResource)
    by (intros; apply noErrors_validateResource).
  do 2 f_equal.
  destruct (InterconnectInfo_ topology) as [info|]; [|reflexivity].
  apply noErrors_ValidateInterconnectInfo.
Qed.

(** X5.  A node topology is accepted without an error exactly when its node ID is
    not negative, every resource has a name and a quantity that is not
    negative, and its interconnect description, when there is one, is
    accepted. *)
Theorem ValidateNodeTopologyInfo_accepts (topology : NodeTopologyInfo)
    (fldPath : field.Path) :
  ValidateNodeTopologyInfo (Some topology) fldPath = []
  <-> validNodeTopologyInfo topology = true.
Proof.
  rewrite <- noErrors_ValidateNodeTopologyInfo with (fldPath := fldPath).
  symmetry. apply noErrors_true.
Qed.

Lemma validateResource_under (fldPath : field.Path) (entry : string * Z) :
  List.Forall (invalidUnder fldPath) (validateResource fldPath [] entry).
Proof.
  unfold validateResource. rewrite ?append_if, ?app_nil_l.
  apply Forall_app_intro; apply Forall_if.
  - apply invalidUnder_Invalid_Child.
  - split; [reflexivity|].
    exists [field.Name "resources"; field.Key (fst entry)].
    split; [|discriminate]. simpl. unfold field.KeyOf, field.Child.
    now rewrite <- app_assoc.
Qed.

Lemma ValidateNodeTopologyInfo_under (nodeTopology : option NodeTopologyInfo)
    (fldPath : field.Path) :
  List.Forall (invalidUnder fldPath)
              (ValidateNodeTopologyInfo nodeTopology fldPath).
Proof.
  destruct nodeTopology as [topology|]; [|constructor].
  rewrite ValidateNodeTopologyInfo_parts.
  repeat apply Forall_app_intro.
  - apply Forall_if, invalidUnder_Invalid_Child.
  - apply List.Forall_forall. intros e Hin.
    apply in_flat_map in Hin as (entry & _ & Hin).
    pose proof (validateResource_under fldPath entry) as Hall.
    rewrite List.Forall_forall in Hall. now apply Hall.
  - eapply Forall_invalidUnder_Child, ValidateInterconnectInfo_under.
Qed.

(** X6.  Every error the topology validators report is of type Invalid and names
    a field strictly below the path they were given; they report no
    Required or Forbidden error and none about another part of the
    object. *)
Theorem topology_errors_are_invalid_under_path (fldPath : field.Path) :
  (forall interconnectInfo,
      List.Forall (invalidUnder fldPath)
                  (ValidateInterconnectInfo interconnectInfo fldPath))
  /\ (forall nodeTopology,
         List.Forall (invalidUnder fldPath)
                     (ValidateNodeTopologyInfo nodeTopology fldPath)).
Proof.
  split; intros; [apply ValidateInterconnectInfo_under
                 | apply ValidateNodeTopologyInfo_under].
Qed.

Lemma validateDevices_app (specPath : field.Path) (devices : list Device) :
  forall (i : Z) (allErrs : field.ErrorList),
    validateDevices specPath i devices allErrs
    = allErrs ++ validateDevices specPath i devices [].
Proof.
  induction devices as [|device rest IH]; intros i allErrs; simpl.
  - now rewrite app_nil_r.
  - rewrite IH, (IH (i + 1) (if isEmpty _ then _ else _)), !append_if, ?app_nil_l.
    now rewrite <- ?app_assoc.
Qed.

Lemma validateDevices_cons (specPath : field.Path) (i : Z) (device : Device)
    (rest : list Device) :
  validateDevices specPath i (device :: rest) []
  = (if isEmpty (deviceName device)
     then [field.Required
             (field.Child (field.IndexOf (field.Child specPath "devices") i) "name")
             "device name is required"]
     else [])
    ++ validateDevices specPath (i + 1) rest [].
Proof.
  cbn [validateDevices]. now rewrite validateDevices_app, append_if, app_nil_l.
Qed.

Lemma noErrors_validateDevices (specPath : field.Path) (devices : list Device) :
  forall i : Z,
    noErrors (validateDevices specPath i devices [])
    = forallb (fun device => negb (isEmpty (deviceName device))) devices.
Proof.
  induction devices as [|device rest IH]; intros i; [reflexivity|].
  rewrite validateDevices_cons, noErrors_app, noErrors_if, IH. reflexivity.
Qed.

Lemma isEmpty_true (s : string) : isEmpty s = true <-> s = ""%string.
Proof. unfold isEmpty. apply String.eqb_eq. Qed.

(** The errors of the device loop are exactly one Required error for each
    device without a name, at the index of that device. *)
Lemma In_validateDevices (specPath : field.Path) (devices : list Device)
    (e : field.Error) :
  forall i : Z,
    In e (validateDevices specPath i devices [])
    <-> exists (k : nat) (device : Device),
          devices !! k = Some device /\ deviceName device = ""%string /\
          e = field.Required
                (field.Child
                   (field.IndexOf (field.Child specPath "devices") (i + Z.of_nat k))
                   "name")
                "device name is required".
Proof.
  induction devices as [|device rest IH]; intros i.
  - simpl. split; [tauto|]. intros (k & d & Hk & _). destruct k; discriminate.
  - rewrite validateDevices_cons, in_app_iff, IH. split.
    + intros [Hin | (k & d & Hk & Hname & He)].
      * destruct (isEmpty (deviceName device)) eqn:E; [|destruct Hin].
        destruct Hin as [<- | []]. exists 0%nat, device.
        apply isEmpty_true in E. rewrite Z.add_0_r. auto.
      * exists (S k), d. repeat split; [exact Hk | exact Hname |].
        rewrite He.
        now replace (i + Z.of_nat (S k)) with (i + 1 + Z.of_nat k) by lia.
    + intros (k & d & Hk & Hname & He). destruct k as [|k].
      * left. injection Hk as <-. apply isEmpty_true in Hname. rewrite Hname.
        left. rewrite He, Z.add_0_r. reflexivity.
      * right. exists k, d. repeat split; [exact Hk | exact Hname |].
        rewrite He.
        now replace (i + Z.of_nat (S k)) with (i + 1 + Z.of_nat k) by lia.
Qed.

Lemma ValidateResourceSlice_parts (slice : ResourceSlice) :
  ValidateResourceSlice (Some slice)
  = (if isEmpty (Name slice)
     then [field.Required (field.NewPath ["metadata"; "name"]%string)
             "name is required"]
     else [])
    ++ (if isEmpty (Driver (Spec slice))
        then [field.Required (field.Child (field.NewPath ["spec"%string]) "driver")
                "driver name is required"]
        else [])
    ++ ValidateNodeTopologyInfo (NodeTopology (Spec slice))
         (field.Child (field.NewPath ["spec"%string]) "nodeTopology")
    ++ (if isEmpty (poolName (Pool (Spec slice)))
        then [field.Required
                (field.Child (field.Child (field.NewPath ["spec"%string]) "pool")
                   "name")
                "pool name is required"]
        else [])
    ++ validateDevices (field.NewPath ["spec"%string]) 0 (Devices (Spec slice)) [].
Proof.
  unfold ValidateResourceSlice. cbv zeta.
  rewrite validateDevices_app.
  destruct (NodeTopology (Spec slice)) as [topology|];
    cbn [ValidateNodeTopologyInfo];
    now rewrite !append_if, ?app_nil_l, ?app_nil_r, <- ?app_assoc.
Qed.

Lemma noErrors_ValidateResourceSlice (slice : ResourceSlice) :
  noErrors (ValidateResourceSlice (Some slice)) = validResourceSlice slice.
Proof.
  rewrite ValidateResourceSlice_parts. unfold validResourceSlice.
  rewrite !noErrors_app, !noErrors_if, noErrors_validateDevices, <- !andb_assoc.
  do 2 f_equal. f_equal.
  destruct (NodeTopology (Spec slice)) as [topology|]; [|reflexivity].
  apply noErrors_ValidateNodeTopologyInfo.
Qed.

(** X7.  A resource slice is accepted without an error exactly when it has a
    name, a driver and a pool name, every device has a name, and its node
    topology, when there is one, is accepted.  A nil slice is accepted. *)
Theorem ValidateResourceSlice_accepts (slice : ResourceSlice) :
  (ValidateResourceSlice (Some slice) = [] <-> validResourceSlice slice = true)
  /\ ValidateResourceSlice None = [].
Proof.
  split; [|reflexivity].
  now rewrite <- noErrors_true, noErrors_ValidateResourceSlice.
Qed.

(** X8.  The device errors name the right devices: the slice has a Required
    error at [spec.devices[k].name] exactly when it has a device at index
    [k] whose name is empty. *)
Theorem ValidateResourceSlice_device_index (slice : ResourceSlice) (k : nat) :
  In (field.Required
        [field.Name "spec"; field.Name "devices"; field.Index (Z.of_nat k);
         field.Name "name"]
        "device name is required")
     (ValidateResourceSlice (Some slice))
  <-> exists device : Device,
        Devices (Spec slice) !! k = Some device /\ deviceName device = ""%string.
Proof.
  rewrite ValidateResourceSlice_parts, !in_app_iff, In_validateDevices.
  split.
  - intros [Hin | [Hin | [Hin | [Hin | (k' & d & Hk & Hname & He)]]]].
    + destruct (isEmpty (Name slice)); [|destruct Hin].
      destruct Hin as [Heq | []]. discriminate Heq.
    + destruct (isEmpty (Driver (Spec slice))); [|destruct Hin].
      destruct Hin as [Heq | []]. discriminate Heq.
    + pose proof (ValidateNodeTopologyInfo_under (NodeTopology (Spec slice))
                    (field.Child (field.NewPath ["spec"%string]) "nodeTopology"))
        as Hall.
      rewrite List.Forall_forall in Hall. destruct (Hall _ Hin) as [Ht _].
      discriminate Ht.
    + destruct (isEmpty (poolName (Pool (Spec slice)))); [|destruct Hin].
      destruct Hin as [Heq | []]. discriminate Heq.
    + exists d. split; [|exact Hname].
      injection He as He. assert (k = k') as -> by lia. exact Hk.
  - intros (d & Hk & Hname). do 4 right. exists k, d. auto.
Qed.

(** X9.  The update validator reads the driver of both slices: a nil new or old
    slice makes it panic, although [ValidateResourceSlice] accepts a nil
    slice.  On two slices it returns, and it returns no error exactly when
    the new slice is accepted and keeps the driver of the old one; the old
    slice is not validated. *)
Theorem ValidateResourceSliceUpdate_accepts :
  (forall newResourceSlice oldResourceSlice : option ResourceSlice,
      ValidateResourceSliceUpdate newResourceSlice oldResourceSlice = None
      <-> newResourceSlice = None \/ oldResourceSlice = None) /\
  (forall newSlice oldSlice : ResourceSlice,
      ValidateResourceSliceUpdate (Some newSlice) (Some oldSlice) = Some []
      <-> validResourceSlice newSlice = true
          /\ Driver (Spec newSlice) = Driver (Spec oldSlice)).
Proof.
  split.
  - intros newResourceSlice oldResourceSlice. unfold ValidateResourceSliceUpdate.
    destruct newResourceSlice as [newSlice|], oldResourceSlice as [oldSlice|];
      simpl; try tauto.
    destruct (negb _); split; try discriminate; intros [H | H]; discriminate H.
  - intros newSlice oldSlice.
    unfold ValidateResourceSliceUpdate. cbn [mbind option_bind].
    rewrite <- noErrors_ValidateResourceSlice, noErrors_true.
    destruct (String.eqb_spec (Driver (Spec newSlice)) (Driver (Spec oldSlice)))
      as [Heq | Hne]; cbn [negb].
    + split.
      * intros H. injection H as H. auto.
      * intros [H _]. now rewrite H.
    + split.
      * intros H. injection H as H. apply app_eq_nil in H as [_ H]. discriminate H.
      * intros [_ H]. contradiction.
Qed.

End Validation.

(** ** More on hint equality and the hint order *)

Lemma SFcompare_Eq (x y : spec_float) :
  SFcompare x y = Some Eq ->
  (exists s s', x = S754_zero s /\ y = S754_zero s') \/ x = y.
Proof.
  destruct x as [sx|sx| |sx mx ex], y as [sy|sy| |sy my ey]; simpl;
    try discriminate; try (destruct sx; discriminate);
    try (destruct sy; discriminate).
  - intros _. left. eauto.
  - destruct sx, sy; try discriminate; intros _; now right.
  - intros H. right.
    assert (sx = sy /\ ex = ey /\ mx = my) as (-> & -> & ->); [|reflexivity].
    change PosDef.Pos.compare_cont with Pos.compare_cont in H.
    fold (Pos.compare mx my) in H.
    destruct sx, sy; try discriminate H;
      destruct (Z.compare_spec ex ey) as [He | He | He]; try discriminate H;
      destruct (Pos.compare_spec mx my) as [Hm | Hm | Hm]; try discriminate H;
      auto.
Qed.

Lemma float_eqb_trans (x y z : float) :
  PrimFloat.eqb x y = true -> PrimFloat.eqb y z = true -> PrimFloat.eqb x z = true.
Proof.
  rewrite !FloatAxioms.eqb_spec. unfold SFeqb.
  destruct (SFcompare (Prim2SF x) (Prim2SF y)) as [[]|] eqn:Exy; try discriminate.
  destruct (SFcompare (Prim2SF y) (Prim2SF z)) as [[]|] eqn:Eyz; try discriminate.
  intros _ _.
  destruct (SFcompare_Eq _ _ Exy) as [(s1 & s2 & Hx & Hy) | Hxy].
  - destruct (SFcompare_Eq _ _ Eyz) as [(s3 & s4 & _ & Hz) | Hyz].
    + now rewrite Hx, Hz.
    + now rewrite Hx, <- Hyz, Hy.
  - now rewrite Hxy, Eyz.
Qed.

Lemma equalIntPointer_true (a b : option Z) : equalIntPointer a b = true <-> a = b.
Proof.
  destruct a as [x|], b as [y|]; simpl; try (split; [discriminate|discriminate]);
    [|tauto].
  rewrite Z.eqb_eq. split; congruence.
Qed.

Lemma equalFloat64Pointer_trans (a b c : option float) :
  equalFloat64Pointer a b = true -> equalFloat64Pointer b c = true ->
  equalFloat64Pointer a c = true.
Proof.
  destruct a as [x|], b as [y|], c as [z|]; simpl; try discriminate; auto.
  apply float_eqb_trans.
Qed.

(** [IsEqual] field by field. *)
Lemma IsEqual_true (a b : TopologyHint) :
  IsEqual a b = true <->
  Preferred a = Preferred b /\ NUMANodeAffinity a = NUMANodeAffinity b /\
  HopCount a = HopCount b /\
  equalFloat64Pointer (Bandwidth a) (Bandwidth b) = true /\
  Distance a = Distance b /\
  equalFloat64Pointer (Score a) (Score b) = true.
Proof.
  unfold IsEqual.
  assert (match NUMANodeAffinity a, NUMANodeAffinity b with
          | None, None => false
          | None, Some _ | Some _, None => true
          | Some x, Some y => negb (bitmask.IsEqual x y)
          end = false <-> NUMANodeAffinity a = NUMANodeAffinity b) as HA.
  { destruct (NUMANodeAffinity a) as [ma|], (NUMANodeAffinity b) as [mb|];
      try (split; discriminate); [|tauto].
    unfold bitmask.IsEqual. rewrite negb_false_iff, N.eqb_eq.
    split; congruence. }
  rewrite <- HA, <- !equalIntPointer_true, <- (Bool.eqb_true_iff (Preferred a)).
  destruct (Bool.eqb (Preferred a) (Preferred b)),
    (match NUMANodeAffinity a, NUMANodeAffinity b with
     | None, None => false
     | None, Some _ | Some _, None => true
     | Some x, Some y => negb (bitmask.IsEqual x y)
     end),
    (equalIntPointer (HopCount a) (HopCount b)),
    (equalFloat64Pointer (Bandwidth a) (Bandwidth b)),
    (equalIntPointer (Distance a) (Distance b)),
    (equalFloat64Pointer (Score a) (Score b)); simpl;
    split; try discriminate; try tauto;
    intros (H1 & H2 & H3 & H4 & H5 & H6); discriminate.
Qed.

(** X10.  [IsEqual] is transitive, on all hints. *)
Theorem IsEqual_transitive (a b c : TopologyHint) :
  IsEqual a b = true -> IsEqual b c = true -> IsEqual a c = true.
Proof.
  rewrite !IsEqual_true.
  intros (P1 & A1 & H1 & B1 & D1 & S1) (P2 & A2 & H2 & B2 & D2 & S2).
  repeat split; try congruence; eapply equalFloat64Pointer_trans; eassumption.
Qed.

Lemma IsEqual_transitive_witness :
  IsEqual (mkTopologyHint (Some 1%N) true (Some 0) (Some 0%float) (Some 10) None)
          (mkTopologyHint (Some 1%N) true (Some 0) (Some 0%float) (Some 10) None)
  = true.
Proof.
  apply (IsEqual_transitive
           (mkTopologyHint (Some 1%N) true (Some 0) (Some 0%float) (Some 10) None)
           (mkTopologyHint (Some 1%N) true (Some 0) (Some neg_zero) (Some 10) None)
           (mkTopologyHint (Some 1%N) true (Some 0) (Some 0%float) (Some 10) None));
    reflexivity.
Defined.

Lemma lexLess_irrefl (x : list Z) : bitmask.lexLess x x = false.
Proof.
  induction x as [|a x IH]; simpl; [reflexivity|].
  now rewrite Z.ltb_irrefl.
Qed.

Lemma IsNarrowerThan_irrefl (a : bitmask.BitMask) : bitmask.IsNarrowerThan a a = false.
Proof.
  unfold bitmask.IsNarrowerThan, bitmask.IsProperSubsetOf.
  rewrite (N.eqb_refl a), andb_false_r. apply lexLess_irrefl.
Qed.

Lemma byScore_equal (a b : option float) (next : bool) :
  equalFloat64Pointer a b = true -> byScore a b next = next.
Proof.
  destruct a as [x|], b as [y|]; simpl; try discriminate; [|reflexivity].
  now intros ->.
Qed.

Lemma byHigherFloat_equal (a b : option float) (next : bool) :
  equalFloat64Pointer a b = true -> byHigherFloat a b next = next.
Proof.
  destruct a as [x|], b as [y|]; simpl; try discriminate; try reflexivity.
  now intros ->.
Qed.

Lemma byLowerInt_same (a : option Z) (next : bool) : byLowerInt a a next = next.
Proof. destruct a as [x|]; simpl; [|reflexivity]. now rewrite Z.eqb_refl. Qed.

(** X11.  Two hints [IsEqual] holds of are not ordered: when they have an affinity,
    [LessThan] returns false, under either state of the gate. *)
Theorem LessThan_of_equal_hints (gate : bool) (a b : TopologyHint) :
  IsEqual a b = true -> notNil (NUMANodeAffinity a) = true ->
  LessThan gate a b = Some false.
Proof.
  rewrite IsEqual_true. intros (HP & HA & HH & HB & HD & HS) Haff.
  unfold LessThan. rewrite <- HP, <- HA, <- HH, <- HD, Bool.eqb_reflx.
  destruct (NUMANodeAffinity a) as [ma|]; [|discriminate Haff].
  cbn [negb callIsNarrowerThan mbind option_bind].
  rewrite (byScore_equal _ _ _ HS), !byLowerInt_same,
    (byHigherFloat_equal _ _ _ HB), IsNarrowerThan_irrefl.
  now destruct (gate && _).
Qed.

Lemma LessThan_of_equal_hints_witness :
  LessThan true scenarios.enhancedHint0 scenarios.enhancedHint0 = Some false.
Proof.
  apply (LessThan_of_equal_hints true scenarios.enhancedHint0
           scenarios.enhancedHint0); reflexivity.
Defined.

(** X12.  With the gate on the hint order can cycle: three hints that differ in
    which enhanced fields they carry, each better than the next and the last
    better than the first.  The first two comparisons fall through to the
    affinity masks, the third is decided by the hop count. *)
Theorem LessThan_can_cycle :
  exists a b c : TopologyHint,
    LessThan true a b = Some true /\
    LessThan true b c = Some true /\
    LessThan true c a = Some true.
Proof.
  exists (mkTopologyHint (Some 1%N) true (Some 5) None None None),
         (mkTopologyHint (Some 3%N) true None None None None),
         (mkTopologyHint (Some 7%N) true (Some 3) None None None).
  repeat split.
Qed.

(** X13.  [CreateEnhancedHint] is [SetEnhancedFields] of the three metrics on the
    plain hint followed by [UpdateScore], under either state of the gate. *)
Theorem CreateEnhancedHint_sets_then_scores (gate : bool)
    (numaAffinity : option bitmask.BitMask) (preferred : bool)
    (hopCount : Z) (bandwidth : float) (distance dataSize : Z) :
  CreateEnhancedHint gate numaAffinity preferred hopCount bandwidth distance dataSize
  = UpdateScore gate
      (SetEnhancedFields gate
         (mkTopologyHint numaAffinity preferred None None None None)
         (Some hopCount) (Some bandwidth) (Some distance) None)
      dataSize.
Proof. destruct gate; reflexivity. Qed.

(** X14.  [UpdateScore] reads the three metrics and never the score: a second
    update overwrites the first, and every field but Score is kept. *)
Theorem UpdateScore_overwrites (gate : bool) (th : TopologyHint)
    (dataSize dataSize' : Z) :
  UpdateScore gate (UpdateScore gate th dataSize) dataSize'
  = UpdateScore gate th dataSize'
  /\ NUMANodeAffinity (UpdateScore gate th dataSize) = NUMANodeAffinity th
  /\ Preferred (UpdateScore gate th dataSize) = Preferred th
  /\ HopCount (UpdateScore gate th dataSize) = HopCount th
  /\ Bandwidth (UpdateScore gate th dataSize) = Bandwidth th
  /\ Distance (UpdateScore gate th dataSize) = Distance th.
Proof. destruct gate; repeat split. Qed.

(** ** More on the distributed policy *)

Lemma resourceTypes_elem_of (providersHints : list ProviderHints)
    (acc : gset string) (x : string) :
  x ∈ fold_left
        (fun acc (providerHints : ProviderHints) =>
           fold_left (fun acc entry => {[ fst entry ]} ∪ acc) providerHints acc)
        providersHints acc
  <-> x ∈ acc \/ In x (resourceNames providersHints).
Proof.
  revert acc. induction providersHints as [|ph rest IH]; intros acc; simpl.
  - tauto.
  - rewrite IH, in_app_iff.
    assert (forall acc : gset string,
               x ∈ fold_left (fun acc (entry : string * list TopologyHint) =>
                                {[ fst entry ]} ∪ acc) ph acc
               <-> x ∈ acc \/ In x (map fst ph)) as Hinner.
    { clear. induction ph as [|entry ph IH]; intros acc; simpl; [tauto|].
      rewrite IH, elem_of_union, elem_of_singleton. intuition congruence. }
    rewrite Hinner. tauto.
Qed.

Lemma size_gt_1 (X : gset string) :
  (1 < size X)%nat <-> exists x y, x ∈ X /\ y ∈ X /\ x <> y.
Proof.
  split.
  - intros Hsize.
    destruct (size_pos_elem_of X) as [x Hx]; [lia|].
    destruct (size_pos_elem_of (X ∖ {[ x ]})) as [y Hy].
    { rewrite size_difference by (apply singleton_subseteq_l; exact Hx).
      rewrite size_singleton. lia. }
    apply elem_of_difference in Hy as [Hy Hne].
    exists x, y. repeat split; [exact Hx | exact Hy |].
    intros ->. apply Hne. now apply elem_of_singleton.
  - intros (x & y & Hx & Hy & Hne).
    assert (({[ x ]} ∪ {[ y ]} : gset string) ⊆ X) as Hsub.
    { apply union_subseteq. split; now apply singleton_subseteq_l. }
    apply subseteq_size in Hsub.
    rewrite size_union, !size_singleton in Hsub; [lia|].
    apply disjoint_singleton_l. intros H. apply elem_of_singleton in H. congruence.
Qed.

(** X15.  [hasMultipleResourceTypes] holds exactly when two different resource
    names occur in the input, in one provider's map or in two; how the
    names are spread over the providers and how often a name occurs play no
    role. *)
Theorem hasMultipleResourceTypes_two_names (p : distributedPolicy)
    (providersHints : list ProviderHints) :
  hasMultipleResourceTypes p providersHints = true
  <-> exists r1 r2 : string,
        In r1 (resourceNames providersHints) /\
        In r2 (resourceNames providersHints) /\ r1 <> r2.
Proof.
  unfold hasMultipleResourceTypes. rewrite Z.gtb_lt.
  change 1 with (Z.of_nat 1). rewrite <- Nat2Z.inj_lt, size_gt_1.
  split; intros (x & y & Hx & Hy & Hne); exists x, y.
  - apply resourceTypes_elem_of in Hx, Hy.
    destruct Hx as [Hx | Hx]; [now apply not_elem_of_empty in Hx|].
    destruct Hy as [Hy | Hy]; [now apply not_elem_of_empty in Hy|]. auto.
  - rewrite !resourceTypes_elem_of. auto.
Qed.

(** X16.  On a machine with at most one NUMA node the distributed policy never
    builds a distributed hint: with the gate on, [Merge] returns the hint of
    the enhanced merger, admitted when it has an affinity, whatever the
    number of resource types. *)
Theorem Merge_single_node_keeps_base_hint
    (filterProvidersHints : list ProviderHints -> list (list TopologyHint))
    (HintMerger_Merge : HintMerger -> option TopologyHint)
    (EnhancedHintMerger_Merge : EnhancedHintMerger -> option TopologyHint)
    (p : distributedPolicy) (providersHints : list ProviderHints) :
  (length (Nodes (numaInfo p)) <= 1)%nat ->
  Merge true filterProvidersHints HintMerger_Merge EnhancedHintMerger_Merge
        p providersHints
  = (baseHint ← mergerRun true filterProvidersHints HintMerger_Merge
                  EnhancedHintMerger_Merge p providersHints;
     Some (baseHint, notNil (NUMANodeAffinity baseHint))).
Proof.
  intros Hlen.
  assert ((Z.of_nat (length (Nodes (numaInfo p))) <=? 1) = true) as Hle
    by (apply Z.leb_le; lia).
  unfold Merge, mergerRun, applyDistributionLogic, canAdmitPodResult.
  destruct (hasMultipleResourceTypes p providersHints); cbn [negb].
  - destruct (EnhancedHintMerger_Merge _) as [baseHint|]; [|reflexivity].
    cbn [mbind option_bind]. now rewrite Hle.
  - reflexivity.
Qed.

Lemma Merge_single_node_keeps_base_hint_witness :
  Merge true (fun _ => []) (fun _ => None) (fun _ => Some scenarios.plainHint0)
        (NewDistributedPolicy (mkNUMAInfo [0] [(0, [10])]) (mkPolicyOptions 8))
        scenarios.twoPlainResources
  = Some (scenarios.plainHint0, true).
Proof.
  rewrite (Merge_single_node_keeps_base_hint (fun _ => []) (fun _ => None)
             (fun _ => Some scenarios.plainHint0)
             (NewDistributedPolicy (mkNUMAInfo [0] [(0, [10])]) (mkPolicyOptions 8))
             scenarios.twoPlainResources).
  - reflexivity.
  - simpl. lia.
Defined.

(** X17.  [Merge] panics only when the merger it runs first panics, and the
    admission flag it returns tells whether the returned hint has an
    affinity; this holds for every filter and every pair of mergers and
    under either state of the gate. *)
Theorem Merge_returns_and_admits_by_affinity (gate : bool)
    (filterProvidersHints : list ProviderHints -> list (list TopologyHint))
    (HintMerger_Merge : HintMerger -> option TopologyHint)
    (EnhancedHintMerger_Merge : EnhancedHintMerger -> option TopologyHint)
    (p : distributedPolicy) (providersHints : list ProviderHints) :
  match Merge gate filterProvidersHints HintMerger_Merge EnhancedHintMerger_Merge
              p providersHints with
  | Some (hint, admits) => admits = notNil (NUMANodeAffinity hint)
  | None => mergerRun gate filterProvidersHints HintMerger_Merge
              EnhancedHintMerger_Merge p providersHints = None
  end.
Proof.
  unfold Merge, mergerRun, applyDistributionLogic, canAdmitPodResult.
  destruct gate; cbn [negb].
  - destruct (hasMultipleResourceTypes p providersHints); cbn [negb].
    + destruct (EnhancedHintMerger_Merge _) as [baseHint|]; [|reflexivity].
      cbn [mbind option_bind].
      destruct (_ <=? 1); [reflexivity|].
      destruct (NUMANodeAffinity (createDistributedHint true p providersHints));
        [|reflexivity].
      destruct (_ >? 1); reflexivity.
    + destruct (EnhancedHintMerger_Merge _) as [bestHint|]; reflexivity.
  - destruct (HintMerger_Merge _) as [bestHint|]; reflexivity.
Qed.

Lemma hintCount_collectHints (gate : bool) (providersHints : list ProviderHints) :
  hintCount (collectHints gate providersHints)
  = Z.of_nat (length (affinityHints providersHints)).
Proof.
  rewrite collectHints_allHints.
  destruct (fold_collectHint gate (allHints providersHints)
              (mkTotals 0 0 0%float 0%float 0 true)) as (Hc & _).
  simpl in Hc. now rewrite Hc.
Qed.

(** X18.  The hint of [createDistributedHint] spans all NUMA nodes and carries
    either all four enhanced fields or none: all four when the gate is on
    and some input hint has an affinity, none otherwise. *)
Theorem createDistributedHint_fields_all_or_none (gate : bool)
    (p : distributedPolicy) (providersHints : list ProviderHints) :
  let hint := createDistributedHint gate p providersHints in
  NUMANodeAffinity hint = Some (DefaultAffinityMask (numaInfo p)) /\
  allEnhancedFields hint
  = gate && existsb (fun h => notNil (NUMANodeAffinity h)) (allHints providersHints) /\
  hasEnhancedFields hint = allEnhancedFields hint.
Proof.
  unfold createDistributedHint. rewrite hintCount_collectHints.
  assert ((Z.of_nat (length (affinityHints providersHints)) >? 0)
          = existsb (fun h => notNil (NUMANodeAffinity h)) (allHints providersHints))
    as ->.
  { unfold affinityHints.
    induction (allHints providersHints) as [|h l IH]; [reflexivity|].
    simpl. destruct (notNil (NUMANodeAffinity h)); simpl; [|exact IH].
    apply Z.gtb_lt. lia. }
  destruct (gate && existsb _ _); cbn; auto.
Qed.

(** ** More on the device generator *)

Section GeneratorRuns.

Import devicemanager.

Variable m : ManagerImpl.
Variable resource : string.
Variables available reusable : list string.
Variable request : Z.

(** The generator returns exactly when no mask makes the callback read a
    device that is not in the table, and then it returns one hint for each
    emitted mask, in the order of the enumeration. *)
Lemma generateDeviceTopologyHints_runs (gate : bool) :
  generateDeviceTopologyHints gate m resource available reusable request
  = if forallb (fun mask => notNil (emits m resource available reusable request mask))
               (bitmask.IterateBitMasks (numaNodes m))
    then Some (map (fun mask => marked (minAffinitySizeOf m resource request)
                                       (newHint gate m resource request mask))
                   (List.filter (emitted m resource available reusable request)
                                (bitmask.IterateBitMasks (numaNodes m))))
    else None.
Proof.
  destruct (generateDeviceTopologyHints gate m resource available reusable request)
    as [hints|] eqn:E.
  - apply generateDeviceTopologyHints_Some in E as [-> Hall].
    replace (forallb _ _) with true; [reflexivity|].
    symmetry. apply forallb_forall. intros mask Hin.
    rewrite List.Forall_forall in Hall. specialize (Hall mask Hin).
    now destruct (emits m resource available reusable request mask).
  - destruct (forallb _ _) eqn:Hall; [|reflexivity].
    exfalso. rewrite forallb_forall in Hall.
    unfold generateDeviceTopologyHints in E.
    destruct (foldPanic_visitMask_returns gate m resource available reusable request
                (bitmask.IterateBitMasks (numaNodes m))
                (Z.of_nat (length (numaNodes m)), [])) as [st Hst].
    + apply List.Forall_forall. intros mask Hin. specialize (Hall mask Hin).
      now destruct (emits m resource available reusable request mask).
    + rewrite Hst in E. cbn [mbind option_bind] in E.
      apply foldPanic_visitMask in Hst as [-> _]. cbn [fst snd app] in E.
      rewrite foldPanic_markPreferred in E; [discriminate E|].
      apply List.Forall_forall. intros h Hin.
      apply in_map_iff in Hin as (mask & <- & _).
      now rewrite newHint_affinity.
Qed.

Lemma marked_newHint (gate : bool) (minAffinitySize : Z) (mask : bitmask.BitMask) :
  NUMANodeAffinity (marked minAffinitySize (newHint gate m resource request mask))
  = Some mask /\
  Preferred (marked minAffinitySize (newHint gate m resource request mask))
  = (bitmask.Count mask =? minAffinitySize).
Proof.
  rewrite marked_affinity, newHint_affinity. split; [reflexivity|].
  unfold marked. rewrite newHint_affinity.
  destruct (bitmask.Count mask =? minAffinitySize); [reflexivity|].
  apply newHint_preferred.
Qed.

End GeneratorRuns.

(** X19.  The gate changes neither when the device generator returns nor which
    masks it emits nor which hints it prefers: the two runs give the same
    sequence of affinities and Preferred flags, and panic on the same
    inputs. *)
Theorem generated_masks_independent_of_gate (m : devicemanager.ManagerImpl)
    (resource : string) (available reusable : list string) (request : Z) :
  option_map (map (fun h => (NUMANodeAffinity h, Preferred h)))
    (devicemanager.generateDeviceTopologyHints true m resource available
       reusable request)
  = option_map (map (fun h => (NUMANodeAffinity h, Preferred h)))
      (devicemanager.generateDeviceTopologyHints false m resource available
         reusable request).
Proof.
  rewrite !generateDeviceTopologyHints_runs.
  destruct (forallb _ _); [|reflexivity].
  cbn [option_map]. f_equal. rewrite !map_map. apply map_ext. intros mask.
  destruct (marked_newHint m resource request true
              (minAffinitySizeOf m resource request) mask) as [-> ->].
  destruct (marked_newHint m resource request false
              (minAffinitySizeOf m resource request) mask) as [-> ->].
  reflexivity.
Qed.

Lemma countIf_Permutation {A : Type} (f : A -> bool) (l l' : list A) :
  Permutation l l' -> countIf f l = countIf f l'.
Proof.
  induction 1 as [|x l l' _ IH|x y l|l l' l'' _ IH1 _ IH2];
    rewrite ?countIf_cons; try reflexivity; try lia.
Qed.

Lemma forallb_Permutation {A : Type} (f : A -> bool) (l l' : list A) :
  Permutation l l' -> forallb f l = forallb f l'.
Proof.
  induction 1 as [|x l l' _ IH|x y l|l l' l'' _ IH1 _ IH2]; simpl;
    try reflexivity.
  - now rewrite IH.
  - destruct (f x), (f y); reflexivity.
  - now rewrite IH1.
Qed.

Lemma forallb_pointwise {A : Type} (f g : A -> bool) (l : list A) :
  (forall x, f x = g x) -> forallb f l = forallb g l.
Proof.
  intros Hfg. induction l as [|x l IH]; simpl; [reflexivity|].
  now rewrite Hfg, IH.
Qed.

Lemma countIf_bounds {A : Type} (f : A -> bool) (l : list A) :
  0 <= countIf f l <= Z.of_nat (length l).
Proof.
  induction l as [|x l IH]; [unfold countIf; simpl; lia|].
  rewrite countIf_cons. simpl length. destruct (f x); lia.
Qed.

Lemma countIf_all {A : Type} (f : A -> bool) (l : list A) :
  Z.of_nat (length l) <= countIf f l -> forall x, In x l -> f x = true.
Proof.
  induction l as [|y l IH]; [intros _ x []|].
  rewrite countIf_cons. simpl length. intros Hle x [<- | Hin].
  - pose proof (countIf_bounds f l). destruct (f y); [reflexivity|lia].
  - apply IH; [|exact Hin].
    pose proof (countIf_bounds f l). destruct (f y); lia.
Qed.

Lemma countIf_none {A : Type} (f : A -> bool) (l : list A) :
  (forall x, In x l -> f x = false) -> countIf f l = 0.
Proof.
  induction l as [|y l IH]; intros Hall; [reflexivity|].
  rewrite countIf_cons, (Hall y) by now left.
  rewrite IH; [reflexivity|]. intros x Hin. apply Hall. now right.
Qed.

Section GeneratorMasks.

Import devicemanager.

Variable m : ManagerImpl.
Variable resource : string.

(** With every id in the table the callback does not panic, and whether it
    emits the mask is read off the counts. *)
Lemma emits_known (available reusable : list string) (request : Z)
    (mask : bitmask.BitMask) :
  devicesKnown m resource (available ++ reusable) ->
  emits m resource available reusable request mask
  = Some (reusableFits m resource reusable mask
          && (topologyBearingReusable m resource reusable
              + availableInMask m resource available mask >=? request)).
Proof.
  unfold devicesKnown. intros Hknown. apply List.Forall_app in Hknown as [Ha Hr].
  destruct (emits m resource available reusable request mask) as [e|] eqn:E.
  - f_equal. now apply emits_Some.
  - exfalso. unfold emits in E.
    pose proof (reusableLoop_known (devicesOf m resource) mask reusable 0 Hr) as H1.
    destruct (reusableLoop _ mask reusable 0) as [[n|]|]; simpl in E;
      [|discriminate E|congruence].
    pose proof (availableLoop_known (devicesOf m resource) mask available n Ha) as H2.
    destruct (availableLoop _ mask available n); simpl in E;
      [discriminate E|congruence].
Qed.

(** Whether the callback panics on a mask does not depend on the request. *)
Lemma emits_panics_whatever_request (available reusable : list string)
    (request request' : Z) (mask : bitmask.BitMask) :
  notNil (emits m resource available reusable request mask)
  = notNil (emits m resource available reusable request' mask).
Proof.
  unfold emits.
  destruct (reusableLoop _ mask reusable 0) as [[n|]|]; simpl; try reflexivity.
  destruct (availableLoop _ mask available n); reflexivity.
Qed.

Lemma emitted_formula (available reusable : list string) (request : Z)
    (mask : bitmask.BitMask) :
  emitted m resource available reusable request mask = true ->
  reusableFits m resource reusable mask = true /\
  request <= topologyBearingReusable m resource reusable
             + availableInMask m resource available mask.
Proof.
  unfold emitted.
  destruct (emits m resource available reusable request mask) as [[|]|] eqn:E;
    try discriminate.
  intros _. apply emits_Some in E. symmetry in E.
  apply andb_true_iff in E as [Hfits Hcount]. split; [exact Hfits|].
  rewrite Z.geb_leb in Hcount. now apply Z.leb_le.
Qed.

End GeneratorMasks.

(** X20.  The hints do not depend on the order in which the two sets of device
    ids are ranged over, when every id is in the device table. *)
Theorem generated_hints_independent_of_set_order (gate : bool)
    (m : devicemanager.ManagerImpl) (resource : string)
    (available available' reusable reusable' : list string) (request : Z) :
  devicesKnown m resource (available ++ reusable) ->
  Permutation available available' -> Permutation reusable reusable' ->
  devicemanager.generateDeviceTopologyHints gate m resource available reusable
    request
  = devicemanager.generateDeviceTopologyHints gate m resource available'
      reusable' request.
Proof.
  intros Hknown Ha Hr.
  assert (devicesKnown m resource (available' ++ reusable')) as Hknown'.
  { unfold devicesKnown in *. rewrite List.Forall_forall in *.
    intros d Hin. apply Hknown.
    apply in_app_iff. apply in_app_iff in Hin as [Hin | Hin]; [left | right].
    - eapply Permutation_in; [symmetry; exact Ha | exact Hin].
    - eapply Permutation_in; [symmetry; exact Hr | exact Hin]. }
  assert (forall mask,
             emits m resource available reusable request mask
             = emits m resource available' reusable' request mask) as Hemits.
  { intros mask. rewrite !emits_known by assumption.
    unfold reusableFits, topologyBearingReusable, availableInMask.
    now rewrite (forallb_Permutation _ _ _ Hr), (countIf_Permutation _ _ _ Hr),
      (countIf_Permutation _ _ _ Ha). }
  rewrite !generateDeviceTopologyHints_runs.
  rewrite (List.filter_ext (emitted m resource available reusable request)
             (emitted m resource available' reusable' request))
    by (intros mask; unfold emitted; now rewrite Hemits).
  replace (forallb (fun mask => notNil (emits m resource available reusable
                                          request mask)) _)
    with (forallb (fun mask => notNil (emits m resource available' reusable'
                                         request mask))
                  (bitmask.IterateBitMasks (devicemanager.numaNodes m)));
    [reflexivity|].
  apply forallb_pointwise. intros mask. now rewrite Hemits.
Qed.

Lemma generated_hints_independent_of_set_order_witness :
  devicemanager.generateDeviceTopologyHints true scenarios.fourNodeManager
    "testdevice" ["Dev0"; "Dev1"]%string [] 2
  = devicemanager.generateDeviceTopologyHints true scenarios.fourNodeManager
      "testdevice" ["Dev1"; "Dev0"]%string [] 2.
Proof.
  apply (generated_hints_independent_of_set_order true scenarios.fourNodeManager
           "testdevice" ["Dev0"; "Dev1"]%string ["Dev1"; "Dev0"]%string [] [] 2).
  - repeat constructor; vm_compute; discriminate.
  - apply perm_swap.
  - apply perm_nil.
Defined.

(** X21.  A smaller request loses no mask: when the generator returns for a
    request it returns for every smaller one, and every affinity it emitted
    is emitted again. *)
Theorem smaller_request_keeps_masks (gate : bool)
    (m : devicemanager.ManagerImpl) (resource : string)
    (available reusable : list string) (request request' : Z)
    (hints : list TopologyHint) :
  request' <= request ->
  devicemanager.generateDeviceTopologyHints gate m resource available reusable
    request = Some hints ->
  exists hints',
    devicemanager.generateDeviceTopologyHints gate m resource available
      reusable request' = Some hints' /\
    incl (map NUMANodeAffinity hints) (map NUMANodeAffinity hints').
Proof.
  intros Hle. rewrite !generateDeviceTopologyHints_runs.
  rewrite (forallb_pointwise _
             (fun mask => notNil (emits m resource available reusable request' mask)))
    by (intros mask; apply emits_panics_whatever_request).
  destruct (forallb _ _) eqn:Hall; [|discriminate].
  intros [= <-]. eexists. split; [reflexivity|].
  rewrite !map_map. intros a Hin.
  apply in_map_iff in Hin as (mask & <- & Hin).
  apply filter_In in Hin as [Hin Hemitted].
  destruct (marked_newHint m resource request gate
              (minAffinitySizeOf m resource request) mask) as [-> _].
  apply in_map_iff. exists mask. split.
  - now destruct (marked_newHint m resource request' gate
                    (minAffinitySizeOf m resource request') mask) as [-> _].
  - apply filter_In. split; [exact Hin|].
    apply emitted_formula in Hemitted as [Hfits Hcount].
    rewrite forallb_forall in Hall. specialize (Hall mask Hin).
    unfold emitted.
    destruct (emits m resource available reusable request' mask) as [e|] eqn:E;
      [|discriminate Hall].
    apply emits_Some in E. rewrite E, Hfits. cbn [andb].
    rewrite Z.geb_leb.
    destruct (Z.leb_spec request'
                (topologyBearingReusable m resource reusable
                 + availableInMask m resource available mask)); [reflexivity|lia].
Qed.

Lemma smaller_request_keeps_masks_witness :
  exists hints hints',
    devicemanager.generateDeviceTopologyHints true scenarios.fourNodeManager
      "testdevice" ["Dev0"; "Dev1"]%string [] 2 = Some hints /\
    devicemanager.generateDeviceTopologyHints true scenarios.fourNodeManager
      "testdevice" ["Dev0"; "Dev1"]%string [] 1 = Some hints' /\
    incl (map NUMANodeAffinity hints) (map NUMANodeAffinity hints').
Proof.
  destruct (devicemanager.generateDeviceTopologyHints true scenarios.fourNodeManager
              "testdevice" ["Dev0"; "Dev1"]%string [] 2) as [hints|] eqn:E.
  - destruct (smaller_request_keeps_masks true scenarios.fourNodeManager
                "testdevice" ["Dev0"; "Dev1"]%string [] 2 1 hints ltac:(lia) E)
      as (hints' & Hgen & Hincl).
    exists hints, hints'. split; [reflexivity|]. split; [exact Hgen | exact Hincl].
  - vm_compute in E. discriminate E.
Defined.

Section GeneratorWithoutAlignment.

Import devicemanager.

Variable m : ManagerImpl.
Variable resource : string.

Hypothesis Hnone : deviceHasTopologyAlignment m resource = false.

Lemma no_alignment_no_nodes (d : string) (device : pluginapi.Device) :
  devicesOf m resource !! d = Some device ->
  getNUMANodeIds (pluginapi.Topology device) = [].
Proof.
  intros Hd. unfold deviceHasTopologyAlignment in Hnone.
  assert (In device (map snd (map_to_list (devicesOf m resource)))) as Hin.
  { apply in_map_iff. exists (d, device). split; [reflexivity|].
    apply list_elem_of_In, elem_of_map_to_list. exact Hd. }
  assert (match pluginapi.Topology device with
          | Some topology => Z.of_nat (length (pluginapi.Nodes topology)) >? 0
          | None => false
          end = false) as Hdev.
  { destruct (match pluginapi.Topology device with
              | Some topology => Z.of_nat (length (pluginapi.Nodes topology)) >? 0
              | None => false
              end) eqn:E; [|reflexivity].
    rewrite <- Hnone. symmetry. apply existsb_exists. eauto. }
  destruct (pluginapi.Topology device) as [topology|]; [|reflexivity].
  simpl. destruct (pluginapi.Nodes topology); [reflexivity|].
  simpl length in Hdev. rewrite Z.gtb_ltb in Hdev. apply Z.ltb_ge in Hdev. lia.
Qed.

Lemma no_alignment_availableInMask (available : list string)
    (mask : bitmask.BitMask) :
  availableInMask m resource available mask = 0.
Proof.
  apply countIf_none. intros d _.
  destruct (devicesOf m resource !! d) as [device|] eqn:Hd; [|reflexivity].
  now rewrite (no_alignment_no_nodes d device Hd).
Qed.

Lemma no_alignment_topologyBearingReusable (reusable : list string)
    (mask : bitmask.BitMask) :
  reusableFits m resource reusable mask = true ->
  topologyBearingReusable m resource reusable = 0.
Proof.
  unfold reusableFits. rewrite forallb_forall. intros Hfits.
  apply countIf_none. intros d Hin. specialize (Hfits d Hin).
  destruct (devicesOf m resource !! d) as [device|] eqn:Hd; [|reflexivity].
  rewrite (no_alignment_no_nodes d device Hd) in Hfits.
  now destruct (notNil (pluginapi.Topology device)).
Qed.

End GeneratorWithoutAlignment.

(** X22.  For a resource none of whose devices declares a NUMA node
    ([deviceHasTopologyAlignment] is false) the generator finds no mask for
    a request of at least one device: it returns no hint at all. *)
Theorem no_alignment_no_hints (gate : bool) (m : devicemanager.ManagerImpl)
    (resource : string) (available reusable : list string) (request : Z)
    (hints : list TopologyHint) :
  devicemanager.deviceHasTopologyAlignment m resource = false ->
  0 < request ->
  devicemanager.generateDeviceTopologyHints gate m resource available reusable
    request = Some hints ->
  hints = [].
Proof.
  intros Hnone Hpos Hgen.
  apply generateDeviceTopologyHints_Some in Hgen as [-> _].
  replace (List.filter _ _) with (@nil bitmask.BitMask); [reflexivity|].
  symmetry. induction (bitmask.IterateBitMasks _) as [|mask masks IH];
    [reflexivity|].
  simpl. rewrite <- IH.
  destruct (emitted m resource available reusable request mask) eqn:E;
    [|reflexivity].
  apply emitted_formula in E as [Hfits Hcount].
  rewrite (no_alignment_availableInMask m resource Hnone),
    (no_alignment_topologyBearingReusable m resource Hnone reusable mask Hfits)
    in Hcount.
  lia.
Qed.

Lemma no_alignment_no_hints_witness :
  devicemanager.generateDeviceTopologyHints true unalignedManager "testdevice"
    ["Dev0"; "Dev1"]%string [] 1
  = Some [].
Proof.
  destruct (devicemanager.generateDeviceTopologyHints true unalignedManager
              "testdevice" ["Dev0"; "Dev1"]%string [] 1) as [hints|] eqn:E.
  - f_equal.
    apply (no_alignment_no_hints true unalignedManager "testdevice"
             ["Dev0"; "Dev1"]%string [] 1 hints);
      [vm_compute; reflexivity | lia | exact E].
  - vm_compute in E. discriminate E.
Defined.

(** X23.  The hints regenerated for devices that are already allocated (the
    allocated ids as the available set, no reusable one, the request their
    number) only name masks that hold a NUMA node of every allocated
    device. *)
Theorem regenerated_hints_cover_allocated (gate : bool)
    (m : devicemanager.ManagerImpl) (resource : string)
    (allocated : list string) (hints : list TopologyHint) :
  devicemanager.generateDeviceTopologyHints gate m resource allocated []
    (Z.of_nat (length allocated)) = Some hints ->
  forall h, In h hints ->
    exists mask,
      NUMANodeAffinity h = Some mask /\
      forall d, In d allocated ->
        exists device,
          devicemanager.devicesOf m resource !! d = Some device /\
          bitmask.AnySet mask
            (devicemanager.getNUMANodeIds (pluginapi.Topology device)) = true.
Proof.
  intros Hgen h Hin.
  apply generateDeviceTopologyHints_Some in Hgen as [-> _].
  apply in_map_iff in Hin as (mask & <- & Hin).
  apply filter_In in Hin as [_ Hemitted].
  exists mask. split; [now rewrite marked_affinity, newHint_affinity|].
  apply emitted_formula in Hemitted as [_ Hcount].
  unfold topologyBearingReusable, availableInMask in Hcount.
  change (countIf _ []) with 0 in Hcount. rewrite Z.add_0_l in Hcount.
  intros d Hd. pose proof (countIf_all _ _ Hcount d Hd) as Hdev.
  cbv beta in Hdev.
  destruct (devicemanager.devicesOf m resource !! d) as [device|];
    [eauto | discriminate Hdev].
Qed.

Lemma regenerated_hints_cover_allocated_witness :
  exists hints,
    devicemanager.generateDeviceTopologyHints true scenarios.fourNodeManager
      "testdevice" ["Dev0"; "Dev1"]%string [] 2 = Some hints /\
    forall h, In h hints ->
      exists mask,
        NUMANodeAffinity h = Some mask /\
        forall d, In d ["Dev0"; "Dev1"]%string ->
          exists device,
            devicemanager.devicesOf scenarios.fourNodeManager "testdevice" !! d
            = Some device /\
            bitmask.AnySet mask
              (devicemanager.getNUMANodeIds (pluginapi.Topology device)) = true.
Proof.
  destruct (devicemanager.generateDeviceTopologyHints true scenarios.fourNodeManager
              "testdevice" ["Dev0"; "Dev1"]%string [] 2) as [hints|] eqn:E.
  - exists hints. split; [reflexivity|].
    exact (regenerated_hints_cover_allocated true scenarios.fourNodeManager
             "testdevice" ["Dev0"; "Dev1"]%string hints E).
  - vm_compute in E. discriminate E.
Defined.

Lemma marked_fields (minAffinitySize : Z) (h : TopologyHint) :
  HopCount (marked minAffinitySize h) = HopCount h /\
  Bandwidth (marked minAffinitySize h) = Bandwidth h /\
  Distance (marked minAffinitySize h) = Distance h /\
  Score (marked minAffinitySize h) = Score h.
Proof.
  unfold marked. destruct (NUMANodeAffinity h) as [affinity|]; [|tauto].
  destruct (bitmask.Count affinity =? minAffinitySize); simpl; tauto.
Qed.

Lemma float_floor (x floor : float) :
  PrimFloat.ltb floor floor = false ->
  PrimFloat.ltb (if PrimFloat.ltb x floor then floor else x) floor = false.
Proof. intros Hfloor. destruct (PrimFloat.ltb x floor) eqn:E; assumption. Qed.

(** X24.  With the gate on, the fields of every generated hint are tied to its
    mask: the hop count is the number of nodes of the mask less one, the
    distance is 10 plus 20 per hop, the bandwidth is never below the floor
    of 10 and the score is never below 0. *)
Theorem generated_hint_fields_in_range (m : devicemanager.ManagerImpl)
    (resource : string) (available reusable : list string) (request : Z)
    (hints : list TopologyHint) :
  List.Forall (fun n => 0 <= n) (devicemanager.numaNodes m) ->
  devicemanager.generateDeviceTopologyHints true m resource available reusable
    request = Some hints ->
  forall h, In h hints ->
    exists (mask : bitmask.BitMask) (bandwidth score : float),
      NUMANodeAffinity h = Some mask /\
      1 <= bitmask.Count mask /\
      HopCount h = Some (bitmask.Count mask - 1) /\
      Distance h = Some (10 + 20 * (bitmask.Count mask - 1)) /\
      Bandwidth h = Some bandwidth /\ PrimFloat.ltb bandwidth 10 = false /\
      Score h = Some score /\ PrimFloat.ltb score 0 = false.
Proof.
  intros Hpos Hgen h Hin.
  apply generateDeviceTopologyHints_Some in Hgen as [-> _].
  apply in_map_iff in Hin as (mask & <- & Hmask).
  apply filter_In in Hmask as [Hmask _].
  apply (IterateBitMasks_nonempty _ _ Hpos) in Hmask.
  destruct (marked_fields (minAffinitySizeOf m resource request)
              (newHint true m resource request mask)) as (-> & -> & -> & ->).
  destruct (newHint_enhanced_fields true m resource request mask eq_refl Hmask)
    as (Hhop & -> & -> & -> & _).
  rewrite (newHint_score m resource request mask Hmask).
  eexists mask, _, _.
  split; [now rewrite marked_affinity, newHint_affinity|].
  split; [lia|]. split; [reflexivity|]. split.
  { f_equal. destruct (Z.eqb_spec (bitmask.Count mask) 1) as [-> | _]; lia. }
  split; [reflexivity|]. split; [now apply float_floor|].
  split; [reflexivity|]. unfold claimedScore. now apply float_floor.
Qed.

Lemma generated_hint_fields_in_range_witness :
  exists hints,
    devicemanager.generateDeviceTopologyHints true scenarios.fourNodeManager
      "testdevice" ["Dev0"; "Dev1"]%string [] 2 = Some hints /\
    forall h, In h hints ->
      exists (mask : bitmask.BitMask) (bandwidth score : float),
        NUMANodeAffinity h = Some mask /\
        1 <= bitmask.Count mask /\
        HopCount h = Some (bitmask.Count mask - 1) /\
        Distance h = Some (10 + 20 * (bitmask.Count mask - 1)) /\
        Bandwidth h = Some bandwidth /\ PrimFloat.ltb bandwidth 10 = false /\
        Score h = Some score /\ PrimFloat.ltb score 0 = false.
Proof.
  destruct (devicemanager.generateDeviceTopologyHints true scenarios.fourNodeManager
              "testdevice" ["Dev0"; "Dev1"]%string [] 2) as [hints|] eqn:E.
  - exists hints. split; [reflexivity|].
    apply (generated_hint_fields_in_range scenarios.fourNodeManager "testdevice"
             ["Dev0"; "Dev1"]%string [] 2 hints); [|exact E].
    repeat constructor; discriminate.
  - vm_compute in E. discriminate E.
Defined.

Lemma countIf_mono {A : Type} (f g : A -> bool) (l : list A) :
  (forall x, f x = true -> g x = true) -> countIf f l <= countIf g l.
Proof.
  intros Hfg. induction l as [|x l IH]; [reflexivity|].
  rewrite !countIf_cons. specialize (Hfg x).
  destruct (f x), (g x); first [lia | discriminate (Hfg eq_refl)].
Qed.

Lemma AnySet_mono (mask mask' : bitmask.BitMask) (bits : list Z) :
  (forall b, bitmask.IsSet mask b = true -> bitmask.IsSet mask' b = true) ->
  bitmask.AnySet mask bits = true -> bitmask.AnySet mask' bits = true.
Proof.
  unfold bitmask.AnySet. intros Hsub H.
  apply existsb_exists in H as (b & Hin & Hb).
  apply existsb_exists. exists b. auto.
Qed.

(** X25.  The emitted masks are closed upwards: when a mask is emitted, so is
    every enumerated mask that contains it. *)
Theorem generated_masks_upward_closed (gate : bool)
    (m : devicemanager.ManagerImpl) (resource : string)
    (available reusable : list string) (request : Z)
    (hints : list TopologyHint) (mask mask' : bitmask.BitMask) :
  devicemanager.generateDeviceTopologyHints gate m resource available reusable
    request = Some hints ->
  In (Some mask) (map NUMANodeAffinity hints) ->
  In mask' (bitmask.IterateBitMasks (devicemanager.numaNodes m)) ->
  (forall b, bitmask.IsSet mask b = true -> bitmask.IsSet mask' b = true) ->
  In (Some mask') (map NUMANodeAffinity hints).
Proof.
  intros Hgen Hin Hmask' Hsub.
  apply generateDeviceTopologyHints_Some in Hgen as [-> Hall].
  rewrite map_map in *.
  apply in_map_iff in Hin as (mask0 & Haff & Hin).
  rewrite marked_affinity, newHint_affinity in Haff. injection Haff as ->.
  apply filter_In in Hin as [_ Hemitted].
  apply in_map_iff. exists mask'.
  split; [now rewrite marked_affinity, newHint_affinity|].
  apply filter_In. split; [exact Hmask'|].
  apply emitted_formula in Hemitted as [Hfits Hcount].
  rewrite List.Forall_forall in Hall. specialize (Hall mask' Hmask').
  unfold emitted.
  destruct (emits m resource available reusable request mask') as [e|] eqn:E;
    [|congruence].
  apply emits_Some in E. rewrite E. clear E Hall.
  assert (reusableFits m resource reusable mask' = true) as ->.
  { unfold reusableFits in *. rewrite forallb_forall in *.
    intros d Hd. specialize (Hfits d Hd).
    destruct (devicemanager.devicesOf m resource !! d) as [device|];
      [|reflexivity].
    apply orb_true_iff in Hfits as [Hnil | Hany]; apply orb_true_iff;
      [now left | right].
    now apply (AnySet_mono mask mask'). }
  cbn [andb]. rewrite Z.geb_leb.
  assert (availableInMask m resource available mask
          <= availableInMask m resource available mask') as Hmono.
  { apply countIf_mono. intros d.
    destruct (devicemanager.devicesOf m resource !! d) as [device|];
      [|discriminate].
    now apply AnySet_mono. }
  destruct (Z.leb_spec request
              (topologyBearingReusable m resource reusable
               + availableInMask m resource available mask'));
    [reflexivity | lia].
Qed.

Lemma generated_masks_upward_closed_witness :
  exists hints,
    devicemanager.generateDeviceTopologyHints true scenarios.fourNodeManager
      "testdevice" ["Dev0"; "Dev1"]%string [] 2 = Some hints /\
    In (Some 3%N) (map NUMANodeAffinity hints) /\
    In (Some 15%N) (map NUMANodeAffinity hints).
Proof.
  destruct (devicemanager.generateDeviceTopologyHints true scenarios.fourNodeManager
              "testdevice" ["Dev0"; "Dev1"]%string [] 2) as [hints|] eqn:E.
  - exists hints. split; [reflexivity|].
    assert (In (Some 3%N) (map NUMANodeAffinity hints)) as Hin.
    { vm_compute in E. injection E as <-. vm_compute. tauto. }
    split; [exact Hin|].
    apply (generated_masks_upward_closed true scenarios.fourNodeManager
             "testdevice" ["Dev0"; "Dev1"]%string [] 2 hints 3%N 15%N E Hin).
    + vm_compute. tauto.
    + intros b Hb. unfold bitmask.IsSet in *.
      apply andb_true_iff in Hb as [Hpos Hbit]. rewrite Hpos. cbn [andb].
      destruct (Z.to_N b) as [|[p|p|]]; try reflexivity;
        destruct p; try reflexivity; discriminate Hbit.
  - vm_compute in E. discriminate E.
Defined.
